(** * Download sessions, progress streaming and retention sweep

    A shallow embedding of the download-session pipeline of the Snapload
    backend: [app.py] (safety gate, session registry, fetch-and-stream
    handlers, progress publisher), [services/task_service.py] and
    [models.py] (task records) and the task-record part of
    [utils/file_cleanup.py].

    Conventions of the embedding.
    - Python dictionaries used as maps are [gmap string _].
    - Operating-system and network calls are explicit: the file system is a
      value of type [Fs.t] threaded through the code, and everything the
      outside world decides (DNS, upstream HTTP responses, the extractor,
      the clock) is read from an oracle record passed to the handler.
    - Exceptions and early [return]s are the two abrupt outcomes of the
      small monad [M]; a handler's outer [try/except] is the handler
      argument of [view].
    - Times are whole seconds counted from [datetime.min]; [percent] values
      are kept in tenths of a percent, the value of [round(x, 1)] for the
      binary floating-point number [x] the code computes (see [round1]).
    - A file-system object has one name, the key it is stored under in
      [Fs.t]: the file system has no links, and an operation finds an
      object only under that name, not under an alias such as a path
      through [..].  Where names from different sources meet (the
      [storage_path] of a task record, the folders of the scheduler) the
      name is the canonical one, an absolute path without empty, [.] or
      [..] components (see [canonical]), and the theorems say so. *)

From Stdlib Require Import ZArith Ascii String List Lia Bool Sorted.
From stdpp Require Import base option list gmap strings pretty.

Local Open Scope string_scope.
Local Open Scope list_scope.
Local Open Scope Z_scope.

(** ** Strings *)

(** Python truthiness of a string. *)
Definition truthy (s : string) : bool := negb (String.eqb s "").

(** Truthiness of a value that may be [None]. *)
Definition otruthy (o : option string) : bool :=
  match o with Some s => truthy s | None => false end.

(** [s.startswith(p)] *)
Definition startswith (s p : string) : bool := String.prefix p s.

(** [s.endswith(p)] *)
Definition endswith (s p : string) : bool :=
  String.prefix (String.rev p) (String.rev s).

(** [s.split(':', 1)[0]] *)
Fixpoint before_colon (s : string) : string :=
  match s with
  | EmptyString => EmptyString
  | String c r => if Ascii.eqb c ":"%char then EmptyString else String c (before_colon r)
  end.

(** [os.path.join(d, f)] for a directory name [d] without trailing slash:
    an absolute [f] discards [d]. *)
Definition path_join (d f : string) : string :=
  if startswith f "/" then f else d +:+ "/" +:+ f.

(** [strip_prefix a p] is [Some n] exactly when [p = a ++ n]. *)
Fixpoint strip_prefix (a p : string) : option string :=
  match a, p with
  | EmptyString, _ => Some p
  | String c a', String d p' => if Ascii.eqb c d then strip_prefix a' p' else None
  | String _ _, EmptyString => None
  end.

Fixpoint has_slash (s : string) : bool :=
  match s with
  | EmptyString => false
  | String c r => Ascii.eqb c "/"%char || has_slash r
  end.

(** [s.split('/')] *)
Fixpoint split_slash (s : string) : list string :=
  match s with
  | EmptyString => [EmptyString]
  | String c r =>
      if Ascii.eqb c "/"%char then EmptyString :: split_slash r
      else match split_slash r with
           | x :: l => String c x :: l
           | [] => [String c EmptyString]
           end
  end.

(** A component that names an entry of a directory: not empty, not [.]
    and not [..]. *)
Definition proper_component (c : string) : bool :=
  truthy c && negb (String.eqb c ".") && negb (String.eqb c "..").

(** A canonical name: an absolute path all of whose components are
    proper.  Without links, two canonical names denote the same object
    only if they are the same string. *)
Definition canonical (p : string) : bool :=
  match split_slash p with
  | EmptyString :: c :: rest => forallb proper_component (c :: rest)
  | _ => false
  end.

Fixpoint has_nul (s : string) : bool :=
  match s with
  | EmptyString => false
  | String c r => Ascii.eqb c "000"%char || has_nul r
  end.

(** A file name that [open] accepts for a new file in an existing
    directory: one proper component of at most 255 bytes without a NUL
    byte. *)
Definition plain_name (f : string) : bool :=
  proper_component f && negb (has_slash f) && negb (has_nul f)
  && (Nat.leb (String.length f) 255).

(** The proper prefixes of [p] that end just before a [/]: the
    directories above [p]. *)
Fixpoint ancestors_from (pre s : string) : list string :=
  match s with
  | EmptyString => []
  | String c r =>
      (if Ascii.eqb c "/"%char && truthy pre then [pre] else [])
      ++ ancestors_from (pre +:+ String c EmptyString) r
  end.

Definition ancestors (p : string) : list string := ancestors_from "" p.

(** ** Progress snapshots

    The dictionaries stored in [download_progress].  Every payload written
    by the application has a [status]; the other keys are optional. *)

Record snapshot : Type := Snapshot {
  status : string;
  message : option string;
  percent : option Z;      (* tenths of a percent *)
  downloaded : option Z;
  total : option Z
}.

#[global] Instance snapshot_eq_dec : EqDecision snapshot.
Proof. solve_decision. Defined.

(** ** File system *)

Module Fs.

(** [files] maps each regular file to its size, [dirs] is the set of
    directories, [locked] the paths on which [os.remove] fails with an
    [OSError] (permissions, file in use), and [dir_size d] what
    [os.path.getsize] answers for the directory [d]. *)
Record t : Type := Make {
  files : gmap string Z;
  dirs : gset string;
  locked : gset string;
  dir_size : string -> Z
}.

Definition is_file (fs : t) (p : string) : bool :=
  bool_decide (is_Some (files fs !! p)).

Definition is_dir (fs : t) (p : string) : bool :=
  bool_decide (p ∈ dirs fs).

(** [os.path.exists] *)
Definition exists_ (fs : t) (p : string) : bool := is_file fs p || is_dir fs p.

(** [os.path.getsize], which also answers for a directory; [None] stands
    for [OSError]. *)
Definition getsize (fs : t) (p : string) : option Z :=
  match files fs !! p with
  | Some n => Some n
  | None => if is_dir fs p then Some (dir_size fs p) else None
  end.

(** [open(p, 'rb')] read to the end: the number of bytes; [None] stands
    for [OSError] (no such file, or a directory). *)
Definition read (fs : t) (p : string) : option Z := files fs !! p.

(** [os.remove]; [None] stands for [OSError]. *)
Definition remove (fs : t) (p : string) : option t :=
  if is_file fs p && negb (bool_decide (p ∈ locked fs))
  then Some (Make (delete p (files fs)) (dirs fs) (locked fs) (dir_size fs))
  else None.

(** Entries directly or indirectly below directory [d]. *)
Definition below (d p : string) : bool := startswith p (d +:+ "/").

Definition is_empty_dir (fs : t) (d : string) : bool :=
  forallb (fun p => negb (below d p))
          (elements (dom (files fs)) ++ elements (dirs fs)).

(** [os.rmdir]; [None] stands for [OSError]. *)
Definition rmdir (fs : t) (d : string) : option t :=
  if is_dir fs d && is_empty_dir fs d
  then Some (Make (files fs) (dirs fs ∖ {[d]}) (locked fs) (dir_size fs))
  else None.

(** [tempfile.mkdtemp()], the fresh name being chosen by the system. *)
Definition mkdtemp (fs : t) (d : string) : t :=
  Make (files fs) ({[d]} ∪ dirs fs) (locked fs) (dir_size fs).

(** [open(p, 'wb')] followed by writes of [n] bytes in total, for a plain
    file name in an existing directory. *)
Definition write_file (fs : t) (p : string) (n : Z) : t :=
  Make (<[p := n]> (files fs)) (dirs fs) (locked fs) (dir_size fs).

(** A program that creates the directories above [p] as needed and then
    the file [p] with [n] bytes. *)
Definition create (fs : t) (p : string) (n : Z) : t :=
  Make (<[p := n]> (files fs)) (list_to_set (ancestors p) ∪ dirs fs) (locked fs)
       (dir_size fs).

(** The name under which [p] is listed in [folder], if it is an entry
    directly inside it. *)
Definition entry_name (folder p : string) : option string :=
  match strip_prefix (folder +:+ "/") p with
  | Some n => if has_slash n || String.eqb n "" then None else Some n
  | None => None
  end.

(** [os.listdir(folder)]: the files and directories directly inside. *)
Definition listdir (fs : t) (folder : string) : list string :=
  omap (entry_name folder) (elements (dom (files fs) ∪ dirs fs)).

End Fs.

(** ** Task records ([models.py])

    The table is keyed by its unique, non-null [session_id] column, which
    is therefore the key of the map and not a field of the record.  The
    server-managed columns [id], [created_at] and [updated_at] play no role
    in the code and are left out. *)

Record DownloadTask : Type := Task {
  platform : option string;
  source_url : option string;
  direct_url : option string;
  requested_filename : option string;
  storage_path : option string;
  storage_type : option string;
  file_size : option Z;
  task_status : option string;
  task_message : option string;
  last_progress : option snapshot;
  last_accessed_at : option Z;
  expires_at : option Z
}.

#[global] Instance DownloadTask_eq_dec : EqDecision DownloadTask.
Proof. solve_decision. Defined.

(** [DownloadTask(session_id=...)] as it is inserted when no column is
    assigned: [storage_type] takes its column default.  (The defaults of
    [status] and [last_accessed_at] never apply: [upsert_task] assigns
    both before it commits.) *)
Definition new_task : DownloadTask :=
  Task None None None None None (Some "temp") None None None None None None.

(** [datetime.max], 9999-12-31 23:59:59.999999, in whole seconds. *)
Definition datetime_max : Z := 315537897599.

(** Whether [utcnow() + timedelta(hours=hours)] is a [datetime]: past
    [datetime.max] the addition raises [OverflowError]. *)
Definition retention_ok (hours now : Z) : bool :=
  (hours <=? 0) || (now + hours * 3600 <=? datetime_max).

Module DownloadTaskMethods.

Definition touch (now : Z) (t : DownloadTask) : DownloadTask :=
  Task (platform t) (source_url t) (direct_url t) (requested_filename t)
       (storage_path t) (storage_type t) (file_size t) (task_status t)
       (task_message t) (last_progress t) (Some now) (expires_at t).

Definition mark_status (now : Z) (st : string) (msg : option string)
    (progress : option snapshot) (t : DownloadTask) : DownloadTask :=
  touch now
    (Task (platform t) (source_url t) (direct_url t) (requested_filename t)
          (storage_path t) (storage_type t) (file_size t) (Some st)
          (if otruthy msg then msg else task_message t)
          (match progress with Some _ => progress | None => last_progress t end)
          (last_accessed_at t) (expires_at t)).

Definition set_storage (now : Z) (path : option string) (stype : option string)
    (size : option Z) (t : DownloadTask) : DownloadTask :=
  touch now
    (Task (platform t) (source_url t) (direct_url t) (requested_filename t)
          path stype
          (match size with Some _ => size | None => file_size t end)
          (task_status t) (task_message t) (last_progress t)
          (last_accessed_at t) (expires_at t)).

Definition set_expires_at (e : Z) (t : DownloadTask) : DownloadTask :=
  Task (platform t) (source_url t) (direct_url t) (requested_filename t)
       (storage_path t) (storage_type t) (file_size t) (task_status t)
       (task_message t) (last_progress t) (last_accessed_at t) (Some e).

(** [None] stands for the [OverflowError] of the addition. *)
Definition extend_expiry (now hours : Z) (t : DownloadTask) : option DownloadTask :=
  if negb (hours =? 0) && (0 <? hours) then
    if now + hours * 3600 <=? datetime_max
    then Some (set_expires_at (now + hours * 3600) t)
    else None
  else Some (set_expires_at now t).

End DownloadTaskMethods.

(** ** Task service ([services/task_service.py])

  The data base is the map from session id to the committed row.
  [hours] is [_retention_hours()], [now] the reading of
  [datetime.utcnow()].  A call that raises before its [commit] leaves the
  table as it was. *)

Module task_service.

Import DownloadTaskMethods.

(** The [defaults] dictionary of [upsert_task]: the keys the callers
    pass.  A key that is absent, or whose value is [None], is [None]. *)
Record defaults : Type := Defaults {
  d_platform : option string;
  d_source_url : option string;
  d_direct_url : option string;
  d_requested_filename : option string;
  d_status : option string;
  d_message : option string
}.

Definition no_defaults : defaults := Defaults None None None None None None.

(** [if value is not None: setattr(task, key, value)] *)
Definition override {A} (value old : option A) : option A :=
  match value with Some _ => value | None => old end.

Definition apply_defaults (d : defaults) (t : DownloadTask) : DownloadTask :=
  Task (override (d_platform d) (platform t))
       (override (d_source_url d) (source_url t))
       (override (d_direct_url d) (direct_url t))
       (override (d_requested_filename d) (requested_filename t))
       (storage_path t) (storage_type t) (file_size t)
       (override (d_status d) (task_status t))
       (override (d_message d) (task_message t))
       (last_progress t) (last_accessed_at t) (expires_at t).

Definition set_status (st : string) (t : DownloadTask) : DownloadTask :=
  Task (platform t) (source_url t) (direct_url t) (requested_filename t)
       (storage_path t) (storage_type t) (file_size t) (Some st)
       (task_message t) (last_progress t) (last_accessed_at t) (expires_at t).

(** [None] stands for the exception [extend_expiry] raises. *)
Definition upsert_task (hours now : Z) (sid : string) (d : defaults)
    (db : gmap string DownloadTask) : option (gmap string DownloadTask) :=
  let (task, created) :=
    match db !! sid with
    | Some t => (t, false)
    | None => (new_task, true)
    end in
  let task := apply_defaults d task in
  let task := touch now task in
  match extend_expiry now hours task with
  | None => None
  | Some task =>
      let task := if created && negb (otruthy (task_status task))
                  then set_status "pending" task else task in
      Some (<[sid := task]> db)
  end.

(** The body is inside [try]: an exception is logged and nothing more is
    committed. *)
Definition mark_status (hours now : Z) (sid st : string) (msg : option string)
    (progress : option snapshot) (db : gmap string DownloadTask)
    : gmap string DownloadTask :=
  match upsert_task hours now sid no_defaults db with
  | None => db
  | Some db =>
      match db !! sid with
      | None => db
      | Some task =>
          let task := DownloadTaskMethods.mark_status now st msg progress task in
          match extend_expiry now hours task with
          | None => db
          | Some task => <[sid := task]> db
          end
      end
  end.

Definition register_storage (hours now : Z) (sid path : string)
    (stype : string) (size : option Z) (db : gmap string DownloadTask)
    : gmap string DownloadTask :=
  match upsert_task hours now sid no_defaults db with
  | None => db
  | Some db => alter (set_storage now (Some path) (Some stype) size) sid db
  end.

Definition mark_file_deleted (now : Z) (sid : string)
    (db : gmap string DownloadTask) : gmap string DownloadTask :=
  match db !! sid with
  | None => db
  | Some task =>
      let task := set_storage now None (storage_type task) None task in
      let task := set_status "completed" task in
      <[sid := touch now task]> db
  end.

(** *** The sweep of expired rows *)

(** What a run does, in order: the files it unlinks, the failures of
    [os.remove] it logs as warnings, and the rows it deletes; each entry
    names the row being purged. *)
Inductive sweep_event : Type :=
| Unlinked (sid path : string)
| Unlink_failed (sid path : string)
| Row_deleted (sid : string).

Record sweep : Type := Sweep {
  sw_db : gmap string DownloadTask;
  sw_fs : Fs.t;
  sw_removed : Z;
  sw_size_freed : Z;
  sw_log : list sweep_event
}.

(** The filter of the query:
    [expires_at.isnot(None), expires_at < now]. *)
Definition is_expired (now : Z) (t : DownloadTask) : bool :=
  match expires_at t with
  | Some e => e <? now
  | None => false
  end.

(** The body of the loop over the expired rows. *)
Definition purge (st : sweep) (row : string * DownloadTask) : sweep :=
  let st1 :=
    match storage_path row.2 with
    | Some p =>
        if truthy p && Fs.exists_ (sw_fs st) p then
          let freed :=
            match Fs.getsize (sw_fs st) p with
            | Some n => sw_size_freed st + n
            | None => sw_size_freed st
            end in
          match Fs.remove (sw_fs st) p with
          | Some fs' =>
              Sweep (sw_db st) fs' (sw_removed st) freed
                    (sw_log st ++ [Unlinked row.1 p])
          | None =>
              Sweep (sw_db st) (sw_fs st) (sw_removed st) freed
                    (sw_log st ++ [Unlink_failed row.1 p])
          end
        else st
    | None => st
    end in
  Sweep (delete row.1 (sw_db st1)) (sw_fs st1) (sw_removed st1 + 1)
        (sw_size_freed st1) (sw_log st1 ++ [Row_deleted row.1]).

Definition expired_rows (now : Z) (db : gmap string DownloadTask)
    : list (string * DownloadTask) :=
  filter (fun row => is_expired now row.2) (map_to_list db).

Definition cleanup_expired_tasks (now : Z) (db : gmap string DownloadTask)
    (fs : Fs.t) : sweep :=
  match expired_rows now db with
  | [] => Sweep db fs 0 0 []
  | expired => fold_left purge expired (Sweep db fs 0 0 [])
  end.

(** An attempt to unlink [p], successful or logged as a failure. *)
Definition attempted (p : string) (log : list sweep_event) : Prop :=
  exists sid, Unlinked sid p ∈ log \/ Unlink_failed sid p ∈ log.

(** Relative to the file system [fs0] the sweep started from: a path that
    has disappeared was unlinked by an earlier step. *)
Definition log_accounts (fs0 : Fs.t) (st : sweep) : Prop :=
  forall q, Fs.exists_ fs0 q = true ->
    Fs.exists_ (sw_fs st) q = true \/ exists sid, Unlinked sid q ∈ sw_log st.

(** The row an entry of the log is about. *)
Definition event_sid (ev : sweep_event) : string :=
  match ev with
  | Unlinked sid _ => sid
  | Unlink_failed sid _ => sid
  | Row_deleted sid => sid
  end.

End task_service.

(** ** The scheduler's task-record step ([utils/file_cleanup.py]) *)

Module FileCleanupScheduler.

Record t : Type := Make { track_tasks : bool; has_app : bool }.

(** [_cleanup_task_records]: a no-op unless task tracking is enabled and
    an application is attached. *)
Definition _cleanup_task_records (self : t) (now : Z)
    (db : gmap string DownloadTask) (fs : Fs.t)
    : gmap string DownloadTask * Fs.t :=
  if negb (track_tasks self) || negb (has_app self) then (db, fs)
  else
    let r := task_service.cleanup_expired_tasks now db fs in
    (task_service.sw_db r, task_service.sw_fs r).

(** Successive runs of the scheduler's task-record step, at the times
    [nows]. *)
Definition sweeps (self : t) (nows : list Z) (db : gmap string DownloadTask)
    (fs : Fs.t) : gmap string DownloadTask * Fs.t :=
  fold_left (fun s now => _cleanup_task_records self now s.1 s.2) nows (db, fs).

End FileCleanupScheduler.

(** ** Safety gate ([app.py], security helpers)

    [urllib.parse.urlparse], [socket.gethostbyname] and the classification
    of [ipaddress] are library code: the gate is modelled over their
    results.  [None] stands for a raised exception. *)

Record url : Type := Url {
  scheme : string;
  netloc : string;
  hostname : option string
}.

Record ip_address : Type := Ip {
  is_private : bool;
  is_loopback : bool;
  is_reserved : bool;
  is_link_local : bool
}.

Record network : Type := Network {
  urlparse : string -> option url;
  gethostbyname : string -> option ip_address
}.

Definition _host_is_private (net : network) (host : string) : bool :=
  let hostname := before_colon host in
  match gethostbyname net hostname with
  | Some ip => is_private ip || is_loopback ip || is_reserved ip || is_link_local ip
  | None => false
  end.

(** [allow_hosts] is the tuple of allowed suffixes; the default [None] and
    the empty tuple are both falsy and are the empty list here. *)
Definition is_safe_public_url (net : network) (raw_url : string)
    (allow_hosts : list string) : bool :=
  match urlparse net raw_url with
  | None => false
  | Some u =>
      if negb (String.eqb (scheme u) "http" || String.eqb (scheme u) "https") then false
      else if negb (truthy (netloc u)) then false
      else if _host_is_private net (netloc u) then false
      else
        match allow_hosts with
        | [] => true
        | _ =>
            let host := default "" (hostname u) in
            existsb (fun allowed => endswith host allowed) allow_hosts
        end
  end.

(** ** Percentages

    The code computes [round((n / d) * 100, 1)] for integers [n] and [d]
    in binary floating point: the quotient is rounded to the nearest
    double, so is its product with 100, and [round] then takes the
    multiple of 0.1 nearest to the exact value of that double; all three
    roundings send ties to the even neighbour.

    [round_div n d] is the integer nearest to [n / d], ties going to the
    even neighbour, for [d <> 0]. *)

Definition round_div (n d : Z) : Z :=
  let q := n / d in
  let r := Z.abs (n mod d) in
  match Z.compare (2 * r) (Z.abs d) with
  | Lt => q
  | Gt => q + 1
  | Eq => if Z.even q then q else q + 1
  end.

(** Doubles are kept as integers: the double [x] is [x * 2 ^ 1074], a
    whole number because every double is a multiple of [2 ^ -1074]. *)
Definition double_scale : Z := 2 ^ 1074.

(** The double nearest to [n / d], for [0 <= n] and [0 < d].  A double
    has 53 significant bits: with [e] the exponent of the last of them
    (never below the [-1074] of the subnormal numbers; [E] is
    [e + 1074]), the quotient is rounded to a multiple of [2 ^ e]. *)
Definition nearest_double (n d : Z) : Z :=
  let N := n * double_scale in
  let E := Z.max 0 (Z.log2 (N / d) - 52) in
  round_div N (d * 2 ^ E) * 2 ^ E.

(** [round((n / d) * 100, 1)] in tenths, for [0 <= n] and [0 < d]. *)
Definition round1_abs (n d : Z) : Z :=
  let quotient := nearest_double n d in
  let percent := nearest_double (100 * quotient) double_scale in
  round_div (10 * percent) double_scale.

(** [round((n / d) * 100, 1)] counted in tenths of a percent, for
    [d <> 0] and [n] below [byte_count_bound] in magnitude; the three
    roundings are symmetric about zero. *)
Definition round1 (n d : Z) : Z :=
  Z.sgn n * Z.sgn d * round1_abs (Z.abs n) (Z.abs d).

(** Byte counts stay below this bound, which keeps the quotient and its
    product with 100 far from the largest double (about [2 ^ 1024]),
    where Python would raise [OverflowError] or compute [inf]. *)
Definition byte_count_bound : Z := 2 ^ 1000.

(** ** The world a request handler runs in *)

(** A value of [get_download_url.pending_downloads]. *)
Record download_info : Type := Info {
  i_video_url : option string;
  i_direct_url : option string;
  i_format_id : option string;
  i_filename : string;
  i_platform : option string
}.

(** [pending_downloads] is [None] while the function attribute has not
    been created.  [written] is a history variable: every payload assigned
    into [download_progress], in order. *)
Record World : Type := MkWorld {
  pending_downloads : option (gmap string download_info);
  download_progress : gmap string snapshot;
  written : list (string * snapshot);
  tasks : gmap string DownloadTask;
  fs : Fs.t
}.

Definition set_pending (r : option (gmap string download_info)) (w : World) : World :=
  MkWorld r (download_progress w) (written w) (tasks w) (fs w).

Definition set_tasks (t : gmap string DownloadTask) (w : World) : World :=
  MkWorld (pending_downloads w) (download_progress w) (written w) t (fs w).

Definition set_fs (f : Fs.t) (w : World) : World :=
  MkWorld (pending_downloads w) (download_progress w) (written w) (tasks w) f.

Definition set_progress (p : gmap string snapshot) (w : World) : World :=
  MkWorld (pending_downloads w) p (written w) (tasks w) (fs w).

(** *** What the outside world answers during one request *)

(** The [content-length] header as [int(...)] sees it. *)
Inductive header : Type :=
| Absent
| Malformed
| Int (n : Z).

(** A streamed upstream response: status, header, and the lengths of the
    chunks [iter_content] yields. *)
Record http_response : Type := Http {
  status_code : Z;
  content_length : header;
  chunks : list Z
}.

(** An entry of the [formats] list of the extractor. *)
Record fmt : Type := Fmt {
  fmt_format_id : string;
  fmt_url : string
}.

(** The dictionary yt-dlp passes to a progress hook. *)
Record hook_dict : Type := Hook {
  h_status : string;
  total_bytes : option Z;
  total_bytes_estimate : option Z;
  downloaded_bytes : option Z
}.

(** A run of yt-dlp: it fails with a message, or it calls the hooks, leaves
    files (name and size) in the output directory, and names the file
    [prepare_filename] announces. *)
Inductive ydl_run : Type :=
| Ydl_error (msg : string)
| Ydl_ok (hooks : list hook_dict) (outputs : list (string * Z)) (prepared : string).

Record oracle : Type := Oracle {
  net : network;
  now : Z;                        (* datetime.utcnow() *)
  time_str : string;              (* str(time.time()), str(int(time.time() * 1000)) *)
  retention_hours : Z;            (* DOWNLOAD_RETENTION_HOURS *)
  max_download_size_mb : Z;       (* MAX_DOWNLOAD_SIZE_MB *)
  tmpdir : string;                (* the directory tempfile.mkdtemp() creates *)
  extract_bilibili_tv_info : option string -> list fmt;
                                  (* the formats; [] when it returns None *)
  requests_get : string -> string + http_response;
                                  (* inl: the exception raised *)
  ydl : ydl_run
}.

(** *** Responses *)

(** The generator closures handed to [Response], with what they capture. *)
Inductive generator : Type :=
| Gen_force_direct (upstream : list Z)
| Gen_force_ydl (downloaded_file temp_dir : string)
| Gen_proxy_direct (temp_file temp_dir : string)
| Gen_proxy_ydl (downloaded_file temp_dir session_id : string).

Inductive body : Type :=
| Json (success : option bool) (error : option string) (download_url : option string)
| Text (s : string)
| Stream (g : generator).

Record response : Type := Response {
  code : Z;
  content : body
}.

(** *** Control flow: normal completion, early [return], exception *)

Inductive outcome (A : Type) : Type :=
| Ok (a : A)
| Return (r : response)
| Raise (e : string).

Arguments Ok {A} a.
Arguments Return {A} r.
Arguments Raise {A} e.

Definition M (A : Type) : Type := World -> outcome A * World.

Definition ret {A} (a : A) : M A := fun w => (Ok a, w).

Definition bind {A B} (m : M A) (k : A -> M B) : M B :=
  fun w =>
    match m w with
    | (Ok a, w') => k a w'
    | (Return r, w') => (Return r, w')
    | (Raise e, w') => (Raise e, w')
    end.

Definition return_ {A} (r : response) : M A := fun w => (Return r, w).

Definition raise {A} (e : string) : M A := fun w => (Raise e, w).

Definition get : M World := fun w => (Ok w, w).

Definition modify (f : World -> World) : M unit := fun w => (Ok tt, f w).

Definition when (b : bool) (m : M unit) : M unit := if b then m else ret tt.

Notation "x <- m ;; k" := (bind m (fun x => k))
  (at level 100, m at next level, right associativity).
Notation "m ;;; k" := (bind m (fun _ => k))
  (at level 100, right associativity).

(** [for x in l: body x] *)
Fixpoint for_each {A} (l : list A) (f : A -> M unit) : M unit :=
  match l with
  | [] => ret tt
  | x :: l' => f x ;;; for_each l' f
  end.

(** A view function: run the body; [except Exception as e] is [handler]. *)
Definition view (m : M response) (handler : string -> M response)
    (w : World) : response * World :=
  match m w with
  | (Ok r, w') => (r, w')
  | (Return r, w') => (r, w')
  | (Raise e, w') =>
      match handler e w' with
      | (Ok r, w'') => (r, w'')
      | (Return r, w'') => (r, w'')
      | (Raise _, w'') => (Response 500 (Text "Internal Server Error"), w'')
      end
  end.

(** ** Progress store *)

Definition _update_progress (o : oracle) (session_id : string)
    (payload : snapshot) : M unit :=
  modify (fun w =>
    MkWorld (pending_downloads w)
            (<[session_id := payload]> (download_progress w))
            (written w ++ [(session_id, payload)])
            (task_service.mark_status (retention_hours o) (now o) session_id
               (status payload) (message payload) (Some payload) (tasks w))
            (fs w)).

(** ** Requests *)

(** The fields the download endpoints read from the JSON body or the query
    string.  Each field is a string or absent ([None]); a JSON [null] or
    a value of another type is outside the model. *)
Record request_data : Type := Req {
  r_video_url : option string;
  r_direct_url : option string;
  r_format_id : option string;
  r_filename : option string;
  r_session_id : option string;
  r_platform : option string
}.

(** [GET] with its query arguments, or [POST] with the parsed JSON body
    ([None] when [request.get_json()] yields no object). *)
Inductive request : Type :=
| Get (args : request_data)
| Post (json : option request_data).

(** The Bilibili.tv refresh shared by both handlers: the URL of the format
    with the chosen id, else of the first format, else the URL unchanged
    when the extractor gives nothing. *)
Definition refresh_url (o : oracle) (video_url format_id direct_url : option string)
    : option string :=
  match extract_bilibili_tv_info o video_url with
  | [] => direct_url
  | first :: _ as formats =>
      match List.find (fun f => bool_decide (Some (fmt_format_id f) = format_id)) formats with
      | Some f => Some (fmt_url f)
      | None => Some (fmt_url first)
      end
  end.

(** [int(os.getenv('MAX_DOWNLOAD_SIZE_MB', '500')) * 1024 * 1024] *)
Definition max_bytes (o : oracle) : Z := max_download_size_mb o * 1024 * 1024.

(** The size check after the upstream request was issued.  A header that
    [int] rejects raises inside the inner [try] and is ignored. *)
Definition check_size (o : oracle) (resp : http_response) (too_large : string -> response)
    : M unit :=
  match content_length resp with
  | Int cl =>
      if negb (cl =? 0) && (max_bytes o <? cl)
      then return_ (too_large ("File too large (> " +:+ pretty (max_bytes o / (1024 * 1024)) +:+ " MB)"))
      else ret tt
  | Absent => ret tt
  | Malformed => ret tt
  end.

(** [s.rfind(c)], the index of the last [c] in [s], counted from [i]. *)
Fixpoint rfind (c : ascii) (s : string) (i : nat) (acc : option nat) : option nat :=
  match s with
  | EmptyString => acc
  | String x r => rfind c r (S i) (if Ascii.eqb x c then Some i else acc)
  end.

Fixpoint all_dots (s : string) : bool :=
  match s with
  | EmptyString => true
  | String c r => Ascii.eqb c "."%char && all_dots r
  end.

(** [os.path.splitext(p)[0]]: the extension starts at the last dot of the
    last component, unless only dots come before it in that component. *)
Definition splitext_stem (p : string) : string :=
  let filename_index :=
    match rfind "/"%char p 0%nat None with
    | Some sep => S sep
    | None => 0%nat
    end in
  match rfind "."%char p 0%nat None with
  | Some dot =>
      if Nat.ltb dot filename_index then p
      else if all_dots (String.substring filename_index (dot - filename_index) p) then p
      else String.substring 0 dot p
  | None => p
  end.

(** yt-dlp leaving its output files in [temp_dir], with the directories a
    name asks for. *)
Definition write_outputs (temp_dir : string) (outputs : list (string * Z)) (f : Fs.t) : Fs.t :=
  fold_left (fun f out => Fs.create f (path_join temp_dir out.1) out.2) outputs f.

(** ** Session registry: [/api/get-download-url] *)

Definition get_download_url (o : oracle) (data : option request_data)
    : World -> response * World :=
  view
    (data <- match data with
             | Some d => ret d
             | None => raise "'NoneType' object has no attribute 'get'"
             end ;;
     let video_url := r_video_url data in
     let format_id := r_format_id data in
     let platform := r_platform data in
     let direct_url := r_direct_url data in
     let filename := default "video.mp4" (r_filename data) in
     let session_id := time_str o in
     modify (fun w =>
       set_pending
         (Some (<[session_id := Info video_url direct_url format_id filename platform]>
                  (default ∅ (pending_downloads w)))) w) ;;;
     modify (fun w =>
       set_tasks
         (default (tasks w)
            (task_service.upsert_task (retention_hours o) (now o) session_id
               (task_service.Defaults platform video_url direct_url (Some filename)
                  (Some "pending") (Some "Waiting for download request"))
               (tasks w))) w) ;;;
     ret (Response 200 (Json (Some true) None (Some ("/api/force-download/" +:+ session_id)))))
    (fun e => ret (Response 500 (Json (Some false) (Some e) None))).

(** ** Fetch and stream: [/api/force-download/<session_id>] *)

Definition del_pending (session_id : string) : M unit :=
  modify (fun w => set_pending (delete session_id <$> pending_downloads w) w).

Definition force_download_direct (o : oracle) (session_id : string)
    (direct_url : string) : M response :=
  when (negb (is_safe_public_url (net o) direct_url []))
       (return_ (Response 400 (Text "Invalid or unsafe download URL"))) ;;;
  resp <- match requests_get o direct_url with
          | inl e => raise e
          | inr r => ret r
          end ;;
  check_size o resp (fun msg => Response 413 (Text msg)) ;;;
  when (negb (status_code resp =? 200))
       (return_ (Response (status_code resp)
                   (Text ("Failed to download video: HTTP " +:+ pretty (status_code resp))))) ;;;
  del_pending session_id ;;;
  ret (Response 200 (Stream (Gen_force_direct (chunks resp)))).

Definition force_download_ydl (o : oracle) (session_id : string)
    (filename : string) : M response :=
  let temp_dir := tmpdir o in
  modify (fun w => set_fs (Fs.mkdtemp (fs w) temp_dir) w) ;;;
  match ydl o with
  | Ydl_error e => raise e
  | Ydl_ok _ outputs _ =>
      modify (fun w => set_fs (write_outputs temp_dir outputs (fs w)) w)
  end ;;;
  w <- get ;;
  let found :=
    List.find (fun f => startswith f (splitext_stem filename)) (Fs.listdir (fs w) temp_dir) in
  match found with
  | None => return_ (Response 500 (Text "Download failed"))
  | Some f =>
      let downloaded_file := path_join temp_dir f in
      if negb (Fs.exists_ (fs w) downloaded_file)
      then return_ (Response 500 (Text "Download failed"))
      else
        del_pending session_id ;;;
        w <- get ;;
        match Fs.getsize (fs w) downloaded_file with
        | None => raise "No such file or directory"
        | Some _ => ret (Response 200 (Stream (Gen_force_ydl downloaded_file temp_dir)))
        end
  end.

(** The local [direct_url] of [force_download] once the Bilibili.tv
    refresh has run. *)
Definition refreshed_direct_url (o : oracle) (download_info : download_info)
    : option string :=
  if bool_decide (i_platform download_info = Some "bilibili_tv")
     && otruthy (i_video_url download_info)
  then refresh_url o (i_video_url download_info) (i_format_id download_info)
         (i_direct_url download_info)
  else i_direct_url download_info.

Definition force_download (o : oracle) (session_id : string)
    : World -> response * World :=
  view
    (w <- get ;;
     match pending_downloads w with
     | None => return_ (Response 404 (Text "Download session expired"))
     | Some pending =>
         match pending !! session_id with
         | None => return_ (Response 404 (Text "Download session not found"))
         | Some download_info =>
             let filename := i_filename download_info in
             let direct_url := refreshed_direct_url o download_info in
             match direct_url with
             | Some u =>
                 if truthy u && startswith u "http"
                 then force_download_direct o session_id u
                 else force_download_ydl o session_id filename
             | None => force_download_ydl o session_id filename
             end
         end
     end)
    (fun e => ret (Response 500 (Text ("Download error: " +:+ e)))).

(** ** Fetch and stream: [/api/proxy-download] *)

(** The chunk loop of the direct mode: [f.write(chunk)], the byte counter,
    and one snapshot per non-empty chunk when the total is known.  The
    result is the final value of [downloaded]. *)
Fixpoint download_loop (o : oracle) (session_id temp_file : string)
    (total_size : Z) (chunks : list Z) (downloaded : Z) : M Z :=
  match chunks with
  | [] => ret downloaded
  | chunk :: rest =>
      if chunk =? 0 then download_loop o session_id temp_file total_size rest downloaded
      else
        let downloaded := downloaded + chunk in
        modify (fun w => set_fs (Fs.write_file (fs w) temp_file downloaded) w) ;;;
        when (negb (total_size =? 0))
          (_update_progress o session_id
             (Snapshot "downloading" (Some "Downloading video...")
                (Some (round1 downloaded total_size)) (Some downloaded) (Some total_size))) ;;;
        download_loop o session_id temp_file total_size rest downloaded
  end.

(** The local [direct_url] of the direct mode once the Bilibili.tv refresh
    has run. *)
Definition proxy_direct_url (o : oracle) (video_url format_id : option string)
    (direct_url platform : string) : string :=
  if String.eqb platform "bilibili_tv"
  then default direct_url (refresh_url o video_url format_id (Some direct_url))
  else direct_url.

Definition proxy_download_direct (o : oracle) (session_id : string)
    (video_url format_id : option string) (direct_url filename platform : string)
    : M response :=
  when (negb (is_safe_public_url (net o) direct_url []))
       (return_ (Response 400 (Json None (Some "Invalid or unsafe direct URL") None))) ;;;
  when (String.eqb platform "bilibili_tv")
       (_update_progress o session_id
          (Snapshot "extracting" (Some "Refreshing video URL...") (Some 50) None None)) ;;;
  let direct_url := proxy_direct_url o video_url format_id direct_url platform in
  let temp_dir := tmpdir o in
  modify (fun w => set_fs (Fs.mkdtemp (fs w) temp_dir) w) ;;;
  let temp_file := path_join temp_dir filename in
  modify (fun w =>
    set_tasks (task_service.register_storage (retention_hours o) (now o)
                 session_id temp_file "temp" None (tasks w)) w) ;;;
  _update_progress o session_id
    (Snapshot "downloading" (Some ("Downloading " +:+ platform +:+ " video..."))
       (Some 100) None None) ;;;
  resp <- match requests_get o direct_url with
          | inl e => raise e
          | inr r => ret r
          end ;;
  check_size o resp (fun msg => Response 413 (Json None (Some msg) None)) ;;;
  total_size <- match content_length resp with
                | Int n => ret n
                | Absent => ret 0
                | Malformed => raise "invalid literal for int() with base 10"
                end ;;
  modify (fun w => set_fs (Fs.write_file (fs w) temp_file 0) w) ;;;
  download_loop o session_id temp_file total_size (chunks resp) 0 ;;;
  w <- get ;;
  let direct_file_size := Fs.getsize (fs w) temp_file in
  modify (fun w =>
    set_tasks (task_service.register_storage (retention_hours o) (now o)
                 session_id temp_file "temp" direct_file_size (tasks w)) w) ;;;
  _update_progress o session_id
    (Snapshot "streaming" (Some "Mengirim file ke browser...") (Some 1000) None None) ;;;
  ret (Response 200 (Stream (Gen_proxy_direct temp_file temp_dir))).

(** A value that is present and truthy: [k in d and d[k]]. *)
Definition nonzero (v : option Z) : option Z :=
  match v with
  | Some n => if n =? 0 then None else Some n
  | None => None
  end.

(** The progress hook given to yt-dlp.  A missing [downloaded_bytes] raises
    [KeyError] inside the hook's own [try], which swallows it. *)
Definition progress_hook (o : oracle) (session_id : string) (d : hook_dict) : M unit :=
  let report (total : Z) : M unit :=
    match downloaded_bytes d with
    | Some n =>
        _update_progress o session_id
          (Snapshot "downloading" (Some "Downloading video...")
             (Some (round1 n total)) (Some n) (Some total))
    | None => ret tt
    end in
  if String.eqb (h_status d) "downloading" then
    match nonzero (total_bytes d) with
    | Some t => report t
    | None =>
        match nonzero (total_bytes_estimate d) with
        | Some e => report e
        | None =>
            match downloaded_bytes d with
            | Some n =>
                _update_progress o session_id
                  (Snapshot "downloading" (Some "Downloading video...") None (Some n) None)
            | None => ret tt
            end
        end
    end
  else if String.eqb (h_status d) "finished" then
    _update_progress o session_id
      (Snapshot "processing" (Some "Memproses video (merging audio+video)...")
         (Some 950) None None)
  else ret tt.

Definition proxy_download_ydl (o : oracle) (session_id : string) : M response :=
  let temp_dir := tmpdir o in
  modify (fun w => set_fs (Fs.mkdtemp (fs w) temp_dir) w) ;;;
  _update_progress o session_id
    (Snapshot "extracting" (Some "Mengambil informasi video...") (Some 50) None None) ;;;
  match ydl o with
  | Ydl_error e => raise e
  | Ydl_ok hooks outputs prepared =>
      for_each hooks (progress_hook o session_id) ;;;
      modify (fun w => set_fs (write_outputs temp_dir outputs (fs w)) w) ;;;
      let downloaded_file := path_join temp_dir prepared in
      w <- get ;;
      match Fs.getsize (fs w) downloaded_file with
      | None => raise "No such file or directory"
      | Some _ =>
          _update_progress o session_id
            (Snapshot "streaming" (Some "Mengirim file ke browser...") (Some 1000) None None) ;;;
          ret (Response 200 (Stream (Gen_proxy_ydl downloaded_file temp_dir session_id)))
      end
  end.

Definition proxy_download_body (o : oracle) (data : request_data)
    (session_id : string) : M response :=
  let video_url := r_video_url data in
  let direct_url := r_direct_url data in
  let format_id := r_format_id data in
  let filename := default "video.mp4" (r_filename data) in
  let platform := default "" (r_platform data) in
  when (negb (otruthy video_url) && negb (otruthy direct_url))
       (return_ (Response 400 (Json None (Some "Video URL is required") None))) ;;;
  modify (fun w =>
    set_tasks
      (default (tasks w)
         (task_service.upsert_task (retention_hours o) (now o) session_id
            (task_service.Defaults (Some platform)
               (if otruthy video_url then video_url else direct_url)
               direct_url (Some filename) None None)
            (tasks w))) w) ;;;
  _update_progress o session_id
    (Snapshot "starting" (Some "Memulai download...") (Some 0) None None) ;;;
  match direct_url with
  | Some u =>
      if truthy u && (String.eqb platform "instagram" || String.eqb platform "bilibili_tv")
      then proxy_download_direct o session_id video_url format_id u filename platform
      else proxy_download_ydl o session_id
  | None => proxy_download_ydl o session_id
  end.

(** [request.args] or [request.get_json()]. *)
Definition request_fields (req : request) : option request_data :=
  match req with
  | Get args => Some args
  | Post json => json
  end.

Definition proxy_download (o : oracle) (req : request) : World -> response * World :=
  match request_fields req with
  | None =>
      fun w =>
        (Response 500
           (Json None (Some "Download failed: 'NoneType' object has no attribute 'get'") None),
         w)
  | Some data =>
      let session_id := default (time_str o) (r_session_id data) in
      view (proxy_download_body o data session_id)
        (fun e =>
           modify (fun w => set_progress (delete session_id (download_progress w)) w) ;;;
           ret (Response 500 (Json None (Some ("Download failed: " +:+ e)) None)))
  end.

(** ** Streaming the response body

    A generator runs when the server iterates the response.  The client
    either reads it to the end or goes away after some chunks, which closes
    the generator at its current [yield]: [finally] blocks run, code after
    the loop does not.  Generators that were never started are not
    considered. *)

Inductive client : Type :=
| Consume_all
| Disconnect_after (k : nat).

(** The chunks [f.read(chunk_size)] yields for a file of [size] bytes. *)
Definition file_chunks (size chunk_size : Z) : list Z :=
  repeat chunk_size (Z.to_nat (size / chunk_size)) ++
  (if size mod chunk_size =? 0 then [] else [size mod chunk_size]).

Definition delivered (c : client) (l : list Z) : list Z :=
  match c with
  | Consume_all => l
  | Disconnect_after k => take k l
  end.

(** [if os.path.exists(p): os.remove(p)]; [None] when [os.remove] raises. *)
Definition remove_if_exists (f : Fs.t) (p : string) : option Fs.t :=
  if Fs.exists_ f p then Fs.remove f p else Some f.

Definition rmdir_if_exists (f : Fs.t) (d : string) : option Fs.t :=
  if Fs.exists_ f d then Fs.rmdir f d else Some f.

(** The [finally] block of the direct mode of [proxy_download]; its bare
    [except] abandons the rest of the block. *)
Definition cleanup_proxy_direct (temp_file temp_dir : string) (w : World) : World :=
  match remove_if_exists (fs w) temp_file with
  | None => w
  | Some f1 =>
      match rmdir_if_exists f1 temp_dir with
      | None => set_fs f1 w
      | Some f2 => set_fs f2 w
      end
  end.

(** The [finally] block of the yt-dlp mode of [proxy_download]. *)
Definition cleanup_proxy_ydl (downloaded_file temp_dir session_id : string)
    (w : World) : World :=
  match remove_if_exists (fs w) downloaded_file with
  | None => w
  | Some f1 =>
      match rmdir_if_exists f1 temp_dir with
      | None => set_fs f1 w
      | Some f2 =>
          set_progress (delete session_id (download_progress w)) (set_fs f2 w)
      end
  end.

(** The code after the read loop of the yt-dlp mode of [force_download]. *)
Definition cleanup_force_ydl (downloaded_file temp_dir : string) (w : World) : World :=
  match Fs.remove (fs w) downloaded_file with
  | None => w
  | Some f1 =>
      match Fs.rmdir f1 temp_dir with
      | None => set_fs f1 w
      | Some f2 => set_fs f2 w
      end
  end.

(** Running a generator against a client: the chunks delivered and the
    world afterwards. *)
Definition run_generate (g : generator) (c : client) (w : World) : list Z * World :=
  match g with
  | Gen_force_direct upstream =>
      (delivered c (List.filter (fun n => negb (n =? 0)) upstream), w)
  | Gen_force_ydl downloaded_file temp_dir =>
      match Fs.read (fs w) downloaded_file with
      | None => ([], w)
      | Some size =>
          (delivered c (file_chunks size 1048576),
           match c with
           | Consume_all => cleanup_force_ydl downloaded_file temp_dir w
           | Disconnect_after _ => w
           end)
      end
  | Gen_proxy_direct temp_file temp_dir =>
      (match Fs.read (fs w) temp_file with
       | None => []
       | Some size => delivered c (file_chunks size 524288)
       end,
       cleanup_proxy_direct temp_file temp_dir w)
  | Gen_proxy_ydl downloaded_file temp_dir session_id =>
      (match Fs.read (fs w) downloaded_file with
       | None => []
       | Some size => delivered c (file_chunks size 1048576)
       end,
       cleanup_proxy_ydl downloaded_file temp_dir session_id w)
  end.

(** ** Progress publisher: [/api/download-progress/<session_id>]

    The publisher polls the store while other requests change it:
    [store i] is [download_progress] as the [i]-th poll finds it.  Time is
    counted in tenths of a second, so a sleep of 0.3 s adds 3 and the
    ceiling of 180 s is 1800.  [fuel] bounds the number of polls; [None]
    means it ran out. *)

Inductive sse_event : Type :=
| Data (s : snapshot)
| Timeout_event.

Definition max_timeout : Z := 1800.
Definition poll_interval : Z := 3.

Fixpoint sse_loop (fuel : nat) (store : nat -> gmap string snapshot)
    (session_id : string) (tick : nat) (timeout : Z) (last_status : option snapshot)
    : option (list sse_event) :=
  if timeout <? max_timeout then
    match fuel with
    | O => None
    | S fuel' =>
        let '(sent, last_status') :=
          match store tick !! session_id with
          | Some current =>
              if bool_decide (Some current <> last_status)
              then ([Data current], Some current)
              else ([], last_status)
          | None => ([], last_status)
          end in
        app sent <$> sse_loop fuel' store session_id (S tick)
                       (timeout + poll_interval) last_status'
    end
  else Some (if max_timeout <=? timeout then [Timeout_event] else []).

Definition get_download_progress (fuel : nat) (store : nat -> gmap string snapshot)
    (session_id : string) : option (list sse_event) :=
  sse_loop fuel store session_id 0%nat 0 None.

(** The total the progress hook divides by: [total_bytes] when present
    and truthy, else [total_bytes_estimate] when present and truthy. *)
Definition hook_total (d : hook_dict) : option Z :=
  match nonzero (total_bytes d) with
  | Some t => Some t
  | None => nonzero (total_bytes_estimate d)
  end.

(** The [percent] values, in order, of the snapshots with status
    [downloading] that were written for session [sid]. *)
Definition downloading_percents (sid : string) (log : list (string * snapshot)) : list Z :=
  omap (fun e => if String.eqb e.1 sid && String.eqb (status e.2) "downloading"
                 then percent e.2 else None) log.

(** The oracle [o] with every upstream status replaced by [c]. *)
Definition with_status_code (c : Z) (o : oracle) : oracle :=
  Oracle (net o) (now o) (time_str o) (retention_hours o) (max_download_size_mb o)
         (tmpdir o) (extract_bilibili_tv_info o)
         (fun u => match requests_get o u with
                   | inl e => inl e
                   | inr r => inr (Http c (content_length r) (chunks r))
                   end)
         (ydl o).

(** The oracle [o] with the network, and so the safety gate, replaced. *)
Definition with_net (n : network) (o : oracle) : oracle :=
  Oracle n (now o) (time_str o) (retention_hours o) (max_download_size_mb o)
         (tmpdir o) (extract_bilibili_tv_info o) (requests_get o) (ydl o).

(** A sequence of [force_download] requests, each with its own oracle. *)
Definition serve (reqs : list (oracle * string)) (w : World) : World :=
  fold_left (fun w r => (force_download r.1 r.2 w).2) reqs w.

(** The session [sid] is not in the registry. *)
Definition unregistered (sid : string) (w : World) : Prop :=
  pending_downloads w ≫= lookup sid = None.

(** ** Concrete data used by the examples *)

Module Examples.

(** A row with the given [storage_path] and [expires_at]. *)
Definition task_at (path : option string) (expiry : option Z) : DownloadTask :=
  Task None None None None path (Some "temp") None (Some "streaming") None None None expiry.

(** Three rows: one expired at time 50, one not, one without expiry. *)
Definition db0 : gmap string DownloadTask :=
  <["old" := task_at (Some "/tmp/a/clip.mp4") (Some 10)]>
    (<["new" := task_at (Some "/tmp/b/clip.mp4") (Some 100)]>
       (<["never" := task_at (Some "/tmp/c/clip.mp4") None]> ∅)).

(** Three rows that name one file: one expired at time 50, one not, one
    without expiry. *)
Definition db_shared : gmap string DownloadTask :=
  <["old" := task_at (Some "/srv/shared.mp4") (Some 10)]>
    (<["new" := task_at (Some "/srv/shared.mp4") (Some 100)]>
       (<["never" := task_at (Some "/srv/shared.mp4") None]> ∅)).

Definition fs_shared : Fs.t :=
  Fs.Make {["/srv/shared.mp4" := 7]} {["/srv"]} ∅ (fun _ => 4096).

Definition fs0 : Fs.t :=
  Fs.Make
    (<["/tmp/a/clip.mp4" := 7]> (<["/tmp/b/clip.mp4" := 8]> (<["/tmp/c/clip.mp4" := 9]> ∅)))
    ({["/tmp/a"]} ∪ {["/tmp/b"]} ∪ {["/tmp/c"]})
    ∅ (fun _ => 4096).

(** A network in which [cdn.example.com] is public, [10.0.0.5] is
    private and [media.invalid] does not resolve. *)
Definition net0 : network :=
  Network
    (fun raw =>
       if String.eqb raw "https://cdn.example.com/v.mp4"
       then Some (Url "https" "cdn.example.com" (Some "cdn.example.com"))
       else if String.eqb raw "http://10.0.0.5/v.mp4"
       then Some (Url "http" "10.0.0.5" (Some "10.0.0.5"))
       else if String.eqb raw "http://media.invalid/v.mp4"
       then Some (Url "http" "media.invalid" (Some "media.invalid"))
       else None)
    (fun host =>
       if String.eqb host "cdn.example.com" then Some (Ip false false false false)
       else if String.eqb host "10.0.0.5" then Some (Ip true false false false)
       else None).

(** An oracle whose upstream answers every request with [resp] and whose
    extractor run is [run]. *)
Definition oracle0 (resp : string + http_response) (run : ydl_run) : oracle :=
  Oracle net0 1000 "1700000000000" 24 500 "/tmp/tmpab12" (fun _ => [])
         (fun _ => resp) run.

Definition no_ydl : ydl_run := Ydl_error "unsupported URL".

Definition empty_fs : Fs.t := Fs.Make ∅ ∅ ∅ (fun _ => 4096).

Definition empty_world : World := MkWorld None ∅ [] ∅ empty_fs.

(** The session of the end-to-end scenario. *)
Definition clip : download_info :=
  Info (Some "https://x.com/watch") (Some "https://cdn.example.com/v.mp4")
       (Some "best") "clip.mp4" (Some "generic").

Definition world1 : World := MkWorld (Some (<["s1" := clip]> ∅)) ∅ [] ∅ empty_fs.

(** A direct-mode request for session [s2]. *)
Definition direct_request : request :=
  Get (Req None (Some "https://cdn.example.com/v.mp4") None (Some "clip.mp4")
           (Some "s2") (Some "instagram")).

(** A delegated-mode request for session [s3]. *)
Definition ydl_request : request :=
  Get (Req (Some "https://x.com/watch") None None None (Some "s3") (Some "generic")).

Definition streaming : snapshot :=
  Snapshot "streaming" (Some "Mengirim file ke browser...") (Some 1000) None None.

(** The store as a publisher for [s3] may find it: a download in progress
    at the first poll, streaming at the second, cleaned up from the third
    poll on. *)
Definition vanishing_store (i : nat) : gmap string snapshot :=
  match i with
  | O => {["s3" := Snapshot "downloading" (Some "Downloading video...")
                     (Some 500) (Some 50) (Some 100)]}
  | S O => {["s3" := streaming]}
  | _ => ∅
  end.

End Examples.

(** ** Further definitions *)

(** The instant [extend_expiry] stamps on a row at time [now]. *)
Definition expiry_instant (hours now : Z) : Z :=
  if 0 <? hours then now + hours * 3600 else now.

(** ** Folder cleanup ([utils/file_cleanup.py])

    Modification times are not part of [Fs.t]: [getmtime] is
    [os.path.getmtime], with [None] for [OSError]. *)

Module file_cleanup.

(** The state of the loop of [_cleanup_folder]. *)
Record folder_sweep : Type := FolderSweep {
  fsw_fs : Fs.t;
  deleted_count : Z;
  size_freed : Z
}.

(** The body of the loop: directories are skipped; any exception while
    looking at or deleting an entry is logged and the entry skipped. *)
Definition cleanup_entry (getmtime : string -> option Z) (folder : string)
    (cutoff_time : Z) (st : folder_sweep) (filename : string) : folder_sweep :=
  let file_path := path_join folder filename in
  if Fs.is_dir (fsw_fs st) file_path then st
  else
    match getmtime file_path with
    | None => st
    | Some file_mtime =>
        if file_mtime <? cutoff_time then
          match Fs.getsize (fsw_fs st) file_path with
          | None => st
          | Some file_size =>
              match Fs.remove (fsw_fs st) file_path with
              | None => st
              | Some fs' =>
                  FolderSweep fs' (deleted_count st + 1) (size_freed st + file_size)
              end
          end
        else st
    end.

Definition _cleanup_folder (getmtime : string -> option Z) (folder : string)
    (cutoff_time : Z) (fs : Fs.t) : folder_sweep :=
  fold_left (cleanup_entry getmtime folder cutoff_time) (Fs.listdir fs folder)
            (FolderSweep fs 0 0).

(** The attributes [init_app] reads from the configuration, with the
    task-tracking part of the scheduler. *)
Record scheduler : Type := Scheduler {
  enabled : bool;
  max_age_hours : Z;
  upload_folder : string;
  output_folder : string;
  tracking : FileCleanupScheduler.t
}.

(** One folder of [cleanup_old_files]: a missing folder is skipped, and so
    is one on which [os.listdir] raises because it is not a directory. *)
Definition cleanup_one (getmtime : string -> option Z) (cutoff_time : Z)
    (fs : Fs.t) (folder : string) : Fs.t :=
  if negb (Fs.exists_ fs folder) then fs
  else if Fs.is_dir fs folder
       then fsw_fs (_cleanup_folder getmtime folder cutoff_time fs)
       else fs.

Definition cleanup_old_files (self : scheduler) (now : Z)
    (getmtime : string -> option Z) (db : gmap string DownloadTask) (fs : Fs.t)
    : gmap string DownloadTask * Fs.t :=
  if negb (enabled self) then (db, fs)
  else
    let cutoff_time := now - max_age_hours self * 3600 in
    let fs := fold_left (cleanup_one getmtime cutoff_time)
                [upload_folder self; output_folder self] fs in
    FileCleanupScheduler._cleanup_task_records (tracking self) now db fs.

End file_cleanup.

(** ** Reasoning about handlers *)

(** [post m w Q]: running [m] in world [w] ends in an outcome and a world
    related by [Q]. *)
Definition post {A} (m : M A) (w : World) (Q : outcome A -> World -> Prop) : Prop :=
  Q (m w).1 (m w).2.

(** Between [w] and [w'] nothing has changed for the sessions other than
    [sid], and the registry is the same. *)
Definition same_elsewhere (sid : string) (w w' : World) : Prop :=
  pending_downloads w' = pending_downloads w /\
  forall sid', sid' <> sid ->
    download_progress w' !! sid' = download_progress w !! sid' /\
    tasks w' !! sid' = tasks w !! sid'.

(** The session id a [proxy_download] request runs under. *)
Definition request_session (o : oracle) (data : request_data) : string :=
  default (time_str o) (r_session_id data).

(** The same, and the task table as a whole is unchanged when the expiry
    is past the range of [datetime], every task call failing then. *)
Definition task_frame (o : oracle) (sid : string) (w w' : World) : Prop :=
  same_elsewhere sid w w' /\
  (retention_ok (retention_hours o) (now o) = false -> tasks w' = tasks w).

(** How the body of [proxy_download] can end for session [sid], started
    from world [w0]: normally with the streaming response, the session's
    snapshot and, with the expiry within range, its row saying
    [streaming]; by an early return with 400 or 413; or by an exception.
    In every case the other sessions and the registry are as in [w0]. *)
Definition proxy_outcome (o : oracle) (sid : string) (w0 : World)
    (res : outcome response) (w' : World) : Prop :=
  task_frame o sid w0 w' /\
  match res with
  | Ok r =>
      code r = 200 /\
      download_progress w' !! sid
        = Some (Snapshot "streaming" (Some "Mengirim file ke browser...")
                  (Some 1000) None None) /\
      (retention_ok (retention_hours o) (now o) = true ->
       exists t, tasks w' !! sid = Some t /\ task_status t = Some "streaming")
  | Return r => code r = 400 \/ code r = 413
  | Raise _ => True
  end.

(** ** Further example data *)

Module MoreExamples.

(** An upload folder with an old file, a recent one and a sub-directory
    holding an old file. *)
Definition fs1 : Fs.t :=
  Fs.Make
    (<["uploads/a.pdf" := 5]> (<["uploads/b.pdf" := 6]> (<["uploads/sub/c.pdf" := 7]> ∅)))
    ({["uploads"]} ∪ {["uploads/sub"]})
    ∅ (fun _ => 4096).

Definition mtime1 (p : string) : option Z :=
  if String.eqb p "uploads/a.pdf" then Some 10
  else if String.eqb p "uploads/b.pdf" then Some 90
  else if String.eqb p "uploads/sub/c.pdf" then Some 5
  else None.

(** A scheduler with a one-hour age limit and task tracking. *)
Definition sched1 : file_cleanup.scheduler :=
  file_cleanup.Scheduler true 1 "uploads" "outputs" (FileCleanupScheduler.Make true true).

(** The same with absolute folder names. *)
Definition fs2 : Fs.t :=
  Fs.Make
    (<["/srv/uploads/a.pdf" := 5]> (<["/srv/uploads/b.pdf" := 6]> ∅))
    ({["/srv"]} ∪ {["/srv/uploads"]} ∪ {["/srv/outputs"]})
    ∅ (fun _ => 4096).

Definition mtime2 (p : string) : option Z :=
  if String.eqb p "/srv/uploads/a.pdf" then Some (-4000)
  else if String.eqb p "/srv/uploads/b.pdf" then Some 40
  else None.

Definition sched2 : file_cleanup.scheduler :=
  file_cleanup.Scheduler true 1 "/srv/uploads" "/srv/outputs"
    (FileCleanupScheduler.Make true true).

(** An expired row whose [storage_path] is a directory. *)
Definition db_dir : gmap string DownloadTask :=
  <["old" := Examples.task_at (Some "/tmp/a") (Some 10)]> ∅.

(** A registered session whose direct URL points into a private network. *)
Definition inner_clip : download_info :=
  Info (Some "https://x.com/watch") (Some "http://10.0.0.5/v.mp4")
       (Some "best") "clip.mp4" (Some "generic").

Definition world2 : World :=
  MkWorld (Some (<["s1" := inner_clip]> ∅)) ∅ [] ∅ Examples.empty_fs.

(** A finished delegated download waiting to be streamed. *)
Definition world3 : World :=
  MkWorld None ∅ [] ∅
    (Fs.Make {["/tmp/t/v.mp4" := 3000000]} {["/tmp/t"]} ∅ (fun _ => 4096)).

(** A registered session without a direct URL. *)
Definition page_clip : download_info :=
  Info (Some "https://x.com/watch") None (Some "best") "clip.mp4" (Some "generic").

Definition world4 : World :=
  MkWorld (Some (<["s4" := page_clip]> ∅)) ∅ [] ∅ Examples.empty_fs.

End MoreExamples.

(** ** Progress stream *)

(** No snapshot of [ds] equals the one before it, [last] being the one
    before the first. *)
Fixpoint no_repeat (last : option snapshot) (ds : list snapshot) : Prop :=
  match ds with
  | [] => True
  | d :: r => Some d <> last /\ no_repeat (Some d) r
  end.

(** ** Image proxy: [/api/proxy-image]

    [requests.get(image_url, headers=..., timeout=10, stream=True)] is the
    parameter [fetch]: [inl] for an exception, else the status code, the
    body ([inl] when reading [response.content] raises) and the
    [Content-Type] header. *)

Record image_upstream : Type := ImageUpstream {
  img_status : Z;
  img_content : string + string;
  img_content_type : option string
}.

(** [jsonify({'error': ...})] with its status, or the image. *)
Inductive image_reply : Type :=
| Image_json (code : Z) (error : string)
| Image_body (content : string) (mimetype : string).

Definition image_allow_hosts : list string :=
  ["cdninstagram.com"; "instagram.com"; "fbcdn.net"; "facebook.com"].

Definition proxy_image (net : network) (fetch : string -> string + image_upstream)
    (image_url : option string) : image_reply :=
  if negb (otruthy image_url) then Image_json 400 "No URL provided"
  else
    let image_url := default "" image_url in
    if negb (is_safe_public_url net image_url image_allow_hosts)
    then Image_json 400 "Invalid or unsupported image host"
    else
      match fetch image_url with
      | inl e => Image_json 500 e
      | inr response =>
          if img_status response =? 200 then
            match img_content response with
            | inl e => Image_json 500 e
            | inr content =>
                Image_body content (default "image/jpeg" (img_content_type response))
            end
          else Image_json 500 ("Failed to fetch image: " +:+ pretty (img_status response))
      end.

Module ImageExamples.

(** A network in which [notinstagram.com] is a public host. *)
Definition net1 : network :=
  Network
    (fun raw =>
       if String.eqb raw "https://notinstagram.com/i.jpg"
       then Some (Url "https" "notinstagram.com" (Some "notinstagram.com"))
       else None)
    (fun host =>
       if String.eqb host "notinstagram.com" then Some (Ip false false false false)
       else None).

(** An upstream that answers every request with an untyped body. *)
Definition fetch1 (_ : string) : string + image_upstream :=
  inr (ImageUpstream 200 (inr "bytes") None).

End ImageExamples.

(** ** Instagram shortcodes ([extract_instagram_shortcode])

    The four patterns are a literal text followed by the group
    [([A-Za-z0-9_-]+)].  [re.search] returns the leftmost match, and the
    greedy group takes the longest run of shortcode characters. *)

(** The character class [[A-Za-z0-9_-]]. *)
Definition shortcode_char (c : ascii) : bool :=
  let n := nat_of_ascii c in
  (Nat.leb 65 n && Nat.leb n 90) || (Nat.leb 97 n && Nat.leb n 122)
  || (Nat.leb 48 n && Nat.leb n 57) || Ascii.eqb c "_"%char || Ascii.eqb c "-"%char.

(** The longest prefix of [s] made of shortcode characters. *)
Fixpoint shortcode_run (s : string) : string :=
  match s with
  | EmptyString => EmptyString
  | String c r => if shortcode_char c then String c (shortcode_run r) else EmptyString
  end.

Fixpoint all_shortcode (s : string) : bool :=
  match s with
  | EmptyString => true
  | String c r => shortcode_char c && all_shortcode r
  end.

(** [re.search(lit + '([A-Za-z0-9_-]+)', url)], giving [group(1)]: the
    match at the first position where [lit] is followed by a shortcode
    character. *)
Fixpoint search_shortcode (lit url : string) : option string :=
  let here :=
    match strip_prefix lit url with
    | Some rest => let code := shortcode_run rest in
                   if truthy code then Some code else None
    | None => None
    end in
  match here with
  | Some code => Some code
  | None =>
      match url with
      | EmptyString => None
      | String _ r => search_shortcode lit r
      end
  end.

Definition instagram_patterns : list string :=
  ["instagram.com/p/"; "instagram.com/reel/"; "instagram.com/reels/"; "instagram.com/tv/"].

Fixpoint first_shortcode (patterns : list string) (url : string) : option string :=
  match patterns with
  | [] => None
  | pattern :: rest =>
      match search_shortcode pattern url with
      | Some code => Some code
      | None => first_shortcode rest url
      end
  end.

Definition extract_instagram_shortcode (url : string) : option string :=
  first_shortcode instagram_patterns url.

(** What may follow a shortcode in a link: nothing, or a character that
    is neither a shortcode character nor a dot. *)
Definition shortcode_end (post : string) : bool :=
  match post with
  | EmptyString => true
  | String c _ => negb (shortcode_char c) && negb (Ascii.eqb c "."%char)
  end.

(** ** Bytes on disk *)

(** The total size of the regular files. *)
Definition disk_usage (fs : Fs.t) : Z :=
  map_fold (fun _ n acc => n + acc) 0 (Fs.files fs).

(** * Properties *)

(** ** Retention sweep *)

Section sweep_facts.

Import task_service.

(** Case analysis on one iteration of the loop of [cleanup_expired_tasks]. *)
Ltac purge_cases st row :=
  unfold purge;
  destruct (storage_path row.2) as [p0|]; simpl;
  [ destruct (truthy p0 && Fs.exists_ (sw_fs st) p0) eqn:Hcond; simpl;
    [ destruct (Fs.remove (sw_fs st) p0) as [fs0'|] eqn:Hrm; simpl | ]
  | ].

Lemma remove_Some f p f' :
  Fs.remove f p = Some f' ->
  f' = Fs.Make (delete p (Fs.files f)) (Fs.dirs f) (Fs.locked f) (Fs.dir_size f) /\
  Fs.is_file f p = true /\ p ∉ Fs.locked f.
Proof.
  unfold Fs.remove. destruct (Fs.is_file f p) eqn:Hf; simpl; [|discriminate].
  case_bool_decide; simpl; [discriminate|].
  intros [= <-]. done.
Qed.

Lemma remove_None f p :
  Fs.remove f p = None -> Fs.files f !! p = None \/ p ∈ Fs.locked f.
Proof.
  unfold Fs.remove, Fs.is_file. case_bool_decide as Hf; simpl.
  - case_bool_decide; simpl; [auto|discriminate].
  - intros _. left. by apply eq_None_not_Some.
Qed.

Lemma purge_db st row : sw_db (purge st row) = delete row.1 (sw_db st).
Proof. purge_cases st row; reflexivity. Qed.

Lemma purge_dirs st row :
  Fs.dirs (sw_fs (purge st row)) = Fs.dirs (sw_fs st) /\
  Fs.locked (sw_fs (purge st row)) = Fs.locked (sw_fs st).
Proof.
  purge_cases st row; try done.
  apply remove_Some in Hrm as (-> & _ & _). done.
Qed.

(** A step leaves every file alone except the one its row points to. *)
Lemma purge_files_other st row q :
  storage_path row.2 <> Some q ->
  Fs.files (sw_fs (purge st row)) !! q = Fs.files (sw_fs st) !! q.
Proof.
  intros Hq. purge_cases st row; try done.
  apply remove_Some in Hrm as (-> & _ & _). simpl.
  apply lookup_delete_ne. congruence.
Qed.

(** A step never creates a file. *)
Lemma purge_files_None st row q :
  Fs.files (sw_fs st) !! q = None ->
  Fs.files (sw_fs (purge st row)) !! q = None.
Proof.
  intros Hq. purge_cases st row; try done.
  apply remove_Some in Hrm as (-> & _ & _). simpl.
  rewrite lookup_delete. case_decide; done.
Qed.

(** A step removes the file of its row when the file can be removed. *)
Lemma purge_files_gone st row p :
  storage_path row.2 = Some p -> p <> "" -> p ∉ Fs.locked (sw_fs st) ->
  Fs.files (sw_fs (purge st row)) !! p = None.
Proof.
  intros Hp Hne Hl. unfold purge. rewrite Hp. simpl.
  destruct (truthy p && Fs.exists_ (sw_fs st) p) eqn:Hcond; simpl.
  - destruct (Fs.remove (sw_fs st) p) as [f'|] eqn:Hrm; simpl.
    + apply remove_Some in Hrm as (-> & _ & _). simpl. apply lookup_delete_eq.
    + apply remove_None in Hrm as [?|?]; done.
  - apply andb_false_iff in Hcond as [Ht|He].
    + unfold truthy in Ht. apply negb_false_iff, String.eqb_eq in Ht. done.
    + unfold Fs.exists_ in He. apply orb_false_iff in He as [He _].
      unfold Fs.is_file in He. apply bool_decide_eq_false in He.
      by apply eq_None_not_Some.
Qed.

(** What a step appends to the log. *)
Lemma purge_log st row :
  exists mid,
    sw_log (purge st row) = sw_log st ++ mid ++ [Row_deleted row.1] /\
    (forall p, storage_path row.2 = Some p -> p <> "" ->
       Fs.exists_ (sw_fs st) p = true ->
       mid = [Unlinked row.1 p] \/ mid = [Unlink_failed row.1 p]) /\
    (forall q, Fs.is_file (sw_fs st) q = true ->
       Fs.is_file (sw_fs (purge st row)) q = true \/ mid = [Unlinked row.1 q]).
Proof.
  unfold purge.
  destruct (storage_path row.2) as [p0|] eqn:Hp; simpl.
  2:{ exists []. split; [by rewrite app_nil_l|]. split; [done|auto]. }
  destruct (truthy p0 && Fs.exists_ (sw_fs st) p0) eqn:Hcond; simpl.
  2:{ exists []. split; [done|]. split; [|auto].
      intros p [= ->] Hne Hex. rewrite Hex, andb_true_r in Hcond.
      unfold truthy in Hcond. apply negb_false_iff, String.eqb_eq in Hcond. done. }
  destruct (Fs.remove (sw_fs st) p0) as [f'|] eqn:Hrm; simpl.
  - exists [Unlinked row.1 p0]. split; [by rewrite <- app_assoc|].
    split; [intros p [= ->]; auto|].
    intros q Hq. apply remove_Some in Hrm as (-> & _ & _).
    destruct (decide (q = p0)) as [->|Hne]; [by right|left].
    unfold Fs.is_file in *. simpl. apply bool_decide_eq_true.
    apply bool_decide_eq_true in Hq. by rewrite lookup_delete_ne.
  - exists [Unlink_failed row.1 p0]. split; [by rewrite <- app_assoc|].
    split; [intros p [= ->]; auto|auto].
Qed.

(** *** The whole loop *)

Lemma sweep_db_None l : forall st sid,
  sw_db st !! sid = None -> sw_db (fold_left purge l st) !! sid = None.
Proof.
  induction l as [|row l IH]; intros st sid H; simpl; [done|].
  apply IH. rewrite purge_db, lookup_delete. case_decide; done.
Qed.

(** Every row the loop visits is deleted. *)
Lemma sweep_db_gone l : forall st sid,
  sid ∈ l.*1 -> sw_db (fold_left purge l st) !! sid = None.
Proof.
  induction l as [|row l IH]; intros st sid Hin; simpl in *.
  - by apply elem_of_nil in Hin.
  - apply elem_of_cons in Hin as [->|Hin]; [|by apply IH].
    apply sweep_db_None. rewrite purge_db. apply lookup_delete_eq.
Qed.

(** Every other row is left as it was. *)
Lemma sweep_db_other l : forall st sid,
  sid ∉ l.*1 -> sw_db (fold_left purge l st) !! sid = sw_db st !! sid.
Proof.
  induction l as [|row l IH]; intros st sid Hin; simpl in *; [done|].
  apply not_elem_of_cons in Hin as [Hne Hin].
  rewrite IH by done. rewrite purge_db. by apply lookup_delete_ne.
Qed.

Lemma sweep_dirs l : forall st,
  Fs.dirs (sw_fs (fold_left purge l st)) = Fs.dirs (sw_fs st) /\
  Fs.locked (sw_fs (fold_left purge l st)) = Fs.locked (sw_fs st).
Proof.
  induction l as [|row l IH]; intros st; simpl; [done|].
  destruct (IH (purge st row)) as [-> ->]. apply purge_dirs.
Qed.

(** Only files that visited rows point to are touched. *)
Lemma sweep_files_other l : forall st q,
  (forall row, row ∈ l -> storage_path row.2 <> Some q) ->
  Fs.files (sw_fs (fold_left purge l st)) !! q = Fs.files (sw_fs st) !! q.
Proof.
  induction l as [|row l IH]; intros st q H; simpl; [done|].
  rewrite IH by (intros; apply H; by right).
  apply purge_files_other, H. by left.
Qed.

Lemma sweep_files_None l : forall st q,
  Fs.files (sw_fs st) !! q = None ->
  Fs.files (sw_fs (fold_left purge l st)) !! q = None.
Proof.
  induction l as [|row l IH]; intros st q H; simpl; [done|].
  by apply IH, purge_files_None.
Qed.

(** The file of a visited row is gone afterwards, unless it is locked. *)
Lemma sweep_files_gone l : forall st row p,
  row ∈ l -> storage_path row.2 = Some p -> p <> "" ->
  p ∉ Fs.locked (sw_fs st) ->
  Fs.files (sw_fs (fold_left purge l st)) !! p = None.
Proof.
  induction l as [|r l IH]; intros st row p Hin Hp Hne Hl; simpl.
  - by apply elem_of_nil in Hin.
  - apply elem_of_cons in Hin as [<-|Hin].
    + by apply sweep_files_None, purge_files_gone.
    + eapply IH; eauto. by destruct (purge_dirs st r) as [_ ->].
Qed.

Lemma sweep_log_extends l : forall st,
  exists ext, sw_log (fold_left purge l st) = sw_log st ++ ext.
Proof.
  induction l as [|row l IH]; intros st; simpl.
  - exists []. by rewrite app_nil_r.
  - destruct (IH (purge st row)) as [ext ->].
    destruct (purge_log st row) as (mid & -> & _).
    eexists. by rewrite <- !app_assoc.
Qed.

Lemma purge_accounts fs0 st row :
  log_accounts fs0 st -> log_accounts fs0 (purge st row).
Proof.
  intros Inv q Hq.
  destruct (purge_log st row) as (mid & Hlog & _ & Hfile).
  destruct (Inv q Hq) as [Hex|[sid Hin]].
  - unfold Fs.exists_ in Hex. apply orb_true_iff in Hex as [Hf|Hd].
    + destruct (Hfile q Hf) as [Hf'| ->].
      * left. unfold Fs.exists_. by rewrite Hf'.
      * right. exists row.1. rewrite Hlog. set_solver.
    + left. unfold Fs.exists_, Fs.is_dir in *.
      destruct (purge_dirs st row) as [-> _]. rewrite Hd. apply orb_true_r.
  - right. exists sid. rewrite Hlog. set_solver.
Qed.

(** The row of a visited record is deleted only after the file it points
    to was dealt with. *)
Lemma sweep_file_first fs0 l : forall st row p,
  log_accounts fs0 st ->
  row ∈ l -> storage_path row.2 = Some p -> p <> "" ->
  Fs.exists_ fs0 p = true ->
  exists l1 l2,
    sw_log (fold_left purge l st) = l1 ++ Row_deleted row.1 :: l2 /\
    attempted p l1.
Proof.
  induction l as [|r l IH]; intros st row p Inv Hin Hp Hne Hex; simpl.
  - by apply elem_of_nil in Hin.
  - apply elem_of_cons in Hin as [<-|Hin].
    + destruct (sweep_log_extends l (purge st row)) as [ext ->].
      destruct (purge_log st row) as (mid & -> & Hmid & _).
      exists (sw_log st ++ mid), ext. split.
      { by rewrite <- !app_assoc. }
      destruct (Inv p Hex) as [Hcur|[sid Hsid]].
      * exists row.1. destruct (Hmid p Hp Hne Hcur) as [-> | ->]; set_solver.
      * exists sid. set_solver.
    + eapply IH; eauto using purge_accounts.
Qed.

(** A locked file survives a step. *)
Lemma purge_files_locked st row q :
  q ∈ Fs.locked (sw_fs st) ->
  Fs.files (sw_fs (purge st row)) !! q = Fs.files (sw_fs st) !! q.
Proof.
  intros Hq. purge_cases st row; try done.
  apply remove_Some in Hrm as (-> & _ & Hl). simpl.
  apply lookup_delete_ne. congruence.
Qed.

(** A failed removal is logged under the row's name. *)
Lemma sweep_failure_logged l : forall st row p,
  row ∈ l -> storage_path row.2 = Some p -> p <> "" ->
  Fs.exists_ (sw_fs st) p = true -> p ∈ Fs.locked (sw_fs st) ->
  Unlink_failed row.1 p ∈ sw_log (fold_left purge l st).
Proof.
  induction l as [|r l IH]; intros st row p Hin Hp Hne Hex Hl; simpl.
  - by apply elem_of_nil in Hin.
  - apply elem_of_cons in Hin as [<-|Hin].
    + destruct (sweep_log_extends l (purge st row)) as [ext ->].
      apply elem_of_app. left.
      unfold purge. rewrite Hp. simpl.
      assert (truthy p = true) as ->.
      { unfold truthy. apply negb_true_iff, String.eqb_neq. done. }
      rewrite Hex. simpl.
      destruct (Fs.remove (sw_fs st) p) as [f'|] eqn:Hrm; simpl.
      * apply remove_Some in Hrm as (_ & _ & ?). done.
      * set_solver.
    + eapply IH; eauto.
      * unfold Fs.exists_, Fs.is_file, Fs.is_dir in *.
        rewrite purge_files_locked by done.
        by destruct (purge_dirs st r) as [-> _].
      * by destruct (purge_dirs st r) as [_ ->].
Qed.

(** Every entry of the log is about a visited row. *)
Lemma sweep_log_sids l : forall st ev,
  ev ∈ sw_log (fold_left purge l st) ->
  ev ∈ sw_log st \/ event_sid ev ∈ l.*1.
Proof.
  induction l as [|row l IH]; intros st ev Hev; simpl in *; [by left|].
  destruct (IH _ _ Hev) as [Hin|Hin]; [|right; by apply elem_of_cons; right].
  destruct (purge_log st row) as (mid & Hlog & _ & _).
  assert (Hmid : forall e, e ∈ mid -> event_sid e = row.1).
  { revert Hlog. unfold purge.
    destruct (storage_path row.2) as [p0|]; simpl.
    - destruct (truthy p0 && Fs.exists_ (sw_fs st) p0); simpl.
      + destruct (Fs.remove (sw_fs st) p0); simpl; rewrite <- app_assoc;
          intros Heq%app_inv_head;
          (apply (app_inj_2 _ _ [_] [_]) in Heq as [<- _]; [|done]);
          intros e ->%list_elem_of_singleton; done.
      + intros Heq%app_inv_head.
        destruct mid; [intros e He; by apply elem_of_nil in He|].
        destruct mid; discriminate.
    - intros Heq%app_inv_head.
      destruct mid; [intros e He; by apply elem_of_nil in He|].
      destruct mid; discriminate. }
  rewrite Hlog in Hin. rewrite !elem_of_app in Hin.
  destruct Hin as [?|[Hm|Hr]]; [by left| |]; right.
  - rewrite (Hmid _ Hm). by left.
  - apply list_elem_of_singleton in Hr as ->. by left.
Qed.

(** *** The query *)

Lemma elem_of_expired_rows now db row :
  row ∈ expired_rows now db <->
  db !! row.1 = Some row.2 /\ is_expired now row.2 = true.
Proof.
  unfold expired_rows. rewrite list_elem_of_filter.
  destruct row as [k v]. rewrite elem_of_map_to_list. simpl.
  rewrite Is_true_true. tauto.
Qed.

Lemma elem_of_expired_sids now db sid :
  sid ∈ (expired_rows now db).*1 <->
  exists t, db !! sid = Some t /\ is_expired now t = true.
Proof.
  rewrite list_elem_of_fmap. split.
  - intros ([k v] & -> & Hin). apply elem_of_expired_rows in Hin. eauto.
  - intros (t & Hdb & He). exists (sid, t). split; [done|].
    by apply elem_of_expired_rows.
Qed.

Lemma cleanup_expired_tasks_fold now db fs :
  cleanup_expired_tasks now db fs =
  fold_left purge (expired_rows now db) (Sweep db fs 0 0 []).
Proof. unfold cleanup_expired_tasks. by destruct (expired_rows now db). Qed.

Lemma log_accounts_init db fs : log_accounts fs (Sweep db fs 0 0 []).
Proof. intros q Hq. by left. Qed.

(** A row the query does not select is kept as it is, nothing in the log
    is about it, and its file is kept unless a selected row points to the
    same path. *)
Lemma cleanup_keeps now db fs sid t :
  db !! sid = Some t -> is_expired now t = false ->
  let r := cleanup_expired_tasks now db fs in
  sw_db r !! sid = Some t /\
  (forall ev, ev ∈ sw_log r -> event_sid ev <> sid) /\
  Fs.dirs (sw_fs r) = Fs.dirs fs /\
  (forall p,
     (forall sid' t', db !! sid' = Some t' -> is_expired now t' = true ->
                      storage_path t' <> Some p) ->
     Fs.files (sw_fs r) !! p = Fs.files fs !! p).
Proof.
  intros Hdb Hexp r. subst r. rewrite cleanup_expired_tasks_fold.
  assert (Hnot : sid ∉ (expired_rows now db).*1).
  { rewrite elem_of_expired_sids. intros (t' & Ht' & He). congruence. }
  split; [|split; [|split]].
  - rewrite sweep_db_other by done. done.
  - intros ev Hev Heq. subst sid. apply sweep_log_sids in Hev as [Hev|Hev]; [|done].
    simpl in Hev. by apply elem_of_nil in Hev.
  - apply sweep_dirs.
  - intros p Hp. rewrite sweep_files_other; [done|].
    intros [k v] Hrow%elem_of_expired_rows. simpl in *. destruct Hrow. eauto.
Qed.

Lemma sweeps_keep self nows : forall db fs sid t,
  db !! sid = Some t -> expires_at t = None ->
  (FileCleanupScheduler.sweeps self nows db fs).1 !! sid = Some t.
Proof.
  unfold FileCleanupScheduler.sweeps.
  induction nows as [|now nows IH]; intros db fs sid t Hdb Hexp; simpl; [done|].
  unfold FileCleanupScheduler._cleanup_task_records at 2.
  destruct (negb _ || negb _); simpl; [by apply IH|].
  apply IH; [|done].
  apply (cleanup_keeps now db fs sid t Hdb).
  unfold is_expired. by rewrite Hexp.
Qed.

(** C9 (amended). A run of the sweep deletes every row whose [expires_at]
    is earlier than [now]: the row is gone afterwards; when the file its
    [storage_path] names is present, the log shows the removal of that
    file attempted before the row is deleted, the file is gone unless
    [os.remove] fails on it, and such a failure is logged while the row is
    deleted all the same.  A row whose [expires_at] is [now] or later is
    kept unchanged and no action of the run concerns it; its file is kept
    provided no expired row names the same file, each [storage_path]
    being a canonical name. *)
Theorem cleanup_expired_tasks_sweep now db fs sid t :
  db !! sid = Some t ->
  let r := cleanup_expired_tasks now db fs in
  (forall e, expires_at t = Some e -> e < now ->
     sw_db r !! sid = None /\
     (forall p, storage_path t = Some p -> p <> "" -> Fs.exists_ fs p = true ->
        (exists l1 l2, sw_log r = l1 ++ Row_deleted sid :: l2 /\ attempted p l1) /\
        (p ∉ Fs.locked fs -> Fs.files (sw_fs r) !! p = None) /\
        (p ∈ Fs.locked fs -> Unlink_failed sid p ∈ sw_log r))) /\
  (forall e, expires_at t = Some e -> now <= e ->
     sw_db r !! sid = Some t /\
     (forall ev, ev ∈ sw_log r -> event_sid ev <> sid) /\
     (forall p, storage_path t = Some p -> canonical p = true ->
        (forall sid' t' p', db !! sid' = Some t' -> is_expired now t' = true ->
           storage_path t' = Some p' -> canonical p' = true /\ p' <> p) ->
        Fs.files (sw_fs r) !! p = Fs.files fs !! p /\
        Fs.dirs (sw_fs r) = Fs.dirs fs)).
Proof.
  intros Hdb r. subst r. split.
  - intros e He Hlt.
    assert (Hexp : is_expired now t = true).
    { unfold is_expired. rewrite He. by apply Z.ltb_lt. }
    assert (Hrow : (sid, t) ∈ expired_rows now db).
    { by apply elem_of_expired_rows. }
    rewrite cleanup_expired_tasks_fold. split.
    + apply sweep_db_gone, elem_of_expired_sids. eauto.
    + intros p Hp Hne Hex. split; [|split].
      * apply (sweep_file_first fs _ _ (sid, t) p); auto using log_accounts_init.
      * intros Hl. by apply (sweep_files_gone _ _ (sid, t) p).
      * intros Hl. by apply (sweep_failure_logged _ _ (sid, t) p).
  - intros e He Hle.
    assert (Hexp : is_expired now t = false).
    { unfold is_expired. rewrite He. apply Z.ltb_ge. lia. }
    destruct (cleanup_keeps now db fs sid t Hdb Hexp) as (H1 & H2 & H3 & H4).
    split; [done|]. split; [done|]. intros p Hp Hc Hno. split; [|done].
    apply H4. intros sid' t' Hdb' He' Hp'.
    by destruct (Hno sid' t' p Hdb' He' Hp') as [_ Hne].
Qed.

(** C10 (amended). The sweep never deletes a row whose [expires_at] is
    unset: for every data base, file system and time, the run keeps the
    row unchanged and performs no action on its behalf, and the row
    outlives any number of runs of the scheduler's task-record step.  The
    file it points to is kept provided no expired row names the same
    file, each [storage_path] being a canonical name. *)
Theorem cleanup_expired_tasks_keeps_unset_expiry db fs sid t :
  db !! sid = Some t -> expires_at t = None ->
  (forall now,
     let r := cleanup_expired_tasks now db fs in
     sw_db r !! sid = Some t /\
     (forall ev, ev ∈ sw_log r -> event_sid ev <> sid) /\
     (forall p, storage_path t = Some p -> canonical p = true ->
        (forall sid' t' p', db !! sid' = Some t' -> is_expired now t' = true ->
           storage_path t' = Some p' -> canonical p' = true /\ p' <> p) ->
        Fs.files (sw_fs r) !! p = Fs.files fs !! p /\
        Fs.dirs (sw_fs r) = Fs.dirs fs)) /\
  (forall self nows,
     (FileCleanupScheduler.sweeps self nows db fs).1 !! sid = Some t).
Proof.
  intros Hdb Hexp. split.
  - intros now r.
    assert (Hne : is_expired now t = false) by (unfold is_expired; by rewrite Hexp).
    destruct (cleanup_keeps now db fs sid t Hdb Hne) as (H1 & H2 & H3 & H4).
    split; [done|]. split; [done|]. intros p Hp Hc Hno. split; [|done].
    apply H4. intros sid' t' Hdb' He' Hp'.
    by destruct (Hno sid' t' p Hdb' He' Hp') as [_ Hne'].
  - intros self nows. by apply sweeps_keep.
Qed.

End sweep_facts.

(** The one row of [db0] that is expired at time 50. *)
Lemma db0_expired sid t p :
  Examples.db0 !! sid = Some t -> task_service.is_expired 50 t = true ->
  storage_path t = Some p ->
  canonical p = true /\ p <> "/tmp/b/clip.mp4" /\ p <> "/tmp/c/clip.mp4".
Proof.
  unfold Examples.db0. intros Hdb He Hp.
  apply lookup_insert_Some in Hdb as [[<- <-]|[_ Hdb]].
  { injection Hp as <-. split; [reflexivity|]. split; discriminate. }
  apply lookup_insert_Some in Hdb as [[<- <-]|[_ Hdb]]; [discriminate|].
  apply lookup_insert_Some in Hdb as [[<- <-]|[_ Hdb]]; [discriminate|].
  by rewrite lookup_empty in Hdb.
Qed.

Lemma cleanup_expired_tasks_sweep_witness :
  task_service.sw_db (task_service.cleanup_expired_tasks 50 Examples.db0 Examples.fs0)
    !! "old" = None /\
  Fs.files (task_service.sw_fs
              (task_service.cleanup_expired_tasks 50 Examples.db0 Examples.fs0))
    !! "/tmp/b/clip.mp4" = Fs.files Examples.fs0 !! "/tmp/b/clip.mp4".
Proof.
  split.
  - destruct (cleanup_expired_tasks_sweep 50 Examples.db0 Examples.fs0 "old" _ eq_refl)
      as [Hpast _].
    destruct (Hpast 10 eq_refl) as [Hgone _]; [lia|exact Hgone].
  - destruct (cleanup_expired_tasks_sweep 50 Examples.db0 Examples.fs0 "new" _ eq_refl)
      as [_ Hfuture].
    destruct (Hfuture 100 eq_refl) as (_ & _ & Hfile); [lia|].
    apply (Hfile "/tmp/b/clip.mp4" eq_refl eq_refl).
    intros sid' t' p' Hdb He Hp.
    destruct (db0_expired sid' t' p' Hdb He Hp) as (Hc & Hb & _). by split.
Defined.

(** Two rows that name the same file, one expired and one not: the run
    keeps the second row and deletes its file. *)
Lemma cleanup_expired_tasks_shared_path_counterexample :
  let r := task_service.cleanup_expired_tasks 50 Examples.db_shared Examples.fs_shared in
  Examples.db_shared !! "new"
    = Some (Examples.task_at (Some "/srv/shared.mp4") (Some 100)) /\
  task_service.sw_db r !! "new"
    = Some (Examples.task_at (Some "/srv/shared.mp4") (Some 100)) /\
  Fs.files Examples.fs_shared !! "/srv/shared.mp4" = Some 7 /\
  Fs.files (task_service.sw_fs r) !! "/srv/shared.mp4" = None.
Proof. repeat split; vm_compute; reflexivity. Qed.

Lemma cleanup_expired_tasks_keeps_unset_expiry_witness :
  (forall nows,
     (FileCleanupScheduler.sweeps (FileCleanupScheduler.Make true true) nows
        Examples.db0 Examples.fs0).1 !! "never"
     = Some (Examples.task_at (Some "/tmp/c/clip.mp4") None)) /\
  Fs.files (task_service.sw_fs
              (task_service.cleanup_expired_tasks 50 Examples.db0 Examples.fs0))
    !! "/tmp/c/clip.mp4" = Fs.files Examples.fs0 !! "/tmp/c/clip.mp4".
Proof.
  destruct (cleanup_expired_tasks_keeps_unset_expiry Examples.db0 Examples.fs0 "never" _
              eq_refl eq_refl) as [Hrun Hall].
  split; [apply Hall|].
  destruct (Hrun 50) as (_ & _ & Hfile).
  apply (Hfile "/tmp/c/clip.mp4" eq_refl eq_refl).
  intros sid' t' p' Hdb He Hp.
  destruct (db0_expired sid' t' p' Hdb He Hp) as (Hc & _ & Hb). by split.
Defined.

(** A row without expiry that names the file of an expired row: the run
    keeps the row and deletes the file. *)
Lemma cleanup_expired_tasks_unset_expiry_counterexample :
  let r := task_service.cleanup_expired_tasks 50 Examples.db_shared Examples.fs_shared in
  Examples.db_shared !! "never" = Some (Examples.task_at (Some "/srv/shared.mp4") None) /\
  task_service.sw_db r !! "never" = Some (Examples.task_at (Some "/srv/shared.mp4") None) /\
  Fs.files Examples.fs_shared !! "/srv/shared.mp4" = Some 7 /\
  Fs.files (task_service.sw_fs r) !! "/srv/shared.mp4" = None.
Proof. repeat split; vm_compute; reflexivity. Qed.

Example sweep_example :
  let r := task_service.cleanup_expired_tasks 50 Examples.db0 Examples.fs0 in
  task_service.sw_log r =
    [task_service.Unlinked "old" "/tmp/a/clip.mp4"; task_service.Row_deleted "old"] /\
  task_service.sw_removed r = 1 /\ task_service.sw_size_freed r = 7 /\
  task_service.sw_db r !! "old" = None /\
  Fs.exists_ (task_service.sw_fs r) "/tmp/a/clip.mp4" = false /\
  Fs.exists_ (task_service.sw_fs r) "/tmp/b/clip.mp4" = true.
Proof. repeat split; vm_compute; reflexivity. Qed.

(** ** Safety gate *)

Lemma _host_is_private_unresolved net host :
  gethostbyname net (before_colon host) = None -> _host_is_private net host = false.
Proof. unfold _host_is_private. by intros ->. Qed.

(** A URL that [urlparse] rejects is unsafe. *)
Lemma is_safe_public_url_parse_error net raw allow :
  urlparse net raw = None -> is_safe_public_url net raw allow = false.
Proof. unfold is_safe_public_url. by intros ->. Qed.

(** A host that resolves to a private, loopback, reserved or link-local
    address is unsafe. *)
Lemma is_safe_public_url_private net raw allow u :
  urlparse net raw = Some u -> _host_is_private net (netloc u) = true ->
  is_safe_public_url net raw allow = false.
Proof.
  unfold is_safe_public_url. intros -> ->.
  by repeat destruct (negb _).
Qed.

(** When resolving the host raises, the gate raises nothing and treats the
    host as not private: its answer is the outcome of the remaining checks
    alone, namely an http(s) scheme, a non-empty netloc and, when an
    allow-list is given, a host name ending in one of its entries. *)
Lemma is_safe_public_url_unresolved net raw allow u :
  urlparse net raw = Some u ->
  gethostbyname net (before_colon (netloc u)) = None ->
  is_safe_public_url net raw allow =
    (String.eqb (scheme u) "http" || String.eqb (scheme u) "https")
    && truthy (netloc u)
    && match allow with
       | [] => true
       | _ => existsb (fun allowed => endswith (default "" (hostname u)) allowed) allow
       end.
Proof.
  intros Hu Hdns. unfold is_safe_public_url. rewrite Hu.
  rewrite (_host_is_private_unresolved _ _ Hdns).
  destruct (String.eqb (scheme u) "http" || String.eqb (scheme u) "https"); simpl; [|done].
  destruct (truthy (netloc u)); simpl; [|done].
  by destruct allow.
Qed.

(** C3. The gate fails open on a resolution error: for the URL
    [http://media.invalid/v.mp4], whose host does not resolve,
    [_host_is_private] answers [False] and [is_safe_public_url] answers
    [True]; no exception reaches the caller. *)
Theorem is_safe_public_url_fails_open :
  urlparse Examples.net0 "http://media.invalid/v.mp4"
    = Some (Url "http" "media.invalid" (Some "media.invalid")) /\
  gethostbyname Examples.net0 (before_colon "media.invalid") = None /\
  _host_is_private Examples.net0 "media.invalid" = false /\
  is_safe_public_url Examples.net0 "http://media.invalid/v.mp4" [] = true.
Proof. repeat split. Qed.

Example is_safe_public_url_examples :
  is_safe_public_url Examples.net0 "https://cdn.example.com/v.mp4" [] = true /\
  is_safe_public_url Examples.net0 "http://10.0.0.5/v.mp4" [] = false /\
  is_safe_public_url Examples.net0 "ftp://example.com/x" [] = false /\
  is_safe_public_url Examples.net0 "https://cdn.example.com/v.mp4" ["example.com"] = true /\
  is_safe_public_url Examples.net0 "https://cdn.example.com/v.mp4" ["cdninstagram.com"] = false.
Proof. repeat split. Qed.

(** ** Task records *)

Lemma extend_expiry_Some now hours t :
  retention_ok hours now = true ->
  DownloadTaskMethods.extend_expiry now hours t
  = Some (DownloadTaskMethods.set_expires_at (expiry_instant hours now) t).
Proof.
  unfold retention_ok, DownloadTaskMethods.extend_expiry, expiry_instant.
  intros H. destruct (hours =? 0) eqn:E0, (0 <? hours) eqn:E1; simpl; try done.
  - apply Z.eqb_eq in E0. apply Z.ltb_lt in E1. lia.
  - destruct (hours <=? 0) eqn:E2; simpl in H; [apply Z.leb_le in E2; lia|].
    by rewrite H.
Qed.

Lemma extend_expiry_None now hours t :
  retention_ok hours now = false ->
  DownloadTaskMethods.extend_expiry now hours t = None.
Proof.
  unfold retention_ok, DownloadTaskMethods.extend_expiry.
  intros [H1 H2]%orb_false_iff.
  apply Z.leb_gt in H1. rewrite H2.
  destruct (hours =? 0) eqn:E0; [apply Z.eqb_eq in E0; lia|].
  destruct (0 <? hours) eqn:E1; [done|apply Z.ltb_ge in E1; lia].
Qed.

(** Past the range of [datetime] no task call commits anything. *)
Lemma task_writes_fail hours now sid d st msg progress path stype size db :
  retention_ok hours now = false ->
  task_service.upsert_task hours now sid d db = None /\
  task_service.mark_status hours now sid st msg progress db = db /\
  task_service.register_storage hours now sid path stype size db = db.
Proof.
  intros H.
  assert (Hup : forall d', task_service.upsert_task hours now sid d' db = None).
  { intros d'. unfold task_service.upsert_task.
    destruct (db !! sid); simpl; by rewrite extend_expiry_None. }
  split; [apply Hup|].
  unfold task_service.mark_status, task_service.register_storage.
  by rewrite Hup.
Qed.

(** Within the range, [upsert_task] writes one row, stamped with the time
    of the call and the expiry instant, and leaves every other row
    alone. *)
Lemma upsert_task_row hours now sid d db :
  retention_ok hours now = true ->
  exists db',
    task_service.upsert_task hours now sid d db = Some db' /\
    (exists t, db' !! sid = Some t /\
       last_accessed_at t = Some now /\
       expires_at t = Some (expiry_instant hours now)) /\
    (forall sid', sid' <> sid -> db' !! sid' = db !! sid').
Proof.
  intros H. unfold task_service.upsert_task.
  destruct (db !! sid) as [t|]; simpl; rewrite extend_expiry_Some by done;
    eexists; (split; [reflexivity|]); split.
  - rewrite lookup_insert_eq. eexists. by split.
  - intros sid' Hne. by rewrite lookup_insert_ne.
  - rewrite lookup_insert_eq. eexists. split; [reflexivity|].
    by destruct (negb _).
  - intros sid' Hne. by rewrite lookup_insert_ne.
Qed.

Lemma mark_status_row hours now sid st msg progress db :
  retention_ok hours now = true ->
  (exists t, task_service.mark_status hours now sid st msg progress db !! sid = Some t /\
     task_status t = Some st /\
     (forall p, progress = Some p -> last_progress t = Some p) /\
     last_accessed_at t = Some now /\
     expires_at t = Some (expiry_instant hours now)) /\
  (forall sid', sid' <> sid ->
     task_service.mark_status hours now sid st msg progress db !! sid' = db !! sid').
Proof.
  intros H. unfold task_service.mark_status.
  destruct (upsert_task_row hours now sid task_service.no_defaults db H)
    as (db' & -> & (t & Ht & _) & Hother).
  rewrite Ht, extend_expiry_Some by done. split.
  - rewrite lookup_insert_eq. eexists. split; [reflexivity|].
    split; [done|]. split; [by intros p ->|]. done.
  - intros sid' Hne. rewrite lookup_insert_ne by done. by apply Hother.
Qed.

Lemma register_storage_row hours now sid path stype size db :
  retention_ok hours now = true ->
  (exists t, task_service.register_storage hours now sid path stype size db !! sid = Some t /\
     storage_path t = Some path /\ storage_type t = Some stype /\
     last_accessed_at t = Some now /\
     expires_at t = Some (expiry_instant hours now)) /\
  (forall sid', sid' <> sid ->
     task_service.register_storage hours now sid path stype size db !! sid'
     = db !! sid').
Proof.
  intros H. unfold task_service.register_storage.
  destruct (upsert_task_row hours now sid task_service.no_defaults db H)
    as (db' & -> & (t & Ht & _ & He) & Hother).
  split.
  - rewrite lookup_alter_eq, Ht. simpl. eexists. split; [reflexivity|].
    repeat split; done.
  - intros sid' Hne. rewrite lookup_alter_ne by done. by apply Hother.
Qed.

(** No task call touches the row of another session. *)
Lemma task_writes_other hours now sid d st msg progress path stype size db sid' :
  sid' <> sid ->
  default db (task_service.upsert_task hours now sid d db) !! sid' = db !! sid' /\
  task_service.mark_status hours now sid st msg progress db !! sid' = db !! sid' /\
  task_service.register_storage hours now sid path stype size db !! sid' = db !! sid'.
Proof.
  intros Hne. destruct (retention_ok hours now) eqn:H.
  - destruct (upsert_task_row hours now sid d db H) as (db' & -> & _ & Hother).
    split; [by apply Hother|]. split.
    + by apply (mark_status_row hours now sid st msg progress db H).
    + by apply (register_storage_row hours now sid path stype size db H).
  - destruct (task_writes_fail hours now sid d st msg progress path stype size db H)
      as (-> & -> & ->). done.
Qed.

(** ** Session registry and [force_download] *)

Ltac unfold_M :=
  repeat progress
    unfold view, bind, ret, return_, raise, get, modify, when, del_pending in *.

Lemma bind_ext {A B} (m m' : M A) (k k' : A -> M B) w :
  m w = m' w -> (forall a w', k a w' = k' a w') -> bind m k w = bind m' k' w.
Proof.
  intros Hm Hk. unfold bind. rewrite Hm.
  destruct (m' w) as [[a|r|e] w']; [apply Hk|done|done].
Qed.

Ltac bind_step := apply bind_ext; [try reflexivity|intros ? ?].

Lemma bind_ret {A B} (a : A) (k : A -> M B) w : bind (ret a) k w = k a w.
Proof. reflexivity. Qed.

(** [force_download] changes the registry only by deleting the session it
    serves; it does so whenever it answers with the stream, and it does
    not when it answers with any status other than 200 and 500. *)
Lemma force_download_pending o sid w :
  let rw := force_download o sid w in
  (pending_downloads rw.2 = pending_downloads w \/
   pending_downloads rw.2 = delete sid <$> pending_downloads w) /\
  (code rw.1 = 200 -> pending_downloads rw.2 = delete sid <$> pending_downloads w) /\
  (code rw.1 <> 200 -> code rw.1 <> 500 -> pending_downloads rw.2 = pending_downloads w).
Proof.
  unfold force_download, force_download_direct, force_download_ydl, check_size.
  unfold_M. simpl.
  repeat (case_match; simplify_eq/=; auto); (split; [|split]);
    auto; try discriminate; try done.
  all: try (intros E; rewrite E in *; discriminate).
  all: repeat match goal with
         | H : pending_downloads _ = Some _ |- _ => rewrite H; clear H
         end; simpl; auto.
Qed.

(** A request for a session that is not registered is answered 404 and
    changes nothing. *)
Lemma force_download_unregistered o sid w :
  unregistered sid w ->
  code (force_download o sid w).1 = 404 /\ (force_download o sid w).2 = w.
Proof.
  unfold unregistered, force_download. unfold_M.
  destruct (pending_downloads w) as [reg|]; simpl; [|done].
  by intros ->.
Qed.

Lemma unregistered_delete sid sid' w w' :
  pending_downloads w' = pending_downloads w \/
  pending_downloads w' = delete sid' <$> pending_downloads w ->
  unregistered sid w -> unregistered sid w'.
Proof.
  unfold unregistered. intros [->| ->]; [done|].
  destruct (pending_downloads w) as [reg|]; simpl; [|done].
  intros H. rewrite lookup_delete. case_decide; done.
Qed.

Lemma force_download_keeps_unregistered o sid sid' w :
  unregistered sid w -> unregistered sid (force_download o sid' w).2.
Proof.
  apply (unregistered_delete sid sid'), (force_download_pending o sid' w).
Qed.

Lemma serve_keeps_unregistered reqs : forall sid w,
  unregistered sid w -> unregistered sid (serve reqs w).
Proof.
  unfold serve. induction reqs as [|r reqs IH]; intros sid w H; simpl; [done|].
  by apply IH, force_download_keeps_unregistered.
Qed.

(** Once [force_download] has answered with the stream, the session is
    out of the registry. *)
Lemma force_download_consumes o sid w :
  code (force_download o sid w).1 = 200 ->
  unregistered sid (force_download o sid w).2.
Proof.
  intros H. destruct (force_download_pending o sid w) as (_ & Hdel & _).
  unfold unregistered. rewrite (Hdel H).
  destruct (pending_downloads w); simpl; [|done]. apply lookup_delete_eq.
Qed.

Lemma force_download_replay_counterexample :
  let o := Examples.oracle0 (inr (Http 503 Absent [])) Examples.no_ydl in
  let first := force_download o "s1" Examples.world1 in
  let second := force_download o "s1" first.2 in
  pending_downloads Examples.world1 ≫= lookup "s1" = Some Examples.clip /\
  code first.1 = 503 /\
  code second.1 = 503 /\ code second.1 <> 404.
Proof. vm_compute. repeat split; discriminate. Qed.

(** C1 (amended). The entry is deleted when [force_download] answers with
    the streaming response, not when it starts: after a request for a
    session id that was answered 200, every later request for that id
    (whatever other [force_download] requests come in between) is answered
    404; a request answered with a status other than 200 and 500 leaves
    the registry as it was. *)
Theorem force_download_at_most_once o sid w :
  (code (force_download o sid w).1 = 200 ->
   forall reqs o',
     code (force_download o' sid (serve reqs (force_download o sid w).2)).1 = 404) /\
  (code (force_download o sid w).1 <> 200 ->
   code (force_download o sid w).1 <> 500 ->
   pending_downloads (force_download o sid w).2 = pending_downloads w).
Proof.
  split.
  - intros Hok reqs o'.
    apply force_download_unregistered, serve_keeps_unregistered.
    by apply force_download_consumes.
  - apply (force_download_pending o sid w).
Qed.

Lemma force_download_at_most_once_witness :
  let o := Examples.oracle0 (inr (Http 200 (Int 5) [5])) Examples.no_ydl in
  let o' := Examples.oracle0 (inr (Http 503 Absent [])) Examples.no_ydl in
  code (force_download o "s1" Examples.world1).1 = 200 /\
  code (force_download o "s1"
          (serve [(o, "s2")] (force_download o "s1" Examples.world1).2)).1 = 404 /\
  code (force_download o' "s1" Examples.world1).1 = 503 /\
  pending_downloads (force_download o' "s1" Examples.world1).2
    = pending_downloads Examples.world1.
Proof.
  split; [reflexivity|]. split.
  - apply (proj1 (force_download_at_most_once
                    (Examples.oracle0 (inr (Http 200 (Int 5) [5])) Examples.no_ydl)
                    "s1" Examples.world1)).
    reflexivity.
  - split; [reflexivity|].
    apply (proj2 (force_download_at_most_once
                    (Examples.oracle0 (inr (Http 503 Absent [])) Examples.no_ydl)
                    "s1" Examples.world1)); vm_compute; discriminate.
Defined.

(** The delegated mode of [force_download]: the extractor leaves
    [clip.mp4] in the temporary directory, the session is consumed, and
    the generator removes file and directory when read to the end. *)
Example force_download_ydl_example :
  let o := Examples.oracle0 (inl "unused") (Ydl_ok [] [("clip.mp4", 300)] "clip.mp4") in
  let w := MkWorld (Some (<["s4" := Info (Some "https://x.com/watch") None (Some "best")
                                      "clip.mp4" (Some "generic")]> ∅))
                   ∅ [] ∅ Examples.empty_fs in
  let rw := force_download o "s4" w in
  rw.1 = Response 200 (Stream (Gen_force_ydl "/tmp/tmpab12/clip.mp4" "/tmp/tmpab12")) /\
  pending_downloads rw.2 ≫= lookup "s4" = None /\
  let after := (run_generate (Gen_force_ydl "/tmp/tmpab12/clip.mp4" "/tmp/tmpab12")
                  Consume_all rw.2).2 in
  Fs.exists_ (fs after) "/tmp/tmpab12/clip.mp4" = false /\
  Fs.exists_ (fs after) "/tmp/tmpab12" = false.
Proof. intros o w rw. repeat split; vm_compute; reflexivity. Qed.

(** ** Validation in the download endpoints *)

Lemma get_download_url_no_validation_counterexample :
  let o := Examples.oracle0 (inl "unreachable") Examples.no_ydl in
  let rw := get_download_url o (Some (Req None None None None None None))
              Examples.empty_world in
  rw.1 = Response 200 (Json (Some true) None (Some "/api/force-download/1700000000000")) /\
  pending_downloads rw.2 ≫= lookup "1700000000000"
    = Some (Info None None None "video.mp4" None) /\
  task_status <$> tasks rw.2 !! "1700000000000" = Some (Some "pending").
Proof. vm_compute. repeat split. Qed.

(** [get_download_url] checks none of its fields: any request body, its
    fields being strings or absent, creates a session, and a task record
    when the expiry is within range. *)
Lemma get_download_url_creates o data w :
  let rw := get_download_url o (Some data) w in
  code rw.1 = 200 /\
  is_Some (pending_downloads rw.2 ≫= lookup (time_str o)) /\
  (retention_ok (retention_hours o) (now o) = true ->
   is_Some (tasks rw.2 !! time_str o)).
Proof.
  unfold get_download_url. unfold_M. simpl. split; [done|]. split.
  - rewrite lookup_insert_eq. eauto.
  - intros H.
    match goal with |- context [task_service.upsert_task ?h ?n ?s ?d ?db] =>
      destruct (upsert_task_row h n s d db H) as (db' & -> & (t & Ht & _) & _) end.
    simpl. eauto.
Qed.

Lemma for_each_hook_with_net n o sid : forall hooks w,
  for_each hooks (progress_hook (with_net n o) sid) w
  = for_each hooks (progress_hook o sid) w.
Proof.
  induction hooks as [|h hooks IH]; intros w; simpl; [done|].
  unfold_M.
  assert (Hh : progress_hook (with_net n o) sid h w = progress_hook o sid h w).
  { unfold progress_hook, _update_progress. simpl. repeat case_match; done. }
  rewrite Hh. destruct (progress_hook o sid h w) as [[]]; [apply IH|done|done].
Qed.

(** The delegated mode never consults the safety gate. *)
Lemma proxy_download_ydl_with_net n o sid w :
  proxy_download_ydl (with_net n o) sid w = proxy_download_ydl o sid w.
Proof.
  unfold proxy_download_ydl. do 2 bind_step. simpl.
  destruct (ydl o) as [e|hooks outputs prepared]; [done|].
  apply bind_ext; [apply for_each_hook_with_net|intros ? ?].
  reflexivity.
Qed.

(** C7 (amended). [/api/proxy-download] answers a request that carries
    neither [video_url] nor [direct_url] at once with 400 and a structured
    [{error}] body, and leaves registry, progress store, task records and
    files as they were.  For the platforms [instagram] and [bilibili_tv] a
    direct URL that the safety gate rejects is answered with 400 and
    [{error}] and adds nothing to the registry; for every other platform
    the gate is not consulted: the request is answered as it would be
    with any other gate.  [/api/get-download-url] validates nothing: for
    every request body whose fields are strings or absent it registers a
    session and answers 200, and it creates a task record whenever the
    expiry is within the range of [datetime]. *)
Theorem download_endpoints_validation o w :
  (forall req data,
     request_fields req = Some data ->
     otruthy (r_video_url data) = false -> otruthy (r_direct_url data) = false ->
     proxy_download o req w =
       (Response 400 (Json None (Some "Video URL is required") None), w)) /\
  (forall req data u,
     request_fields req = Some data ->
     r_direct_url data = Some u -> truthy u = true ->
     r_platform data = Some "instagram" \/ r_platform data = Some "bilibili_tv" ->
     is_safe_public_url (net o) u [] = false ->
     (proxy_download o req w).1 =
       Response 400 (Json None (Some "Invalid or unsafe direct URL") None) /\
     pending_downloads (proxy_download o req w).2 = pending_downloads w) /\
  (forall req data gate,
     request_fields req = Some data ->
     r_platform data <> Some "instagram" -> r_platform data <> Some "bilibili_tv" ->
     proxy_download (with_net gate o) req w = proxy_download o req w) /\
  (forall data,
     let rw := get_download_url o (Some data) w in
     code rw.1 = 200 /\
     is_Some (pending_downloads rw.2 ≫= lookup (time_str o)) /\
     (retention_ok (retention_hours o) (now o) = true ->
      is_Some (tasks rw.2 !! time_str o))).
Proof.
  split; [|split; [|split]].
  - intros req data Hreq Hv Hd. unfold proxy_download, proxy_download_body.
    rewrite Hreq, Hv, Hd. reflexivity.
  - intros req data u Hreq Hu Ht Hp Hsafe.
    unfold proxy_download, proxy_download_body, proxy_download_direct.
    rewrite Hreq, Hu. simpl. rewrite Ht, Hsafe.
    destruct Hp as [-> | ->]; simpl;
      destruct (otruthy (r_video_url data)); simpl; done.
  - intros req data gate Hreq Hi Hb.
    unfold proxy_download. rewrite Hreq.
    change (time_str (with_net gate o)) with (time_str o).
    assert (Hplat : String.eqb (default "" (r_platform data)) "instagram"
                    || String.eqb (default "" (r_platform data)) "bilibili_tv" = false).
    { destruct (r_platform data) as [pl|]; simpl; [|done].
      apply orb_false_iff. split; apply String.eqb_neq; congruence. }
    assert (Hbody : forall sid w0,
              proxy_download_body (with_net gate o) data sid w0
              = proxy_download_body o data sid w0).
    { intros sid w0. unfold proxy_download_body. do 3 bind_step.
      destruct (r_direct_url data); [rewrite Hplat, andb_false_r|];
        apply proxy_download_ydl_with_net. }
    unfold view. rewrite Hbody. reflexivity.
  - intros data. apply get_download_url_creates.
Qed.

Lemma download_endpoints_validation_witness :
  let o := Examples.oracle0 (inl "unreachable") Examples.no_ydl in
  proxy_download o (Post (Some (Req None None (Some "best") None (Some "s9") None)))
    Examples.empty_world
  = (Response 400 (Json None (Some "Video URL is required") None), Examples.empty_world) /\
  (proxy_download o
     (Get (Req None (Some "http://10.0.0.5/v.mp4") None None (Some "s9") (Some "instagram")))
     Examples.empty_world).1
  = Response 400 (Json None (Some "Invalid or unsafe direct URL") None) /\
  is_Some (tasks (get_download_url o (Some (Req None None None None None None))
                    Examples.empty_world).2 !! "1700000000000").
Proof.
  pose proof (download_endpoints_validation
                (Examples.oracle0 (inl "unreachable") Examples.no_ydl)
                Examples.empty_world) as (Hmissing & Hunsafe & _ & Hcreate).
  split; [|split].
  - apply (Hmissing _ (Req None None (Some "best") None (Some "s9") None));
      reflexivity.
  - apply (Hunsafe _ (Req None (Some "http://10.0.0.5/v.mp4") None None (Some "s9")
                        (Some "instagram")) "http://10.0.0.5/v.mp4");
      try reflexivity. by left.
  - apply (Hcreate (Req None None None None None None)). reflexivity.
Defined.

(** For a platform other than the two, an address inside a private
    network is handed on unchecked. *)
Example proxy_download_gate_skipped :
  let o := Examples.oracle0 (inl "unreachable")
             (Ydl_ok [] [("video.mp4", 300)] "video.mp4") in
  is_safe_public_url (net o) "http://10.0.0.5/v.mp4" [] = false /\
  code (proxy_download o
          (Get (Req None (Some "http://10.0.0.5/v.mp4") None None (Some "s9")
                  (Some "generic")))
          Examples.empty_world).1 = 200.
Proof. split; vm_compute; reflexivity. Qed.

Example proxy_download_unsafe_url_state :
  let o := Examples.oracle0 (inl "unreachable") Examples.no_ydl in
  let rw := proxy_download o
              (Get (Req None (Some "http://10.0.0.5/v.mp4") None None (Some "s9")
                      (Some "instagram")))
              Examples.empty_world in
  code rw.1 = 400 /\
  status <$> download_progress rw.2 !! "s9" = Some "starting" /\
  task_status <$> tasks rw.2 !! "s9" = Some (Some "starting").
Proof. vm_compute. repeat split. Qed.

(** ** Size ceiling *)

Lemma check_size_too_large o resp cl too_large w :
  0 <= max_download_size_mb o ->
  content_length resp = Int cl -> max_bytes o < cl ->
  check_size o resp too_large w =
    (Return (too_large ("File too large (> "
                          +:+ pretty (max_bytes o / (1024 * 1024)) +:+ " MB)")), w).
Proof.
  intros Hmb Hcl Hlt. unfold check_size. rewrite Hcl.
  assert (0 <= max_bytes o) by (unfold max_bytes; lia).
  destruct (cl =? 0) eqn:E0; [lia|].
  destruct (max_bytes o <? cl) eqn:E1; [done|lia].
Qed.

(** C8. When the upstream response carries a [Content-Length] larger than
    the configured maximum, both handlers answer 413 with the
    "File too large" message before anything of the body is written:
    [force_download] leaves the file system as it was, [proxy_download]
    has created its temporary directory but no file. *)
Theorem size_ceiling o w resp cl :
  0 <= max_download_size_mb o ->
  content_length resp = Int cl -> max_bytes o < cl ->
  (forall sid reg info u,
     pending_downloads w = Some reg -> reg !! sid = Some info ->
     refreshed_direct_url o info = Some u ->
     truthy u && startswith u "http" = true ->
     is_safe_public_url (net o) u [] = true ->
     requests_get o u = inr resp ->
     let rw := force_download o sid w in
     rw.1 = Response 413 (Text ("File too large (> "
                                  +:+ pretty (max_bytes o / (1024 * 1024)) +:+ " MB)")) /\
     fs rw.2 = fs w) /\
  (forall req data u,
     request_fields req = Some data ->
     r_direct_url data = Some u -> truthy u = true ->
     r_platform data = Some "instagram" \/ r_platform data = Some "bilibili_tv" ->
     is_safe_public_url (net o) u [] = true ->
     requests_get o (proxy_direct_url o (r_video_url data) (r_format_id data) u
                       (default "" (r_platform data))) = inr resp ->
     let rw := proxy_download o req w in
     rw.1 = Response 413 (Json None (Some ("File too large (> "
                                  +:+ pretty (max_bytes o / (1024 * 1024)) +:+ " MB)")) None) /\
     Fs.files (fs rw.2) = Fs.files (fs w) /\
     Fs.dirs (fs rw.2) = {[tmpdir o]} ∪ Fs.dirs (fs w)).
Proof.
  intros Hmb Hcl Hlt. split.
  - intros sid reg info u Hreg Hinfo Hu Hhttp Hsafe Hget.
    unfold force_download, force_download_direct. unfold_M.
    rewrite Hreg, Hinfo, Hu, Hhttp, Hsafe, Hget. simpl.
    rewrite (check_size_too_large o resp cl _ w Hmb Hcl Hlt). done.
  - intros req data u Hreq Hu Ht Hp Hsafe Hget.
    unfold proxy_download, proxy_download_body, proxy_download_direct.
    rewrite Hreq, Hu. simpl. rewrite Ht, Hsafe.
    assert (Hplat : String.eqb (default "" (r_platform data)) "instagram"
                    || String.eqb (default "" (r_platform data)) "bilibili_tv" = true).
    { destruct Hp as [-> | ->]; reflexivity. }
    rewrite Hplat. unfold_M. unfold _update_progress. unfold_M. simpl.
    rewrite Hget.
    destruct (otruthy (r_video_url data)) eqn:Hv; simpl;
      destruct (String.eqb (default "" (r_platform data)) "bilibili_tv"); simpl;
      erewrite check_size_too_large by eauto; simpl; done.
Qed.

Lemma size_ceiling_witness :
  let o := Examples.oracle0 (inr (Http 200 (Int 629145600) [524288])) Examples.no_ydl in
  code (force_download o "s1" Examples.world1).1 = 413 /\
  Fs.files (fs (proxy_download o
                  (Get (Req None (Some "https://cdn.example.com/v.mp4") None
                          (Some "clip.mp4") (Some "s2") (Some "instagram")))
                  Examples.empty_world).2) = ∅.
Proof.
  split.
  - pose proof (size_ceiling
                  (Examples.oracle0 (inr (Http 200 (Int 629145600) [524288])) Examples.no_ydl)
                  Examples.world1 (Http 200 (Int 629145600) [524288]) 629145600) as H.
    destruct H as [Hforce _]; [simpl; lia|reflexivity|reflexivity|].
    destruct (Hforce "s1" (<["s1" := Examples.clip]> ∅) Examples.clip
                "https://cdn.example.com/v.mp4") as [-> _]; reflexivity.
  - pose proof (size_ceiling
                  (Examples.oracle0 (inr (Http 200 (Int 629145600) [524288])) Examples.no_ydl)
                  Examples.empty_world (Http 200 (Int 629145600) [524288]) 629145600) as H.
    destruct H as [_ Hproxy]; [simpl; lia|reflexivity|reflexivity|].
    exact (proj1 (proj2
             (Hproxy (Get (Req None (Some "https://cdn.example.com/v.mp4") None
                             (Some "clip.mp4") (Some "s2") (Some "instagram")))
                (Req None (Some "https://cdn.example.com/v.mp4") None
                   (Some "clip.mp4") (Some "s2") (Some "instagram"))
                "https://cdn.example.com/v.mp4"
                eq_refl eq_refl eq_refl (or_introl eq_refl) eq_refl eq_refl))).
Defined.

(** ** Percentages *)

Lemma round_div_mono n n' d :
  0 < d -> n <= n' -> round_div n d <= round_div n' d.
Proof.
  intros Hd Hn. unfold round_div.
  pose proof (Z.div_mod n d ltac:(lia)) as E.
  pose proof (Z.div_mod n' d ltac:(lia)) as E'.
  pose proof (Z.mod_pos_bound n d Hd) as B.
  pose proof (Z.mod_pos_bound n' d Hd) as B'.
  pose proof (Z.div_le_mono n n' d Hd Hn) as Hq.
  rewrite !(Z.abs_eq (_ mod d)) by lia. rewrite (Z.abs_eq d) by lia.
  destruct (Z.eq_dec (n / d) (n' / d)) as [Heq|Hne].
  - rewrite <- Heq in *. assert (n mod d <= n' mod d) by lia.
    destruct (Z.compare_spec (2 * (n mod d)) d), (Z.compare_spec (2 * (n' mod d)) d);
      destruct (Z.even (n / d)); lia.
  - assert (n / d + 1 <= n' / d) by lia.
    destruct (Z.compare_spec (2 * (n mod d)) d), (Z.compare_spec (2 * (n' mod d)) d);
      destruct (Z.even (n / d)), (Z.even (n' / d)); lia.
Qed.

Lemma round_div_exact k d : 0 < d -> round_div (k * d) d = k.
Proof.
  intros Hd. unfold round_div.
  rewrite Z.div_mul, Z.mod_mul by lia.
  rewrite (Z.abs_eq d) by lia. change (2 * Z.abs 0) with 0.
  destruct (Z.compare_spec 0 d); lia.
Qed.

Lemma nearest_double_mono n n' d :
  0 < d -> 0 <= n -> n <= n' -> nearest_double n d <= nearest_double n' d.
Proof.
  intros Hd Hn Hle. unfold nearest_double.
  assert (HS : 0 < double_scale) by (unfold double_scale; apply Z.pow_pos_nonneg; lia).
  set (N := n * double_scale). set (N' := n' * double_scale).
  assert (HN : 0 <= N) by (unfold N; nia).
  assert (HNN : N <= N') by (unfold N, N'; nia).
  assert (HF : 0 <= N / d) by (apply Z.div_pos; lia).
  assert (HFF : N / d <= N' / d) by (apply Z.div_le_mono; lia).
  pose proof (Z.log2_le_mono _ _ HFF) as Hlog.
  set (E := Z.max 0 (Z.log2 (N / d) - 52)).
  set (E' := Z.max 0 (Z.log2 (N' / d) - 52)).
  assert (HE : 0 <= E) by (unfold E; lia).
  assert (HEE : E <= E') by (unfold E, E'; lia).
  assert (HpE : 0 < 2 ^ E) by (apply Z.pow_pos_nonneg; lia).
  assert (HpE' : 0 < 2 ^ E') by (apply Z.pow_pos_nonneg; lia).
  destruct (Z.eq_dec E E') as [Heq|Hne].
  - rewrite <- Heq. apply Z.mul_le_mono_nonneg_r; [lia|].
    apply round_div_mono; [nia|lia].
  - assert (Hlt : E < E') by lia.
    (* the smaller one is at most 2^(53+E) *)
    assert (H1 : round_div N (d * 2 ^ E) <= 2 ^ 53).
    { rewrite <- (round_div_exact (2 ^ 53) (d * 2 ^ E)) by nia.
      apply round_div_mono; [nia|].
      assert (Hb : N / d < 2 ^ (E + 53)).
      { destruct (Z.eq_dec (N / d) 0) as [->|Hnz].
        - apply Z.pow_pos_nonneg; lia.
        - pose proof (Z.log2_spec (N / d) ltac:(lia)) as [_ Hs].
          eapply Z.lt_le_trans; [exact Hs|].
          apply Z.pow_le_mono_r; [lia|]. unfold E. lia. }
      rewrite Z.pow_add_r in Hb by lia.
      pose proof (Z.div_mod N d ltac:(lia)) as Hdm.
      pose proof (Z.mod_pos_bound N d Hd) as Hmb. nia. }
    assert (H2 : 2 ^ 52 <= round_div N' (d * 2 ^ E')).
    { rewrite <- (round_div_exact (2 ^ 52) (d * 2 ^ E')) at 1 by nia.
      apply round_div_mono; [nia|].
      assert (HE' : E' = Z.log2 (N' / d) - 52) by (unfold E' in *; lia).
      assert (Hpos : 0 < N' / d).
      { destruct (Z.eq_dec (N' / d) 0) as [Hz|]; [|lia].
        rewrite Hz in HE'. change (Z.log2 0) with 0 in HE'. lia. }
      pose proof (Z.log2_spec (N' / d) Hpos) as [Hs _].
      replace (Z.log2 (N' / d)) with (E' + 52) in Hs by lia.
      rewrite Z.pow_add_r in Hs by lia.
      pose proof (Z.div_mod N' d ltac:(lia)) as Hdm.
      pose proof (Z.mod_pos_bound N' d Hd) as Hmb. nia. }
    assert (H3 : 2 ^ 53 * 2 ^ E <= 2 ^ 52 * 2 ^ E').
    { rewrite <- !Z.pow_add_r by lia. apply Z.pow_le_mono_r; lia. }
    nia.
Qed.

Lemma nearest_double_zero d : 0 < d -> nearest_double 0 d = 0.
Proof.
  intros Hd. unfold nearest_double. rewrite Z.mul_0_l, Z.div_0_l by lia.
  change (Z.max 0 (Z.log2 0 - 52)) with 0.
  pose proof (round_div_exact 0 (d * 2 ^ 0) ltac:(lia)) as H.
  rewrite Z.mul_0_l in H. rewrite H. reflexivity.
Qed.

Lemma nearest_double_one d : 0 < d -> nearest_double d d = double_scale.
Proof.
  intros Hd. unfold nearest_double.
  rewrite (Z.mul_comm d double_scale), Z.div_mul by lia.
  replace (Z.max 0 (Z.log2 double_scale - 52)) with 1022 by (vm_compute; reflexivity).
  replace (double_scale * d) with (2 ^ 52 * (d * 2 ^ 1022)).
  - rewrite round_div_exact by lia. vm_compute. reflexivity.
  - unfold double_scale. replace 1074 with (52 + 1022) by lia.
    rewrite Z.pow_add_r by lia. ring.
Qed.

Lemma round1_abs_mono n n' t :
  0 < t -> 0 <= n -> n <= n' -> round1_abs n t <= round1_abs n' t.
Proof.
  intros Ht Hn Hle. unfold round1_abs.
  assert (HS : 0 < double_scale) by (unfold double_scale; apply Z.pow_pos_nonneg; lia).
  pose proof (nearest_double_mono 0 n t Ht ltac:(lia) Hn) as H0.
  rewrite nearest_double_zero in H0 by done.
  pose proof (nearest_double_mono n n' t Ht Hn Hle) as H1.
  apply round_div_mono; [done|].
  apply Z.mul_le_mono_nonneg_l; [lia|].
  apply nearest_double_mono; lia.
Qed.

Lemma round1_abs_zero t : 0 < t -> round1_abs 0 t = 0.
Proof.
  intros Ht. unfold round1_abs. rewrite nearest_double_zero by done.
  vm_compute. reflexivity.
Qed.

Lemma round1_abs_one t : 0 < t -> round1_abs t t = 1000.
Proof.
  intros Ht. unfold round1_abs. rewrite nearest_double_one by done.
  vm_compute. reflexivity.
Qed.

Lemma round1_nonneg n t : 0 < t -> 0 <= n -> round1 n t = round1_abs n t.
Proof.
  intros Ht Hn. unfold round1.
  rewrite (Z.abs_eq n), (Z.abs_eq t), (Z.sgn_pos t) by lia.
  destruct (Z.eq_dec n 0) as [->|Hnz].
  - rewrite round1_abs_zero by done. reflexivity.
  - rewrite Z.sgn_pos by lia. lia.
Qed.

Lemma round1_mono n n' t : 0 < t -> 0 <= n -> n <= n' -> round1 n t <= round1 n' t.
Proof.
  intros. rewrite !round1_nonneg by lia. by apply round1_abs_mono.
Qed.

Lemma round1_lower n t : 0 < t -> 0 <= n -> 0 <= round1 n t.
Proof.
  intros Ht Hn. rewrite round1_nonneg by done.
  rewrite <- (round1_abs_zero t Ht). apply round1_abs_mono; lia.
Qed.

Lemma round1_upper n t : 0 < t -> 0 <= n -> n <= t -> round1 n t <= 1000.
Proof.
  intros Ht Hn Hle. rewrite round1_nonneg by done.
  rewrite <- (round1_abs_one t Ht). apply round1_abs_mono; lia.
Qed.

Example round1_examples :
  round1 524288 104857600 = 5 /\ round1 1 3 = 333 /\ round1 2 3 = 667 /\
  round1 1 16 = 62 /\ round1 3 16 = 188 /\ round1 50 100 = 500 /\
  round1 23 80 = 287 /\ round1 1 2000 = 1.
Proof. repeat split; vm_compute; reflexivity. Qed.

Lemma downloading_percents_cons sid p d t msg rest :
  downloading_percents sid ((sid, Snapshot "downloading" msg (Some p) d t) :: rest)
  = p :: downloading_percents sid rest.
Proof.
  unfold downloading_percents. simpl. by rewrite String.eqb_refl.
Qed.

(** The snapshots written by the chunk loop of the direct mode, started
    with [d0] bytes already counted. *)
Lemma download_loop_written o sid temp_file total : forall cs d0 w,
  0 < total -> 0 <= d0 -> Forall (fun c => 0 <= c) cs ->
  exists new,
    written (download_loop o sid temp_file total cs d0 w).2 = written w ++ new /\
    Forall (fun e => e.1 = sid /\ status e.2 = "downloading") new /\
    Forall (fun p => round1 d0 total <= p) (downloading_percents sid new) /\
    (d0 + foldr Z.add 0 cs <= total ->
     Forall (fun p => p <= 1000) (downloading_percents sid new)) /\
    StronglySorted Z.le (downloading_percents sid new).
Proof.
  induction cs as [|c rest IH]; intros d0 w Ht Hd Hc.
  - exists []. simpl. rewrite app_nil_r. repeat split; constructor.
  - apply Forall_cons in Hc as [Hc0 Hrest]. simpl.
    destruct (c =? 0) eqn:Ec.
    + apply Z.eqb_eq in Ec. subst c.
      destruct (IH d0 w Ht Hd Hrest) as (new & Hw & H1 & H2 & H3 & H4).
      exists new. repeat split; auto.
    + apply Z.eqb_neq in Ec.
      assert (Etot : negb (total =? 0) = true).
      { apply negb_true_iff, Z.eqb_neq. lia. }
      unfold_M. rewrite Etot. unfold _update_progress. unfold_M. simpl.
      match goal with
      | |- context [download_loop _ _ _ _ rest _ ?w1] => set (w1' := w1)
      end.
      destruct (IH (d0 + c) w1' Ht ltac:(lia) Hrest) as (new & Hw & H1 & H2 & H3 & H4).
      eexists (_ :: new). split; [rewrite Hw; simpl; by rewrite <- app_assoc|].
      rewrite downloading_percents_cons.
      assert (Hstep : round1 d0 total <= round1 (d0 + c) total)
        by (apply round1_mono; lia).
      split; [|split; [|split]].
      * constructor; [done|done].
      * constructor; [done|]. eapply Forall_impl; [exact H2|]. simpl. lia.
      * intros Hsum. simpl in Hsum.
        assert (0 <= foldr Z.add 0 rest).
        { clear -Hrest. induction Hrest; simpl; lia. }
        constructor; [apply round1_upper; lia|]. apply H3. lia.
      * constructor; [done|]. exact H2.
Qed.

(** What the progress hook writes for a [downloading] callback with a
    known or estimated total. *)
Lemma progress_hook_downloading o sid d t n w :
  h_status d = "downloading" -> hook_total d = Some t -> downloaded_bytes d = Some n ->
  progress_hook o sid d w =
  _update_progress o sid
    (Snapshot "downloading" (Some "Downloading video...")
       (Some (round1 n t)) (Some n) (Some t)) w.
Proof.
  unfold progress_hook, hook_total. intros -> Ht ->. simpl.
  destruct (nonzero (total_bytes d)) as [t0|]; [by injection Ht as ->|].
  by rewrite Ht.
Qed.

Lemma progress_percent_counterexample :
  let o := Examples.oracle0 (inl "unused")
             (Ydl_ok [Hook "downloading" None (Some 100) (Some 50);
                      Hook "downloading" None (Some 256) (Some 64);
                      Hook "downloading" None (Some 200) (Some 300)]
                     [("video.mp4", 300)] "video.mp4") in
  let rw := proxy_download o
              (Get (Req (Some "https://x.com/watch") None None None (Some "s3")
                      (Some "generic")))
              Examples.empty_world in
  code rw.1 = 200 /\
  downloading_percents "s3" (written rw.2) = [500; 250; 1500] /\
  ~ StronglySorted Z.le (downloading_percents "s3" (written rw.2)) /\
  ~ Forall (fun p => 0 <= p <= 1000) (downloading_percents "s3" (written rw.2)).
Proof.
  intros o rw.
  assert (Hl : downloading_percents "s3" (written rw.2) = [500; 250; 1500])
    by (vm_compute; reflexivity).
  split; [vm_compute; reflexivity|]. split; [exact Hl|]. rewrite Hl. split.
  - intros H. inversion H as [|? ? _ Hall]; subst.
    inversion Hall as [|? ? Hle _]; subst. lia.
  - intros H. inversion H as [|? ? _ H1]; subst.
    inversion H1 as [|? ? _ H2]; subst.
    inversion H2 as [|? ? Hb _]; subst. lia.
Qed.

(** In the direct mode the snapshot written before the request has
    [percent] 10, and the chunk loop starts again from the bottom. *)
Example direct_mode_percent_drop :
  let o := Examples.oracle0 (inr (Http 200 (Int 104857600) [524288; 524288]))
             Examples.no_ydl in
  let rw := proxy_download o
              (Get (Req None (Some "https://cdn.example.com/v.mp4") None
                      (Some "clip.mp4") (Some "s2") (Some "instagram")))
              Examples.empty_world in
  code rw.1 = 200 /\ downloading_percents "s2" (written rw.2) = [100; 5; 10].
Proof. split; vm_compute; reflexivity. Qed.

(** C4 (amended). Neither writer clamps or filters [percent], which is
    computed in binary floating point.  The chunk loop of the direct mode,
    for a positive [Content-Length], writes [downloading] snapshots whose
    [percent] is non-decreasing and never negative, and at most 100 when
    the bytes received do not exceed the announced length.  The progress
    hook writes [round(downloaded / total * 100, 1)] for the total or
    estimated total of each callback: that value is in the range 0 to 100
    when [0 <= downloaded <= total], and it does not decrease between
    callbacks that report the same total and a non-decreasing byte
    count.  Byte counts are below [byte_count_bound] throughout. *)
Theorem progress_percent o sid :
  (forall temp_file total cs w,
     0 < total -> Forall (fun c => 0 <= c) cs ->
     foldr Z.add 0 cs < byte_count_bound ->
     exists new,
       written (download_loop o sid temp_file total cs 0 w).2 = written w ++ new /\
       Forall (fun e => e.1 = sid /\ status e.2 = "downloading") new /\
       StronglySorted Z.le (downloading_percents sid new) /\
       Forall (fun p => 0 <= p) (downloading_percents sid new) /\
       (foldr Z.add 0 cs <= total ->
        Forall (fun p => p <= 1000) (downloading_percents sid new))) /\
  (forall d t n w,
     h_status d = "downloading" -> hook_total d = Some t -> downloaded_bytes d = Some n ->
     Z.abs n < byte_count_bound ->
     written (progress_hook o sid d w).2 =
       written w ++ [(sid, Snapshot "downloading" (Some "Downloading video...")
                             (Some (round1 n t)) (Some n) (Some t))]) /\
  (forall t n n',
     0 < t -> 0 <= n -> n <= n' -> n' < byte_count_bound ->
     0 <= round1 n t /\ round1 n t <= round1 n' t /\ (n' <= t -> round1 n' t <= 1000)).
Proof.
  split; [|split].
  - intros temp_file total cs w Ht Hcs _.
    destruct (download_loop_written o sid temp_file total cs 0 w Ht ltac:(lia) Hcs)
      as (new & Hw & H1 & H2 & H3 & H4).
    exists new. repeat split; auto.
  - intros d t n w Hs Ht Hn _.
    rewrite (progress_hook_downloading o sid d t n w Hs Ht Hn). reflexivity.
  - intros t n n' Ht Hn Hle _. split; [by apply round1_lower|].
    split; [by apply round1_mono|]. intros. apply round1_upper; lia.
Qed.

Lemma progress_percent_witness :
  (exists new,
     written (download_loop (Examples.oracle0 (inl "unused") Examples.no_ydl) "s3"
                "/tmp/tmpab12/clip.mp4" 80 [23; 57] 0 Examples.empty_world).2
       = written Examples.empty_world ++ new /\
     StronglySorted Z.le (downloading_percents "s3" new)) /\
  0 <= round1 23 80 /\ round1 23 80 <= round1 75 80 /\ round1 75 80 <= 1000.
Proof.
  destruct (progress_percent (Examples.oracle0 (inl "unused") Examples.no_ydl) "s3")
    as (Hloop & _ & Hround).
  split.
  - destruct (Hloop "/tmp/tmpab12/clip.mp4" 80 [23; 57] Examples.empty_world)
      as (new & Hw & _ & Hs & _);
      [lia|repeat constructor; lia|vm_compute; reflexivity|].
    exists new. split; [exact Hw|exact Hs].
  - destruct (Hround 80 23 75) as (H1 & H2 & H3);
      [lia|lia|lia|vm_compute; reflexivity|].
    split; [exact H1|]. split; [exact H2|]. apply H3. lia.
Defined.

(** ** Progress publisher *)

Lemma sse_loop_done fuel store sid tick timeout last :
  max_timeout <= timeout ->
  sse_loop fuel store sid tick timeout last = Some [Timeout_event].
Proof.
  intros H. destruct fuel; simpl;
    (destruct (Z.ltb_spec timeout max_timeout); [lia|]);
    (destruct (Z.leb_spec max_timeout timeout); [done|lia]).
Qed.

Lemma sse_loop_out_of_fuel store sid tick timeout last :
  timeout < max_timeout -> sse_loop 0 store sid tick timeout last = None.
Proof.
  intros H. simpl. destruct (Z.ltb_spec timeout max_timeout); [done|lia].
Qed.

Lemma sse_loop_poll fuel store sid tick timeout last :
  timeout < max_timeout ->
  sse_loop (S fuel) store sid tick timeout last =
  let '(sent, last_status') :=
    match store tick !! sid with
    | Some current =>
        if bool_decide (Some current <> last)
        then ([Data current], Some current)
        else ([], last)
    | None => ([], last)
    end in
  app sent <$> sse_loop fuel store sid (S tick) (timeout + poll_interval) last_status'.
Proof.
  intros H. simpl. destruct (Z.ltb_spec timeout max_timeout); [done|lia].
Qed.

Lemma polls_left_S k :
  max_timeout - poll_interval * Z.of_nat (S k) + poll_interval
  = max_timeout - poll_interval * Z.of_nat k.
Proof. unfold max_timeout, poll_interval. lia. Qed.

Lemma polls_left_lt k :
  max_timeout - poll_interval * Z.of_nat (S k) < max_timeout.
Proof. unfold max_timeout, poll_interval. lia. Qed.

(** With [k] polls left before the ceiling and enough fuel, the loop makes
    exactly those polls, sends data events only, and ends with the one
    timeout event. *)
Lemma sse_loop_runs store sid : forall (k fuel tick : nat) last,
  (k <= fuel)%nat ->
  exists evs,
    sse_loop fuel store sid tick (max_timeout - poll_interval * Z.of_nat k) last
      = Some (evs ++ [Timeout_event]) /\
    Timeout_event ∉ evs.
Proof.
  induction k as [|k IH]; intros fuel tick last Hk.
  - exists []. split; [|apply not_elem_of_nil].
    apply sse_loop_done. unfold poll_interval. lia.
  - destruct fuel as [|fuel]; [lia|].
    rewrite sse_loop_poll by apply polls_left_lt. rewrite polls_left_S.
    destruct (store tick !! sid) as [current|].
    + case_bool_decide.
      * destruct (IH fuel (S tick) (Some current) ltac:(lia)) as (evs & -> & Hno).
        exists (Data current :: evs). split; [done|].
        apply not_elem_of_cons. done.
      * destruct (IH fuel (S tick) last ltac:(lia)) as (evs & -> & Hno).
        exists evs. done.
    + destruct (IH fuel (S tick) last ltac:(lia)) as (evs & -> & Hno).
      exists evs. done.
Qed.

(** With less fuel than polls left, the loop is still polling. *)
Lemma sse_loop_still_polling store sid : forall (k fuel tick : nat) last,
  (fuel < k)%nat ->
  sse_loop fuel store sid tick (max_timeout - poll_interval * Z.of_nat k) last = None.
Proof.
  induction k as [|k IH]; intros fuel tick last Hk; [lia|].
  destruct fuel as [|fuel]; [apply sse_loop_out_of_fuel, polls_left_lt|].
  rewrite sse_loop_poll by apply polls_left_lt. rewrite polls_left_S.
  destruct (store tick !! sid) as [current|]; [case_bool_decide|];
    rewrite IH by lia; done.
Qed.

(** Whatever the store does, the stream makes 600 polls, 180 s, and then
    closes with exactly one timeout event, its last event. *)
Lemma get_download_progress_times_out store sid :
  (exists evs,
     get_download_progress 600 store sid = Some (evs ++ [Timeout_event]) /\
     Timeout_event ∉ evs) /\
  (forall fuel, (fuel < 600)%nat -> get_download_progress fuel store sid = None).
Proof.
  unfold get_download_progress. split.
  - apply (sse_loop_runs store sid 600 600 0 None). lia.
  - intros fuel Hf. apply (sse_loop_still_polling store sid 600 fuel 0 None Hf).
Qed.

(** No snapshot ever: the timeout event is the only event. *)
Lemma get_download_progress_no_snapshot store sid :
  (forall i, store i !! sid = None) ->
  get_download_progress 600 store sid = Some [Timeout_event].
Proof.
  intros Hnone. unfold get_download_progress.
  assert (G : forall (k tick : nat) last,
            sse_loop k store sid tick (max_timeout - poll_interval * Z.of_nat k) last
            = Some [Timeout_event]).
  { induction k as [|k IH]; intros tick last.
    - apply sse_loop_done. unfold poll_interval. lia.
    - rewrite sse_loop_poll by apply polls_left_lt. rewrite polls_left_S.
      rewrite Hnone, IH. reflexivity. }
  apply (G 600%nat 0%nat None).
Qed.

(** C5. The stream does not close when the entry disappears: for a store
    whose entry for the session is gone from the third poll on, the
    publisher sends the two snapshots it saw, is still polling after 599
    polls, and ends after 600 polls (180 s) with the timeout event. *)
Theorem get_download_progress_ignores_removal :
  (forall i, (2 <= i)%nat -> Examples.vanishing_store i !! "s3" = None) /\
  get_download_progress 600 Examples.vanishing_store "s3"
    = Some [Data (Snapshot "downloading" (Some "Downloading video...")
                    (Some 500) (Some 50) (Some 100));
            Data Examples.streaming;
            Timeout_event] /\
  get_download_progress 599 Examples.vanishing_store "s3" = None.
Proof.
  split; [|split].
  - intros [|[|i]] Hi; [lia|lia|reflexivity].
  - vm_compute. reflexivity.
  - vm_compute. reflexivity.
Qed.

Lemma get_download_progress_ignores_removal_witness :
  Examples.vanishing_store 7 !! "s3" = None.
Proof.
  apply (proj1 get_download_progress_ignores_removal 7%nat). lia.
Defined.

(** ** Upstream errors *)

Lemma download_loop_ignores_status c o sid tf total : forall cs d w,
  download_loop (with_status_code c o) sid tf total cs d w
  = download_loop o sid tf total cs d w.
Proof.
  induction cs as [|x cs IH]; intros d w; simpl; [done|].
  destruct (x =? 0); [apply IH|].
  unfold_M. unfold _update_progress. unfold_M. simpl.
  destruct (negb (total =? 0)); simpl; apply IH.
Qed.

Lemma for_each_hook_ignores_status c o sid : forall hooks w,
  for_each hooks (progress_hook (with_status_code c o) sid) w
  = for_each hooks (progress_hook o sid) w.
Proof.
  induction hooks as [|h hooks IH]; intros w; simpl; [done|].
  unfold_M.
  assert (Hh : progress_hook (with_status_code c o) sid h w = progress_hook o sid h w).
  { unfold progress_hook, _update_progress. simpl. repeat case_match; done. }
  rewrite Hh. destruct (progress_hook o sid h w) as [[]]; [apply IH|done|done].
Qed.

Lemma proxy_download_direct_ignores_status c o sid v f u fn p w :
  proxy_download_direct (with_status_code c o) sid v f u fn p w
  = proxy_download_direct o sid v f u fn p w.
Proof.
  unfold proxy_download_direct.
  do 5 bind_step.
  change (tmpdir (with_status_code c o)) with (tmpdir o).
  change (proxy_direct_url (with_status_code c o) v f u p)
    with (proxy_direct_url o v f u p).
  change (requests_get (with_status_code c o) (proxy_direct_url o v f u p))
    with (match requests_get o (proxy_direct_url o v f u p) with
          | inl e => inl e
          | inr r => inr (Http c (content_length r) (chunks r))
          end).
  destruct (requests_get o (proxy_direct_url o v f u p)) as [e|r]; [done|].
  rewrite !bind_ret.
  do 3 bind_step.
  apply bind_ext; [apply download_loop_ignores_status|intros ? ?].
  reflexivity.
Qed.

Lemma proxy_download_ydl_ignores_status c o sid w :
  proxy_download_ydl (with_status_code c o) sid w = proxy_download_ydl o sid w.
Proof.
  unfold proxy_download_ydl. do 2 bind_step. simpl.
  destruct (ydl o) as [e|hooks outputs prepared]; [done|].
  apply bind_ext; [apply for_each_hook_ignores_status|intros ? ?].
  reflexivity.
Qed.

(** [proxy_download] never looks at the status of the upstream response. *)
Lemma proxy_download_ignores_status c o req w :
  proxy_download (with_status_code c o) req w = proxy_download o req w.
Proof.
  unfold proxy_download. destruct (request_fields req) as [data|]; [|done].
  change (time_str (with_status_code c o)) with (time_str o).
  assert (Hbody : forall sid w,
            proxy_download_body (with_status_code c o) data sid w
            = proxy_download_body o data sid w).
  { intros sid w0. unfold proxy_download_body. do 3 bind_step.
    destruct (r_direct_url data) as [u|];
      [|apply proxy_download_ydl_ignores_status].
    destruct (truthy u && _);
      [apply proxy_download_direct_ignores_status
      |apply proxy_download_ydl_ignores_status]. }
  unfold view. rewrite Hbody. reflexivity.
Qed.

Example force_download_upstream_error :
  let o := Examples.oracle0 (inr (Http 404 (Int 9) [9])) Examples.no_ydl in
  let rw := force_download o "s1" Examples.world1 in
  rw.1 = Response 404 (Text "Failed to download video: HTTP 404") /\
  fs rw.2 = fs Examples.world1.
Proof. split; vm_compute; reflexivity. Qed.

(** C6. The direct mode of [proxy_download] does not check the upstream
    status: with an upstream that answers 404 and a 9-byte error page, the
    handler writes the page to its temporary file, leaves the session in
    the progress store with status [streaming], and answers 200 with the
    stream of that file, exactly as it does for an upstream answering
    200. *)
Theorem proxy_download_upstream_error :
  let o := Examples.oracle0 (inr (Http 404 (Int 9) [9])) Examples.no_ydl in
  let rw := proxy_download o Examples.direct_request Examples.empty_world in
  rw.1 = Response 200 (Stream (Gen_proxy_direct "/tmp/tmpab12/clip.mp4" "/tmp/tmpab12")) /\
  Fs.files (fs rw.2) !! "/tmp/tmpab12/clip.mp4" = Some 9 /\
  download_progress rw.2 !! "s2" = Some Examples.streaming /\
  rw = proxy_download (with_status_code 200 o) Examples.direct_request Examples.empty_world.
Proof.
  intros o rw. split; [vm_compute; reflexivity|].
  split; [vm_compute; reflexivity|]. split; [vm_compute; reflexivity|].
  subst rw. symmetry. apply proxy_download_ignores_status.
Qed.

(** ** Cleanup after streaming *)

(** Running a response generator never touches the task records. *)
Lemma run_generate_tasks g c w : tasks (run_generate g c w).2 = tasks w.
Proof.
  destruct g; simpl.
  - done.
  - destruct (Fs.read _ _); [|done]. destruct c; [|done]. simpl.
    unfold cleanup_force_ydl. repeat case_match; done.
  - unfold cleanup_proxy_direct. repeat case_match; done.
  - unfold cleanup_proxy_ydl. repeat case_match; done.
Qed.

(** The generator of the direct mode never touches the progress store. *)
Lemma run_generate_proxy_direct_progress temp_file temp_dir c w :
  download_progress (run_generate (Gen_proxy_direct temp_file temp_dir) c w).2
  = download_progress w.
Proof. simpl. unfold cleanup_proxy_direct. repeat case_match; done. Qed.

(** The generator of the direct mode removes the temporary file, unless
    [os.remove] fails on it. *)
Lemma run_generate_proxy_direct_file temp_file temp_dir c w :
  temp_file ∉ Fs.locked (fs w) ->
  Fs.files (fs (run_generate (Gen_proxy_direct temp_file temp_dir) c w).2) !! temp_file
  = None.
Proof.
  intros Hl. simpl. unfold cleanup_proxy_direct, remove_if_exists, rmdir_if_exists.
  assert (Hrm : forall f', Fs.remove (fs w) temp_file = Some f' ->
                  Fs.files f' !! temp_file = None).
  { intros f' (-> & _ & _)%remove_Some. apply lookup_delete_eq. }
  assert (Hrd : forall f f', Fs.rmdir f temp_dir = Some f' -> Fs.files f' = Fs.files f).
  { intros f f'. unfold Fs.rmdir. case_match; [|done]. by intros [= <-]. }
  destruct (Fs.exists_ (fs w) temp_file) eqn:Hex.
  - destruct (Fs.remove (fs w) temp_file) as [f1|] eqn:E.
    + specialize (Hrm _ eq_refl).
      repeat case_match; simplify_eq/=; try done.
      by rewrite (Hrd _ _ ltac:(eassumption)).
    + apply remove_None in E as [?|?]; done.
  - assert (Fs.files (fs w) !! temp_file = None).
    { unfold Fs.exists_, Fs.is_file in Hex. apply orb_false_iff in Hex as [Hf _].
      apply bool_decide_eq_false in Hf. by apply eq_None_not_Some. }
    repeat case_match; simplify_eq/=; try done.
    by rewrite (Hrd _ _ ltac:(eassumption)).
Qed.

(** What [mark_file_deleted] would record, were it called: status
    [completed] and no [storage_path]. *)
Lemma mark_file_deleted_marks now sid db t :
  db !! sid = Some t ->
  exists t', task_service.mark_file_deleted now sid db !! sid = Some t' /\
    task_status t' = Some "completed" /\ storage_path t' = None.
Proof.
  intros Hdb. unfold task_service.mark_file_deleted. rewrite Hdb.
  rewrite lookup_insert_eq. eauto.
Qed.

(** C2. After a completed direct-mode download has been streamed, to the
    end or to a client that went away after the first chunk, the
    temporary file and directory are gone, but the progress store still
    holds the session with status [streaming], and the task record still
    has status [streaming] and its [storage_path]. *)
Theorem proxy_download_direct_completion :
  let o := Examples.oracle0 (inr (Http 200 (Int 9) [9])) Examples.no_ydl in
  let rw := proxy_download o Examples.direct_request Examples.empty_world in
  rw.1 = Response 200 (Stream (Gen_proxy_direct "/tmp/tmpab12/clip.mp4" "/tmp/tmpab12")) /\
  forall c, c = Consume_all \/ c = Disconnect_after 1 ->
    let after :=
      (run_generate (Gen_proxy_direct "/tmp/tmpab12/clip.mp4" "/tmp/tmpab12") c rw.2).2 in
    Fs.exists_ (fs after) "/tmp/tmpab12/clip.mp4" = false /\
    Fs.exists_ (fs after) "/tmp/tmpab12" = false /\
    download_progress after !! "s2" = Some Examples.streaming /\
    task_status <$> tasks after !! "s2" = Some (Some "streaming") /\
    storage_path <$> tasks after !! "s2" = Some (Some "/tmp/tmpab12/clip.mp4").
Proof.
  intros o rw. split; [vm_compute; reflexivity|].
  intros c [-> | ->]; repeat split; vm_compute; reflexivity.
Qed.

Lemma proxy_download_direct_completion_witness :
  Fs.exists_
    (fs (run_generate (Gen_proxy_direct "/tmp/tmpab12/clip.mp4" "/tmp/tmpab12")
           Consume_all
           (proxy_download
              (Examples.oracle0 (inr (Http 200 (Int 9) [9])) Examples.no_ydl)
              Examples.direct_request Examples.empty_world).2).2)
    "/tmp/tmpab12/clip.mp4" = false.
Proof.
  exact (proj1 (proj2 proxy_download_direct_completion Consume_all (or_introl eq_refl))).
Defined.

(** The delegated mode clears the progress store, and leaves the task
    record as the last progress update wrote it. *)
Example proxy_download_ydl_completion :
  let o := Examples.oracle0 (inl "unused")
             (Ydl_ok [Hook "downloading" (Some 300) None (Some 150);
                      Hook "finished" (Some 300) None (Some 300)]
                     [("video.mp4", 300)] "video.mp4") in
  let rw := proxy_download o Examples.ydl_request Examples.empty_world in
  rw.1 = Response 200 (Stream (Gen_proxy_ydl "/tmp/tmpab12/video.mp4" "/tmp/tmpab12" "s3")) /\
  let after :=
    (run_generate (Gen_proxy_ydl "/tmp/tmpab12/video.mp4" "/tmp/tmpab12" "s3")
       Consume_all rw.2).2 in
  Fs.exists_ (fs after) "/tmp/tmpab12/video.mp4" = false /\
  Fs.exists_ (fs after) "/tmp/tmpab12" = false /\
  download_progress after !! "s3" = None /\
  task_status <$> tasks after !! "s3" = Some (Some "streaming") /\
  storage_path <$> tasks after !! "s3" = Some None.
Proof. intros o rw. repeat split; vm_compute; reflexivity. Qed.

(** When the extractor leaves a second file behind, [os.rmdir] fails and
    the rest of the cleanup, the progress store included, is skipped. *)
Example proxy_download_ydl_leftover :
  let o := Examples.oracle0 (inl "unused")
             (Ydl_ok [] [("video.mp4", 300); ("video.f137.mp4.part", 120)] "video.mp4") in
  let rw := proxy_download o Examples.ydl_request Examples.empty_world in
  let after :=
    (run_generate (Gen_proxy_ydl "/tmp/tmpab12/video.mp4" "/tmp/tmpab12" "s3")
       Consume_all rw.2).2 in
  code rw.1 = 200 /\
  Fs.exists_ (fs after) "/tmp/tmpab12/video.mp4" = false /\
  Fs.exists_ (fs after) "/tmp/tmpab12" = true /\
  download_progress after !! "s3" = Some Examples.streaming.
Proof. intros o rw after. repeat split; vm_compute; reflexivity. Qed.

(** * Further properties *)

(** ** Strings *)

Lemma append_assoc (a b c : string) : (a +:+ b) +:+ c = a +:+ b +:+ c.
Proof.
  induction a as [|x a IH]; [reflexivity|].
  change (String x ((a +:+ b) +:+ c) = String x (a +:+ b +:+ c)).
  by rewrite IH.
Qed.

Lemma append_nil_r (a : string) : a +:+ "" = a.
Proof.
  induction a as [|x a IH]; [reflexivity|].
  change (String x (a +:+ "") = String x a). by rewrite IH.
Qed.

(** ** Task service *)

Section task_service_facts.

Import task_service.

(** A row is kept by every sweep up to its expiry instant and deleted by
    every later one. *)
Lemma sweep_at_expiry db sid t e fs now :
  db !! sid = Some t -> expires_at t = Some e ->
  (now <= e -> sw_db (cleanup_expired_tasks now db fs) !! sid = Some t) /\
  (e < now -> sw_db (cleanup_expired_tasks now db fs) !! sid = None).
Proof.
  intros Hdb He. split; intros H.
  - apply (cleanup_keeps now db fs sid t Hdb).
    unfold is_expired. rewrite He. apply Z.ltb_ge. lia.
  - rewrite cleanup_expired_tasks_fold. apply sweep_db_gone, elem_of_expired_sids.
    exists t. split; [done|]. unfold is_expired. rewrite He. by apply Z.ltb_lt.
Qed.

(** X1. Retention window: after [upsert_task], [mark_status] or
    [register_storage] at time [now], with the expiry within the range of
    [datetime], the row of the session exists, every sweep up to the
    expiry instant keeps it and every later sweep deletes it; the instant
    is [now + 3600 * hours] for a positive retention and [now] itself
    otherwise.  With the expiry past that range, [upsert_task] raises and
    none of the three writes anything. *)
Theorem retention_window hours now sid d st msg progress path stype size db :
  (retention_ok hours now = true ->
   forall db',
     upsert_task hours now sid d db = Some db' \/
     db' = mark_status hours now sid st msg progress db \/
     db' = register_storage hours now sid path stype size db ->
     (0 < hours -> expiry_instant hours now = now + hours * 3600) /\
     (hours <= 0 -> expiry_instant hours now = now) /\
     exists t, db' !! sid = Some t /\
       forall fs at_,
         (at_ <= expiry_instant hours now ->
          sw_db (cleanup_expired_tasks at_ db' fs) !! sid = Some t) /\
         (expiry_instant hours now < at_ ->
          sw_db (cleanup_expired_tasks at_ db' fs) !! sid = None)) /\
  (retention_ok hours now = false ->
   upsert_task hours now sid d db = None /\
   mark_status hours now sid st msg progress db = db /\
   register_storage hours now sid path stype size db = db).
Proof.
  split; [|apply task_writes_fail].
  intros Hok db' Hop. split; [|split].
  - intros H. unfold expiry_instant. destruct (Z.ltb_spec 0 hours); [done|lia].
  - intros H. unfold expiry_instant. destruct (Z.ltb_spec 0 hours); [lia|done].
  - assert (Hrow : exists t, db' !! sid = Some t /\
                     expires_at t = Some (expiry_instant hours now)).
    { destruct Hop as [Hup | [-> | ->]].
      - destruct (upsert_task_row hours now sid d db Hok)
          as (db1 & Hdb1 & (t & Ht & _ & He) & _).
        rewrite Hup in Hdb1. injection Hdb1 as <-. eauto.
      - destruct (mark_status_row hours now sid st msg progress db Hok)
          as [(t & Ht & _ & _ & _ & He) _]; eauto.
      - destruct (register_storage_row hours now sid path stype size db Hok)
          as [(t & Ht & _ & _ & _ & He) _]; eauto. }
    destruct Hrow as (t & Ht & He). exists t. split; [done|].
    intros fs at_. by apply sweep_at_expiry.
Qed.

Lemma retention_window_witness :
  (exists t,
     mark_status 24 1000 "s1" "starting" None None ∅ !! "s1" = Some t /\
     sw_db (cleanup_expired_tasks 87400 (mark_status 24 1000 "s1" "starting" None None ∅)
              Examples.empty_fs) !! "s1" = Some t /\
     sw_db (cleanup_expired_tasks 87401 (mark_status 24 1000 "s1" "starting" None None ∅)
              Examples.empty_fs) !! "s1" = None) /\
  mark_status 100000000 1000 "s1" "starting" None None Examples.db0 = Examples.db0.
Proof.
  split.
  - destruct (proj1 (retention_window 24 1000 "s1" no_defaults "starting" None None
                       "" "" None ∅) eq_refl
                (mark_status 24 1000 "s1" "starting" None None ∅)
                (or_intror (or_introl eq_refl)))
      as (_ & _ & t & Ht & Hsweep).
    exists t. split; [exact Ht|].
    split.
    + apply (proj1 (Hsweep Examples.empty_fs 87400)). vm_compute. discriminate.
    + apply (proj2 (Hsweep Examples.empty_fs 87401)). reflexivity.
  - apply (proj2 (retention_window 100000000 1000 "s1" no_defaults "starting" None None
                    "" "" None Examples.db0) eq_refl).
Defined.

(** X2. [upsert_task], with the expiry within the range of [datetime],
    never clears a column of an existing row: the storage and progress
    columns are unchanged, a column whose default is absent keeps its
    value, and with empty defaults the call only stamps
    [last_accessed_at] and [expires_at].  On a missing row it creates one
    whose status is the default status when that is a non-empty string
    and [pending] otherwise.  With the expiry past the range the call
    raises. *)
Theorem upsert_task_columns hours now sid d db :
  (retention_ok hours now = true ->
   exists db',
     upsert_task hours now sid d db = Some db' /\
     (forall t, db !! sid = Some t ->
        exists t',
          db' !! sid = Some t' /\
          storage_path t' = storage_path t /\ storage_type t' = storage_type t /\
          file_size t' = file_size t /\ last_progress t' = last_progress t /\
          platform t' = override (d_platform d) (platform t) /\
          source_url t' = override (d_source_url d) (source_url t) /\
          direct_url t' = override (d_direct_url d) (direct_url t) /\
          requested_filename t' = override (d_requested_filename d) (requested_filename t) /\
          task_status t' = override (d_status d) (task_status t) /\
          task_message t' = override (d_message d) (task_message t) /\
          (d = no_defaults ->
           t' = DownloadTaskMethods.set_expires_at (expiry_instant hours now)
                  (DownloadTaskMethods.touch now t))) /\
     (db !! sid = None ->
        exists t',
          db' !! sid = Some t' /\
          task_status t' = Some (if otruthy (d_status d) then default "" (d_status d)
                                 else "pending") /\
          storage_path t' = None /\ last_progress t' = None)) /\
  (retention_ok hours now = false -> upsert_task hours now sid d db = None).
Proof.
  split.
  - intros Hok. unfold upsert_task.
    destruct (db !! sid) as [t|] eqn:Hdb; simpl; rewrite extend_expiry_Some by done;
      (eexists; split; [reflexivity|]); split; try done.
    + intros t0 [= <-]. rewrite lookup_insert_eq. eexists. split; [reflexivity|].
      repeat split; try done. intros ->. by destruct t.
    + intros _. rewrite lookup_insert_eq.
      destruct d as [dp dsrc ddir dfn [s|] dmsg]; simpl;
        [destruct (truthy s); simpl|]; (eexists; split; [reflexivity|]); done.
  - intros Hbad.
    apply (task_writes_fail hours now sid d "" None None "" "" None db Hbad).
Qed.

Lemma upsert_task_columns_witness :
  exists db' t',
    upsert_task 24 2000 "old" no_defaults Examples.db0 = Some db' /\
    db' !! "old" = Some t' /\
    storage_path t' = Some "/tmp/a/clip.mp4" /\ task_status t' = Some "streaming".
Proof.
  destruct (proj1 (upsert_task_columns 24 2000 "old" no_defaults Examples.db0) eq_refl)
    as (db' & Hup & Hold & _).
  destruct (Hold (Examples.task_at (Some "/tmp/a/clip.mp4") (Some 10)) eq_refl)
    as (t' & Ht & Hp & _ & _ & _ & _ & _ & _ & _ & Hs & _).
  exists db', t'. split; [exact Hup|]. split; [exact Ht|]. split; [exact Hp|exact Hs].
Defined.

(** X3. [mark_file_deleted] does nothing for an unknown session (it
    creates no row); for a known one it clears [storage_path], sets
    status [completed] and stamps [last_accessed_at], keeps
    [storage_type] and [file_size], and does not refresh [expires_at];
    other rows are untouched. *)
Theorem mark_file_deleted_row now sid db :
  (db !! sid = None -> mark_file_deleted now sid db = db) /\
  (forall t, db !! sid = Some t ->
     exists t',
       mark_file_deleted now sid db !! sid = Some t' /\
       storage_path t' = None /\ task_status t' = Some "completed" /\
       last_accessed_at t' = Some now /\
       storage_type t' = storage_type t /\ file_size t' = file_size t /\
       expires_at t' = expires_at t) /\
  (forall sid', sid' <> sid -> mark_file_deleted now sid db !! sid' = db !! sid').
Proof.
  unfold mark_file_deleted. split; [|split].
  - by intros ->.
  - intros t ->. rewrite lookup_insert_eq. eexists. split; [reflexivity|]. done.
  - intros sid' Hne. destruct (db !! sid); [|done]. by rewrite lookup_insert_ne.
Qed.

Lemma mark_file_deleted_row_witness :
  mark_file_deleted 2000 "missing" Examples.db0 = Examples.db0 /\
  exists t', mark_file_deleted 2000 "old" Examples.db0 !! "old" = Some t' /\
             storage_path t' = None /\ expires_at t' = Some 10.
Proof.
  destruct (mark_file_deleted_row 2000 "missing" Examples.db0) as (Hnone & _ & _).
  split; [apply Hnone; reflexivity|].
  destruct (mark_file_deleted_row 2000 "old" Examples.db0) as (_ & Hsome & _).
  destruct (Hsome (Examples.task_at (Some "/tmp/a/clip.mp4") (Some 10)) eq_refl)
    as (t' & Ht & Hp & _ & _ & _ & _ & He).
  exists t'. split; [exact Ht|]. split; [exact Hp|exact He].
Defined.

(** X4. [register_storage], with the expiry within the range of
    [datetime], creates the row when it is missing (with status
    [pending]); on an existing row it records path and type, keeps status,
    message and progress, and keeps the recorded [file_size] when it is
    called without a size.  With the expiry past the range it writes
    nothing. *)
Theorem register_storage_columns hours now sid path stype size db :
  (retention_ok hours now = true ->
   (db !! sid = None ->
      exists t',
        register_storage hours now sid path stype size db !! sid = Some t' /\
        storage_path t' = Some path /\ storage_type t' = Some stype /\
        file_size t' = size /\ task_status t' = Some "pending") /\
   (forall t, db !! sid = Some t ->
      exists t',
        register_storage hours now sid path stype size db !! sid = Some t' /\
        storage_path t' = Some path /\ storage_type t' = Some stype /\
        file_size t' = override size (file_size t) /\
        task_status t' = task_status t /\ task_message t' = task_message t /\
        last_progress t' = last_progress t)) /\
  (retention_ok hours now = false ->
   register_storage hours now sid path stype size db = db).
Proof.
  split.
  - intros Hok. unfold register_storage, upsert_task. split.
    + intros ->. simpl. rewrite extend_expiry_Some by done.
      rewrite lookup_alter_eq, lookup_insert_eq. simpl.
      eexists. split; [reflexivity|]. repeat split; try done. by destruct size.
    + intros t ->. simpl. rewrite extend_expiry_Some by done.
      rewrite lookup_alter_eq, lookup_insert_eq. simpl.
      eexists. split; [reflexivity|]. repeat split; try done.
  - intros Hbad.
    apply (task_writes_fail hours now sid no_defaults "" None None path stype size db Hbad).
Qed.

Lemma register_storage_columns_witness :
  exists t',
    register_storage 24 2000 "old" "/tmp/z/v.mp4" "temp" None
      (register_storage 24 2000 "old" "/tmp/z/v.mp4" "temp" (Some 77) Examples.db0)
      !! "old" = Some t' /\
    file_size t' = Some 77.
Proof.
  destruct (proj1 (register_storage_columns 24 2000 "old" "/tmp/z/v.mp4" "temp" (Some 77)
                     Examples.db0) eq_refl) as [_ H1].
  destruct (H1 _ eq_refl) as (t1 & Ht1 & _ & _ & Hs1 & _).
  destruct (proj1 (register_storage_columns 24 2000 "old" "/tmp/z/v.mp4" "temp" None
                     (register_storage 24 2000 "old" "/tmp/z/v.mp4" "temp" (Some 77)
                        Examples.db0)) eq_refl) as [_ H2].
  destruct (H2 t1 Ht1) as (t2 & Ht2 & _ & _ & Hs2 & _).
  exists t2. split; [exact Ht2|]. rewrite Hs2, Hs1. reflexivity.
Defined.

End task_service_facts.

(** ** More on the sweep *)

Section more_sweep_facts.

Import task_service.

Lemma sweep_removed_count l : forall st,
  sw_removed (fold_left purge l st) = sw_removed st + Z.of_nat (length l).
Proof.
  induction l as [|row l IH]; intros st; simpl fold_left; [simpl; lia|].
  rewrite IH. unfold purge.
  destruct (storage_path row.2) as [p|]; simpl length;
    [destruct (truthy p && _); [destruct (Fs.remove _ _)|]|]; simpl; lia.
Qed.

Lemma sweep_size l : forall st,
  NoDup l.*1 -> (forall k, k ∈ l.*1 -> is_Some (sw_db st !! k)) ->
  size (sw_db st) = (size (sw_db (fold_left purge l st)) + length l)%nat.
Proof.
  induction l as [|row l IH]; intros st Hnd Hin; simpl; [lia|].
  rewrite fmap_cons in Hnd. apply NoDup_cons in Hnd as [Hrow Hnd].
  assert (Hin' : forall k, k ∈ l.*1 -> is_Some (sw_db (purge st row) !! k)).
  { intros k Hk. rewrite purge_db, lookup_delete_ne.
    - apply Hin. by right.
    - intros Heq. rewrite <- Heq in Hk. done. }
  specialize (IH (purge st row) Hnd Hin').
  assert (Hsz : size (sw_db (purge st row)) = pred (size (sw_db st))).
  { rewrite purge_db. apply map_size_delete_Some, Hin. by left. }
  assert (size (sw_db st) <> 0%nat).
  { destruct (Hin row.1 ltac:(by left)) as [t Ht].
    apply (map_size_ne_0_lookup_2 _ row.1). eauto. }
  lia.
Qed.

Lemma expired_rows_NoDup now db : NoDup (expired_rows now db).*1.
Proof.
  unfold expired_rows. eapply sublist_NoDup; [apply (NoDup_fst_map_to_list db)|].
  apply fmap_sublist, sublist_filter.
Qed.

Lemma sweep_db_filter now db fs :
  sw_db (cleanup_expired_tasks now db fs)
  = filter (fun kv : string * DownloadTask => is_expired now kv.2 = false) db.
Proof.
  rewrite cleanup_expired_tasks_fold.
  apply map_eq. intros k.
  destruct (db !! k) as [t|] eqn:Hk.
  - destruct (is_expired now t) eqn:He.
    + rewrite sweep_db_gone by (apply elem_of_expired_sids; eauto).
      symmetry. apply map_lookup_filter_None. right. intros t' Ht'. simpl.
      rewrite Hk in Ht'. injection Ht' as <-. by rewrite He.
    + rewrite sweep_db_other.
      * simpl. rewrite Hk. symmetry. by apply map_lookup_filter_Some.
      * rewrite elem_of_expired_sids. intros (t' & Ht' & He'). congruence.
  - rewrite sweep_db_None by done.
    symmetry. apply map_lookup_filter_None. by left.
Qed.

(** X5. The sweep is a filter: the table afterwards is exactly the rows
    that are not expired, the count it returns is the number of expired
    rows, and the table shrinks by that number. *)
Theorem cleanup_expired_tasks_filter now db fs :
  let r := cleanup_expired_tasks now db fs in
  sw_db r = filter (fun kv : string * DownloadTask => is_expired now kv.2 = false) db /\
  sw_removed r = Z.of_nat (length (expired_rows now db)) /\
  size db = (size (sw_db r) + length (expired_rows now db))%nat.
Proof.
  intros r. subst r. split; [apply sweep_db_filter|].
  rewrite cleanup_expired_tasks_fold. split.
  - rewrite sweep_removed_count. simpl. lia.
  - apply (sweep_size _ (Sweep db fs 0 0 [])); [apply expired_rows_NoDup|].
    intros k (t & Ht & _)%elem_of_expired_sids. simpl. eauto.
Qed.

Lemma expired_rows_nil now db :
  (forall sid t, db !! sid = Some t -> is_expired now t = false) ->
  expired_rows now db = [].
Proof.
  intros H. destruct (expired_rows now db) as [|row l] eqn:E; [done|].
  assert (Hin : row ∈ expired_rows now db) by (rewrite E; left).
  apply elem_of_expired_rows in Hin as [Hdb He].
  rewrite (H _ _ Hdb) in He. discriminate.
Qed.

(** X6. The sweep is idempotent: a second run at the same time finds no
    expired row, returns [(0, 0)] and leaves table and files as the first
    run left them. *)
Theorem cleanup_expired_tasks_idempotent now db fs :
  let r := cleanup_expired_tasks now db fs in
  cleanup_expired_tasks now (sw_db r) (sw_fs r) = Sweep (sw_db r) (sw_fs r) 0 0 [].
Proof.
  intros r. unfold cleanup_expired_tasks at 1.
  rewrite expired_rows_nil; [done|].
  intros sid t Ht. subst r.
  rewrite sweep_db_filter in Ht. apply map_lookup_filter_Some in Ht as [_ He].
  exact He.
Qed.

Lemma purge_files_Some st row q v :
  Fs.files (sw_fs (purge st row)) !! q = Some v -> Fs.files (sw_fs st) !! q = Some v.
Proof.
  unfold purge. destruct (storage_path row.2) as [p|]; simpl; [|done].
  destruct (truthy p && _); simpl; [|done].
  destruct (Fs.remove (sw_fs st) p) as [f'|] eqn:Hrm; simpl; [|done].
  apply remove_Some in Hrm as (-> & _ & _). simpl.
  rewrite lookup_delete. case_decide; [done|done].
Qed.

Lemma sweep_files_Some l : forall st q v,
  Fs.files (sw_fs (fold_left purge l st)) !! q = Some v ->
  Fs.files (sw_fs st) !! q = Some v.
Proof.
  induction l as [|row l IH]; intros st q v H; simpl in *; [done|].
  by apply (purge_files_Some st row), IH.
Qed.

Lemma cleanup_files_removed now db fs p :
  is_Some (Fs.files fs !! p) ->
  Fs.files (sw_fs (cleanup_expired_tasks now db fs)) !! p = None ->
  exists sid t, db !! sid = Some t /\ is_expired now t = true /\
                storage_path t = Some p.
Proof.
  rewrite cleanup_expired_tasks_fold. intros [v Hv] Hgone.
  destruct (decide (Exists (fun row : string * DownloadTask =>
                              storage_path row.2 = Some p)
                           (expired_rows now db))) as [Hex|Hno].
  - apply Exists_exists in Hex as ([sid t] & Hin & Hp).
    apply elem_of_expired_rows in Hin as [Hdb He]. eauto.
  - rewrite sweep_files_other in Hgone.
    + simpl in Hgone. congruence.
    + intros row Hrow Hp. apply Hno, Exists_exists. eauto.
Qed.

(** X7. The sweep only removes: it creates no row and changes none;
    and when every [storage_path] of an expired row is a canonical name,
    it creates and resizes no file, it leaves directories alone, and a
    file that is gone afterwards was the [storage_path] of an expired
    row. *)
Theorem cleanup_expired_tasks_only_removes now db fs :
  let r := cleanup_expired_tasks now db fs in
  sw_db r ⊆ db /\
  ((forall sid t p, db !! sid = Some t -> is_expired now t = true ->
      storage_path t = Some p -> canonical p = true) ->
   Fs.dirs (sw_fs r) = Fs.dirs fs /\
   Fs.locked (sw_fs r) = Fs.locked fs /\
   (forall p v, Fs.files (sw_fs r) !! p = Some v -> Fs.files fs !! p = Some v) /\
   (forall p, is_Some (Fs.files fs !! p) -> Fs.files (sw_fs r) !! p = None ->
      exists sid t, db !! sid = Some t /\ is_expired now t = true /\
                    storage_path t = Some p)).
Proof.
  intros r. subst r. split; [|intros _; split; [|split; [|split]]].
  - rewrite sweep_db_filter. apply map_filter_subseteq.
  - rewrite cleanup_expired_tasks_fold. apply sweep_dirs.
  - rewrite cleanup_expired_tasks_fold. apply sweep_dirs.
  - rewrite cleanup_expired_tasks_fold. intros p v. apply sweep_files_Some.
  - intros p. apply cleanup_files_removed.
Qed.

Lemma cleanup_expired_tasks_only_removes_witness :
  exists sid t,
    Examples.db0 !! sid = Some t /\ is_expired 50 t = true /\
    storage_path t = Some "/tmp/a/clip.mp4".
Proof.
  destruct (cleanup_expired_tasks_only_removes 50 Examples.db0 Examples.fs0)
    as [_ H].
  destruct H as (_ & _ & _ & Hgone).
  - intros sid t p Hdb He Hp. by destruct (db0_expired sid t p Hdb He Hp).
  - apply (Hgone "/tmp/a/clip.mp4").
    + exists 7. vm_compute. reflexivity.
    + vm_compute. reflexivity.
Defined.

End more_sweep_facts.

(** ** Folder cleanup *)

Section folder_cleanup_facts.

Import file_cleanup.

Lemma strip_prefix_Some a : forall p n,
  strip_prefix a p = Some n <-> p = a +:+ n.
Proof.
  induction a as [|c a IH]; intros p n; simpl.
  - split; [by intros [= ->]|by intros ->].
  - destruct p as [|d p]; [split; discriminate|].
    destruct (Ascii.eqb_spec c d) as [->|Hne].
    + rewrite IH. split; [by intros ->|by intros [= ->]].
    + split; [discriminate|]. intros [= -> _]. done.
Qed.

Lemma has_slash_startswith n :
  has_slash n = false -> startswith n "/" = false.
Proof.
  destruct n as [|c n]; [done|]. cbn [has_slash]. intros H%orb_false_iff.
  destruct H as [H _]. apply Ascii.eqb_neq in H. unfold startswith.
  cbn [String.prefix].
  destruct (Ascii.ascii_dec "/" c) as [<-|]; [done|done].
Qed.

(** A listed name has no directory part, and [os.path.join] of folder and
    name is an existing path. *)
Lemma elem_of_listdir fs folder name :
  name ∈ Fs.listdir fs folder ->
  has_slash name = false /\ name <> "" /\
  path_join folder name = folder +:+ "/" +:+ name /\
  Fs.exists_ fs (path_join folder name) = true.
Proof.
  unfold Fs.listdir. intros (p & Hp & Hn)%list_elem_of_omap.
  unfold Fs.entry_name in Hn.
  destruct (strip_prefix (folder +:+ "/") p) as [n|] eqn:Hs; [|done].
  destruct (has_slash n) eqn:Hsl; [done|]. simpl in Hn.
  destruct (String.eqb_spec n "") as [|Hne]; [done|]. injection Hn as ->.
  apply strip_prefix_Some in Hs.
  assert (Hj : path_join folder name = folder +:+ "/" +:+ name).
  { unfold path_join. by rewrite has_slash_startswith. }
  split; [done|]. split; [done|]. split; [done|].
  rewrite Hj. rewrite append_assoc in Hs. rewrite <- Hs in *.
  unfold Fs.exists_, Fs.is_file, Fs.is_dir.
  apply elem_of_elements, elem_of_union in Hp as [Hf|Hd].
  - apply elem_of_dom in Hf. rewrite bool_decide_eq_true_2; done.
  - rewrite (bool_decide_eq_true_2 (p ∈ Fs.dirs fs)) by done. apply orb_true_r.
Qed.

Ltac entry_cases :=
  unfold cleanup_entry;
  repeat match goal with
    | |- context [if ?b then _ else _] => destruct b eqn:?
    | |- context [match ?x with Some _ => _ | None => _ end] => destruct x eqn:?
    end; simpl.

Lemma cleanup_entry_dirs g folder cutoff st name :
  Fs.dirs (fsw_fs (cleanup_entry g folder cutoff st name)) = Fs.dirs (fsw_fs st) /\
  Fs.locked (fsw_fs (cleanup_entry g folder cutoff st name)) = Fs.locked (fsw_fs st).
Proof.
  entry_cases; try done.
  match goal with H : Fs.remove _ _ = Some _ |- _ =>
    apply remove_Some in H as (-> & _ & _) end. done.
Qed.

Lemma cleanup_entry_files_Some g folder cutoff st name q v :
  Fs.files (fsw_fs (cleanup_entry g folder cutoff st name)) !! q = Some v ->
  Fs.files (fsw_fs st) !! q = Some v.
Proof.
  entry_cases; try done.
  match goal with H : Fs.remove _ _ = Some _ |- _ =>
    apply remove_Some in H as (-> & _ & _) end.
  simpl. rewrite lookup_delete. case_decide; done.
Qed.

(** A step that removes a file removes an old file of the folder, and
    counts it. *)
Lemma cleanup_entry_removed g folder cutoff st name q :
  is_Some (Fs.files (fsw_fs st) !! q) ->
  Fs.files (fsw_fs (cleanup_entry g folder cutoff st name)) !! q = None ->
  q = path_join folder name /\ Fs.is_dir (fsw_fs st) q = false /\
  exists m, g q = Some m /\ m < cutoff.
Proof.
  intros [v Hv]. entry_cases; try congruence.
  match goal with H : Fs.remove _ _ = Some _ |- _ =>
    apply remove_Some in H as (-> & _ & _) end.
  simpl. rewrite lookup_delete. case_decide as Hq; [|congruence].
  intros _. subst q. split; [done|]. split; [done|].
  eexists. split; [eassumption|]. by apply Z.ltb_lt.
Qed.

Lemma cleanup_entry_count g folder cutoff st name :
  Z.of_nat (size (Fs.files (fsw_fs (cleanup_entry g folder cutoff st name))))
    + deleted_count (cleanup_entry g folder cutoff st name)
  = Z.of_nat (size (Fs.files (fsw_fs st))) + deleted_count st.
Proof.
  entry_cases; try done.
  match goal with H : Fs.remove _ _ = Some _ |- _ =>
    apply remove_Some in H as (-> & Hf & _) end.
  simpl. apply bool_decide_eq_true in Hf.
  rewrite map_size_delete_Some by done.
  assert (size (Fs.files (fsw_fs st)) <> 0%nat).
  { destruct Hf as [v Hv]. eapply map_size_ne_0_lookup_2. eauto. }
  lia.
Qed.

Lemma cleanup_entry_gone g folder cutoff st name m :
  Fs.is_dir (fsw_fs st) (path_join folder name) = false ->
  g (path_join folder name) = Some m -> m < cutoff ->
  path_join folder name ∉ Fs.locked (fsw_fs st) ->
  Fs.files (fsw_fs (cleanup_entry g folder cutoff st name)) !! path_join folder name
  = None.
Proof.
  intros Hd Hg Hm Hl. unfold cleanup_entry. rewrite Hd, Hg.
  destruct (Z.ltb_spec m cutoff); [|lia].
  unfold Fs.getsize. rewrite Hd.
  destruct (Fs.files (fsw_fs st) !! path_join folder name) as [v|] eqn:Hv; [|done].
  destruct (Fs.remove (fsw_fs st) (path_join folder name)) as [f'|] eqn:Hrm.
  - apply remove_Some in Hrm as (-> & _ & _). simpl. apply lookup_delete_eq.
  - apply remove_None in Hrm as [?|?]; [congruence|done].
Qed.

(** *** The loop over the entries *)

Lemma folder_loop_dirs g folder cutoff l : forall st,
  Fs.dirs (fsw_fs (fold_left (cleanup_entry g folder cutoff) l st)) = Fs.dirs (fsw_fs st) /\
  Fs.locked (fsw_fs (fold_left (cleanup_entry g folder cutoff) l st))
    = Fs.locked (fsw_fs st).
Proof.
  induction l as [|name l IH]; intros st; simpl; [done|].
  destruct (IH (cleanup_entry g folder cutoff st name)) as [-> ->].
  apply cleanup_entry_dirs.
Qed.

Lemma folder_loop_files_Some g folder cutoff l : forall st q v,
  Fs.files (fsw_fs (fold_left (cleanup_entry g folder cutoff) l st)) !! q = Some v ->
  Fs.files (fsw_fs st) !! q = Some v.
Proof.
  induction l as [|name l IH]; intros st q v H; simpl in *; [done|].
  by apply (cleanup_entry_files_Some g folder cutoff st name), IH.
Qed.

Lemma folder_loop_removed g folder cutoff l : forall st q,
  is_Some (Fs.files (fsw_fs st) !! q) ->
  Fs.files (fsw_fs (fold_left (cleanup_entry g folder cutoff) l st)) !! q = None ->
  exists name, name ∈ l /\ q = path_join folder name /\
    Fs.is_dir (fsw_fs st) q = false /\ exists m, g q = Some m /\ m < cutoff.
Proof.
  induction l as [|name l IH]; intros st q Hq Hgone; simpl in *.
  - destruct Hq as [v Hv]. congruence.
  - destruct (Fs.files (fsw_fs (cleanup_entry g folder cutoff st name)) !! q)
      as [v|] eqn:Hstep.
    + destruct (IH (cleanup_entry g folder cutoff st name) q
                  ltac:(rewrite Hstep; eauto) Hgone) as (n & Hn & -> & Hd & Hm).
      exists n. split; [by right|]. split; [done|]. split; [|done].
      unfold Fs.is_dir in *.
      by destruct (cleanup_entry_dirs g folder cutoff st name) as [<- _].
    + destruct (cleanup_entry_removed g folder cutoff st name q Hq Hstep)
        as (-> & Hd & Hm).
      exists name. split; [by left|]. done.
Qed.

Lemma folder_loop_count g folder cutoff l : forall st,
  Z.of_nat (size (Fs.files (fsw_fs (fold_left (cleanup_entry g folder cutoff) l st))))
    + deleted_count (fold_left (cleanup_entry g folder cutoff) l st)
  = Z.of_nat (size (Fs.files (fsw_fs st))) + deleted_count st.
Proof.
  induction l as [|name l IH]; intros st; simpl; [done|].
  rewrite IH. apply cleanup_entry_count.
Qed.

Lemma folder_loop_gone g folder cutoff l : forall st name m,
  name ∈ l ->
  Fs.is_dir (fsw_fs st) (path_join folder name) = false ->
  g (path_join folder name) = Some m -> m < cutoff ->
  path_join folder name ∉ Fs.locked (fsw_fs st) ->
  Fs.files (fsw_fs (fold_left (cleanup_entry g folder cutoff) l st))
    !! path_join folder name = None.
Proof.
  induction l as [|n l IH]; intros st name m Hin Hd Hg Hm Hl; simpl.
  - by apply elem_of_nil in Hin.
  - apply elem_of_cons in Hin as [<-|Hin].
    + destruct (Fs.files (fsw_fs (fold_left (cleanup_entry g folder cutoff) l
                  (cleanup_entry g folder cutoff st name))) !! path_join folder name)
        as [v|] eqn:E; [|done].
      apply folder_loop_files_Some in E.
      rewrite (cleanup_entry_gone g folder cutoff st name m) in E; done.
    + apply (IH _ name m Hin); try done.
      * unfold Fs.is_dir in *.
        by destruct (cleanup_entry_dirs g folder cutoff st n) as [-> _].
      * by destruct (cleanup_entry_dirs g folder cutoff st n) as [_ ->].
Qed.

(** X8. [_cleanup_folder] deletes the old files directly inside the
    folder and nothing else: an entry that is not a directory, whose
    modification time is before the cutoff and on which [os.remove] does
    not fail is gone afterwards; a file that is gone was such an entry (so
    files with a later modification time, files in sub-directories and
    files elsewhere are kept); no file is created or resized, directories
    are never removed, and the count returned is the number of files
    deleted. *)
Theorem cleanup_folder_deletes_old_files g folder cutoff fs :
  let r := _cleanup_folder g folder cutoff fs in
  (forall name m,
     name ∈ Fs.listdir fs folder ->
     Fs.is_dir fs (path_join folder name) = false ->
     g (path_join folder name) = Some m -> m < cutoff ->
     path_join folder name ∉ Fs.locked fs ->
     Fs.files (fsw_fs r) !! path_join folder name = None) /\
  (forall p, is_Some (Fs.files fs !! p) -> Fs.files (fsw_fs r) !! p = None ->
     exists name m,
       p = folder +:+ "/" +:+ name /\ has_slash name = false /\ name <> "" /\
       Fs.is_dir fs p = false /\ g p = Some m /\ m < cutoff) /\
  (forall p v, Fs.files (fsw_fs r) !! p = Some v -> Fs.files fs !! p = Some v) /\
  Fs.dirs (fsw_fs r) = Fs.dirs fs /\
  Z.of_nat (size (Fs.files fs)) = Z.of_nat (size (Fs.files (fsw_fs r))) + deleted_count r.
Proof.
  intros r. subst r. unfold _cleanup_folder. split; [|split; [|split; [|split]]].
  - intros name m Hin Hd Hg Hm Hl.
    by apply (folder_loop_gone g folder cutoff _ (FolderSweep fs 0 0) name m).
  - intros p Hp Hgone.
    destruct (folder_loop_removed g folder cutoff _ (FolderSweep fs 0 0) p Hp Hgone)
      as (name & Hin & -> & Hd & m & Hg & Hm).
    destruct (elem_of_listdir fs folder name Hin) as (Hsl & Hne & Hj & _).
    exists name, m. rewrite <- Hj. done.
  - intros p v. apply folder_loop_files_Some.
  - apply (folder_loop_dirs g folder cutoff _ (FolderSweep fs 0 0)).
  - pose proof (folder_loop_count g folder cutoff (Fs.listdir fs folder)
                  (FolderSweep fs 0 0)) as H. simpl in H. lia.
Qed.

Lemma cleanup_folder_deletes_old_files_witness :
  Fs.files (fsw_fs (_cleanup_folder MoreExamples.mtime1 "uploads" 50 MoreExamples.fs1))
    !! "uploads/a.pdf" = None.
Proof.
  apply (proj1 (cleanup_folder_deletes_old_files MoreExamples.mtime1 "uploads" 50
                  MoreExamples.fs1) "a.pdf" 10).
  - apply list_elem_of_In. vm_compute. auto.
  - vm_compute. reflexivity.
  - reflexivity.
  - lia.
  - apply not_elem_of_empty.
Defined.

Lemma cleanup_one_dirs g cutoff fs folder :
  Fs.dirs (cleanup_one g cutoff fs folder) = Fs.dirs fs.
Proof.
  unfold cleanup_one. destruct (negb _); [done|]. destruct (Fs.is_dir fs folder); [|done].
  apply (folder_loop_dirs g folder cutoff _ (FolderSweep fs 0 0)).
Qed.

Lemma cleanup_one_files_Some g cutoff fs folder p v :
  Fs.files (cleanup_one g cutoff fs folder) !! p = Some v -> Fs.files fs !! p = Some v.
Proof.
  unfold cleanup_one. destruct (negb _); [done|]. destruct (Fs.is_dir fs folder); [|done].
  apply (folder_loop_files_Some g folder cutoff _ (FolderSweep fs 0 0)).
Qed.

Lemma cleanup_one_removed g cutoff fs folder p :
  is_Some (Fs.files fs !! p) -> Fs.files (cleanup_one g cutoff fs folder) !! p = None ->
  exists name m, p = folder +:+ "/" +:+ name /\ has_slash name = false /\
                 g p = Some m /\ m < cutoff.
Proof.
  unfold cleanup_one. intros Hp.
  destruct (negb _); [destruct Hp; congruence|].
  destruct (Fs.is_dir fs folder); [|destruct Hp; congruence].
  intros Hgone.
  destruct (folder_loop_removed g folder cutoff _ (FolderSweep fs 0 0) p Hp Hgone)
    as (name & Hin & -> & Hd & m & Hg & Hm).
  destruct (elem_of_listdir fs folder name Hin) as (Hsl & Hne & Hj & _).
  exists name, m. rewrite <- Hj. done.
Qed.

(** X9. [cleanup_old_files] does nothing at all when the scheduler is
    disabled, the task-record sweep included.  When it is enabled the
    task table afterwards is the table without its expired rows (or the
    table itself without task tracking); and when the two folders and
    every [storage_path] of an expired row are canonical names,
    directories are untouched, no file is created or resized, and a file
    that is gone was either an old file directly inside the upload or the
    output folder or the [storage_path] of an expired row. *)
Theorem cleanup_old_files_effect self now g db fs :
  let r := cleanup_old_files self now g db fs in
  let tracked :=
    FileCleanupScheduler.track_tasks (tracking self)
    && FileCleanupScheduler.has_app (tracking self) in
  (enabled self = false -> r = (db, fs)) /\
  (enabled self = true ->
     r.1 = (if tracked
            then filter (fun kv : string * DownloadTask =>
                           task_service.is_expired now kv.2 = false) db
            else db) /\
     (canonical (upload_folder self) = true ->
      canonical (output_folder self) = true ->
      (forall sid t p, db !! sid = Some t -> task_service.is_expired now t = true ->
         storage_path t = Some p -> canonical p = true) ->
      Fs.dirs r.2 = Fs.dirs fs /\
      (forall p v, Fs.files r.2 !! p = Some v -> Fs.files fs !! p = Some v) /\
      (forall p, is_Some (Fs.files fs !! p) -> Fs.files r.2 !! p = None ->
         (exists folder name m,
            (folder = upload_folder self \/ folder = output_folder self) /\
            p = folder +:+ "/" +:+ name /\ has_slash name = false /\
            g p = Some m /\ m < now - max_age_hours self * 3600) \/
         (tracked = true /\
          exists sid t, db !! sid = Some t /\ task_service.is_expired now t = true /\
                        storage_path t = Some p)))).
Proof.
  intros r tracked. subst r. unfold cleanup_old_files. split.
  - by intros ->.
  - intros ->. simpl negb. cbv iota. simpl fold_left.
    set (cutoff := now - max_age_hours self * 3600).
    set (fs1 := cleanup_one g cutoff fs (upload_folder self)).
    set (fs2 := cleanup_one g cutoff fs1 (output_folder self)).
    assert (Hfolders : forall p, is_Some (Fs.files fs !! p) -> Fs.files fs2 !! p = None ->
              exists folder name m,
                (folder = upload_folder self \/ folder = output_folder self) /\
                p = folder +:+ "/" +:+ name /\ has_slash name = false /\
                g p = Some m /\ m < cutoff).
    { intros p Hp Hgone.
      destruct (Fs.files fs1 !! p) as [v|] eqn:H1.
      - destruct (cleanup_one_removed g cutoff fs1 (output_folder self) p
                    ltac:(rewrite H1; eauto) Hgone) as (name & m & H).
        exists (output_folder self), name, m. split; [by right|done].
      - destruct (cleanup_one_removed g cutoff fs (upload_folder self) p Hp H1)
          as (name & m & H).
        exists (upload_folder self), name, m. split; [by left|done]. }
    assert (Hsome : forall p v, Fs.files fs2 !! p = Some v -> Fs.files fs !! p = Some v).
    { intros p v H. by apply (cleanup_one_files_Some g cutoff fs (upload_folder self)),
        (cleanup_one_files_Some g cutoff fs1 (output_folder self)). }
    assert (Hdirs : Fs.dirs fs2 = Fs.dirs fs).
    { unfold fs2, fs1. by rewrite !cleanup_one_dirs. }
    unfold FileCleanupScheduler._cleanup_task_records. subst tracked.
    destruct (FileCleanupScheduler.track_tasks (tracking self)),
             (FileCleanupScheduler.has_app (tracking self)); simpl;
      try (split; [done|]; intros _ _ _; split; [done|]; split; [done|];
           intros p Hp Hgone; left; by apply Hfolders).
    split; [apply sweep_db_filter|]. intros _ _ _.
    split.
    { rewrite cleanup_expired_tasks_fold.
      destruct (sweep_dirs (task_service.expired_rows now db)
                  (task_service.Sweep db fs2 0 0 [])) as [-> _]. done. }
    split.
    { intros p v H. apply Hsome.
      rewrite cleanup_expired_tasks_fold in H.
      by apply sweep_files_Some in H. }
    intros p Hp Hgone.
    destruct (Fs.files fs2 !! p) as [v|] eqn:H2.
    + right. split; [done|].
      apply (cleanup_files_removed now db fs2 p); [rewrite H2; eauto|done].
    + left. by apply Hfolders.
Qed.

Lemma cleanup_old_files_effect_witness :
  let r := cleanup_old_files MoreExamples.sched2 50 MoreExamples.mtime2
             Examples.db0 MoreExamples.fs2 in
  r.1 = filter (fun kv : string * DownloadTask =>
                  task_service.is_expired 50 kv.2 = false) Examples.db0 /\
  Fs.dirs r.2 = Fs.dirs MoreExamples.fs2 /\
  exists folder name m,
    (folder = "/srv/uploads" \/ folder = "/srv/outputs") /\
    "/srv/uploads/a.pdf" = folder +:+ "/" +:+ name /\ has_slash name = false /\
    MoreExamples.mtime2 "/srv/uploads/a.pdf" = Some m /\ m < 50 - 1 * 3600.
Proof.
  destruct (proj2 (cleanup_old_files_effect MoreExamples.sched2 50
                     MoreExamples.mtime2 Examples.db0 MoreExamples.fs2) eq_refl)
    as (H1 & H2).
  destruct H2 as (H2 & _ & H3); [reflexivity|reflexivity| |].
  { intros sid t p Hdb He Hp. by destruct (db0_expired sid t p Hdb He Hp). }
  split; [exact H1|]. split; [exact H2|].
  destruct (H3 "/srv/uploads/a.pdf") as [Hfolder|[_ Hrow]].
  - exists 5. vm_compute. reflexivity.
  - vm_compute. reflexivity.
  - exact Hfolder.
  - destruct Hrow as (sid & t & Hdb & He & Hp).
    destruct (db0_expired sid t _ Hdb He Hp) as (_ & _ & _).
    exfalso. revert Hdb He Hp. unfold Examples.db0. intros Hdb He Hp.
    apply lookup_insert_Some in Hdb as [[<- <-]|[_ Hdb]]; [discriminate|].
    apply lookup_insert_Some in Hdb as [[<- <-]|[_ Hdb]]; [discriminate|].
    apply lookup_insert_Some in Hdb as [[<- <-]|[_ Hdb]]; [discriminate|].
    by rewrite lookup_empty in Hdb.
Defined.

End folder_cleanup_facts.

(** ** Handlers: a small program logic *)

Lemma post_bind {A B} (m : M A) (k : A -> M B) w (Q : outcome B -> World -> Prop) :
  post m w (fun o w' =>
              match o with
              | Ok a => post (k a) w' Q
              | Return r => Q (Return r) w'
              | Raise e => Q (Raise e) w'
              end) ->
  post (bind m k) w Q.
Proof.
  unfold post, bind. destruct (m w) as [[a|r|e] w']; simpl; auto.
Qed.

Lemma post_modify f w (Q : outcome unit -> World -> Prop) :
  Q (Ok tt) (f w) -> post (modify f) w Q.
Proof. done. Qed.

Lemma post_ret {A} (a : A) w (Q : outcome A -> World -> Prop) :
  Q (Ok a) w -> post (ret a) w Q.
Proof. done. Qed.

Lemma post_return {A} r w (Q : outcome A -> World -> Prop) :
  Q (Return r) w -> post (return_ r) w Q.
Proof. done. Qed.

Lemma post_raise {A} e w (Q : outcome A -> World -> Prop) :
  Q (Raise e) w -> post (raise e) w Q.
Proof. done. Qed.

Lemma post_get w (Q : outcome World -> World -> Prop) :
  Q (Ok w) w -> post get w Q.
Proof. done. Qed.

Lemma post_when b m w (Q : outcome unit -> World -> Prop) :
  (b = true -> post m w Q) -> (b = false -> Q (Ok tt) w) -> post (when b m) w Q.
Proof. intros Ht Hf. destruct b; [by apply Ht|by apply Hf]. Qed.

Lemma post_update_progress o sid payload w (Q : outcome unit -> World -> Prop) :
  Q (Ok tt) (_update_progress o sid payload w).2 ->
  post (_update_progress o sid payload) w Q.
Proof. done. Qed.

Lemma post_mono {A} (m : M A) w (Q Q' : outcome A -> World -> Prop) :
  post m w Q -> (forall o w', Q o w' -> Q' o w') -> post m w Q'.
Proof. unfold post. auto. Qed.

(** *** Frames *)

Lemma same_elsewhere_refl sid w : same_elsewhere sid w w.
Proof. split; [done|]. intros; done. Qed.

Lemma same_elsewhere_trans sid w1 w2 w3 :
  same_elsewhere sid w1 w2 -> same_elsewhere sid w2 w3 -> same_elsewhere sid w1 w3.
Proof.
  intros [Hp1 H1] [Hp2 H2]. split; [congruence|].
  intros sid' Hne. destruct (H1 sid' Hne) as [E1 E2].
  destruct (H2 sid' Hne) as [E3 E4]. split; congruence.
Qed.

Lemma task_frame_refl o sid w : task_frame o sid w w.
Proof. split; [apply same_elsewhere_refl|done]. Qed.

Lemma task_frame_trans o sid w1 w2 w3 :
  task_frame o sid w1 w2 -> task_frame o sid w2 w3 -> task_frame o sid w1 w3.
Proof.
  intros [Hs1 Ht1] [Hs2 Ht2]. split; [by eapply same_elsewhere_trans|].
  intros Hbad. rewrite Ht2, Ht1; done.
Qed.

Lemma task_frame_set_fs o sid f w : task_frame o sid w (set_fs f w).
Proof. split; [|done]. split; [done|]. intros; done. Qed.

Lemma task_frame_update_progress o sid payload w :
  task_frame o sid w (_update_progress o sid payload w).2.
Proof.
  split.
  - split; [done|]. intros sid' Hne. simpl.
    rewrite lookup_insert_ne by done.
    by rewrite (proj1 (proj2 (task_writes_other _ _ sid task_service.no_defaults
                                _ _ _ "" "" None _ sid' Hne))).
  - intros Hbad.
    apply (task_writes_fail _ _ sid task_service.no_defaults (status payload)
             (message payload) (Some payload) "" "" None (tasks w) Hbad).
Qed.

Lemma same_elsewhere_update_progress o sid payload w :
  same_elsewhere sid w (_update_progress o sid payload w).2.
Proof. apply task_frame_update_progress. Qed.

(** X10. [_update_progress] keeps store and task table in step: after
    the call the store holds the payload for the session, the payload is
    appended to the history, and no other session, the registry or the
    file system is touched.  With the expiry within the range of
    [datetime] the session's row has the payload as [last_progress], the
    payload's status and a refreshed expiry; with the expiry past the
    range the task table is left as it was. *)
Theorem update_progress_mirror o sid payload w :
  let w' := (_update_progress o sid payload w).2 in
  download_progress w' !! sid = Some payload /\
  (retention_ok (retention_hours o) (now o) = true ->
   exists t, tasks w' !! sid = Some t /\
     last_progress t = Some payload /\ task_status t = Some (status payload) /\
     expires_at t = Some (expiry_instant (retention_hours o) (now o))) /\
  (retention_ok (retention_hours o) (now o) = false -> tasks w' = tasks w) /\
  written w' = written w ++ [(sid, payload)] /\
  same_elsewhere sid w w' /\ fs w' = fs w.
Proof.
  intros w'. split; [apply lookup_insert_eq|]. split; [|split].
  - intros Hok.
    destruct (mark_status_row (retention_hours o) (now o) sid (status payload)
                (message payload) (Some payload) (tasks w) Hok)
      as [(t & Ht & Hs & Hp & _ & He) _].
    exists t. split; [exact Ht|]. split; [by apply Hp|]. done.
  - intros Hbad.
    apply (task_writes_fail (retention_hours o) (now o) sid task_service.no_defaults
             (status payload) (message payload) (Some payload) "" "" None (tasks w) Hbad).
  - split; [done|]. split; [apply same_elsewhere_update_progress|done].
Qed.

Lemma update_progress_mirror_witness :
  let o := Examples.oracle0 (inl "unused") Examples.no_ydl in
  exists t,
    tasks (_update_progress o "s2" Examples.streaming Examples.empty_world).2 !! "s2"
      = Some t /\
    last_progress t = Some Examples.streaming.
Proof.
  destruct (update_progress_mirror (Examples.oracle0 (inl "unused") Examples.no_ydl)
              "s2" Examples.streaming Examples.empty_world) as (_ & Hrow & _).
  destruct (Hrow eq_refl) as (t & Ht & Hp & _).
  exists t. split; [exact Ht|exact Hp].
Defined.

(** *** The loops never leave early *)

Lemma download_loop_run o sid tf total : forall cs d w,
  exists w',
    download_loop o sid tf total cs d w = (Ok (d + foldr Z.add 0 cs), w') /\
    task_frame o sid w w' /\
    Fs.dirs (fs w') = Fs.dirs (fs w) /\
    (forall q, q <> tf -> Fs.files (fs w') !! q = Fs.files (fs w) !! q) /\
    (Fs.files (fs w) !! tf = Some d ->
     Fs.files (fs w') !! tf = Some (d + foldr Z.add 0 cs)).
Proof.
  induction cs as [|c cs IH]; intros d w.
  - exists w. simpl. rewrite Z.add_0_r.
    split; [done|]. split; [apply task_frame_refl|]. done.
  - simpl. destruct (c =? 0) eqn:Ec.
    + apply Z.eqb_eq in Ec. subst c. simpl.
      destruct (IH d w) as (w' & -> & H). exists w'. done.
    + unfold_M.
      set (w1 := set_fs (Fs.write_file (fs w) tf (d + c)) w).
      set (w2 := (if negb (total =? 0)
                  then _update_progress o sid
                         (Snapshot "downloading" (Some "Downloading video...")
                            (Some (round1 (d + c) total)) (Some (d + c)) (Some total))
                  else (fun w => (Ok tt, w))) w1).
      assert (Hw2 : exists w2', w2 = (Ok tt, w2') /\ task_frame o sid w1 w2' /\
                      fs w2' = fs w1).
      { subst w2. destruct (negb (total =? 0)).
        - eexists. split; [reflexivity|].
          split; [apply task_frame_update_progress|done].
        - eexists. split; [reflexivity|]. split; [apply task_frame_refl|done]. }
      destruct Hw2 as (w2' & Hw2 & Hsame & Hfs). rewrite Hw2.
      destruct (IH (d + c) w2') as (w' & -> & Hs' & Hd' & Ho' & Hf').
      exists w'. rewrite Z.add_assoc. split; [done|].
      split.
      { eapply task_frame_trans; [|exact Hs'].
        eapply task_frame_trans; [apply (task_frame_set_fs o sid)|exact Hsame]. }
      rewrite Hfs in *. simpl in *.
      split; [done|]. split.
      * intros q Hq. rewrite Ho' by done. by rewrite lookup_insert_ne.
      * intros _. apply Hf'. apply lookup_insert_eq.
Qed.

Lemma progress_hook_run o sid d w :
  exists w', progress_hook o sid d w = (Ok tt, w') /\
    task_frame o sid w w' /\ fs w' = fs w.
Proof.
  unfold progress_hook.
  repeat match goal with
    | |- context [if ?b then _ else _] => destruct b
    | |- context [match ?x with Some _ => _ | None => _ end] => destruct x
    end;
    eexists; (split; [reflexivity|]);
    first [ split; [apply task_frame_update_progress|done]
          | split; [apply task_frame_refl|done] ].
Qed.

Lemma for_each_hooks_run o sid : forall hooks w,
  exists w', for_each hooks (progress_hook o sid) w = (Ok tt, w') /\
    task_frame o sid w w' /\ fs w' = fs w.
Proof.
  induction hooks as [|h hooks IH]; intros w; simpl.
  - exists w. split; [done|]. split; [apply task_frame_refl|done].
  - unfold bind. destruct (progress_hook_run o sid h w) as (w1 & -> & Hs1 & Hf1).
    destruct (IH w1) as (w' & -> & Hs' & Hf'). exists w'.
    split; [done|]. split; [by eapply task_frame_trans|congruence].
Qed.

Lemma post_step {A B} (m : M A) (k : A -> M B) w a w1
    (Q : outcome B -> World -> Prop) :
  m w = (Ok a, w1) -> post (k a) w1 Q -> post (bind m k) w Q.
Proof. unfold post, bind. by intros ->. Qed.

Lemma when_update_run b o sid payload w :
  exists w1, when b (_update_progress o sid payload) w = (Ok tt, w1) /\
    task_frame o sid w w1 /\ fs w1 = fs w.
Proof.
  destruct b; eexists; (split; [reflexivity|]).
  - split; [apply task_frame_update_progress|done].
  - split; [apply task_frame_refl|done].
Qed.

Lemma task_frame_set_tasks_register o sid path stype size w :
  task_frame o sid w
    (set_tasks (task_service.register_storage (retention_hours o) (now o) sid path
                  stype size (tasks w)) w).
Proof.
  split.
  - split; [done|]. intros sid' Hne. simpl.
    by rewrite (proj2 (proj2 (task_writes_other _ _ sid task_service.no_defaults
                                "" None None path stype size _ sid' Hne))).
  - intros Hbad. simpl.
    apply (task_writes_fail _ _ sid task_service.no_defaults "" None None
             path stype size (tasks w) Hbad).
Qed.

Lemma task_frame_set_tasks_upsert o sid d w :
  task_frame o sid w
    (set_tasks (default (tasks w)
                  (task_service.upsert_task (retention_hours o) (now o) sid d (tasks w)))
       w).
Proof.
  split.
  - split; [done|]. intros sid' Hne. simpl.
    by rewrite (proj1 (task_writes_other _ _ sid d "" None None "" "" None _ sid' Hne)).
  - intros Hbad. simpl.
    by rewrite (proj1 (task_writes_fail _ _ sid d "" None None "" "" None (tasks w) Hbad)).
Qed.

Lemma streaming_outcome o sid w0 w r :
  task_frame o sid w0 w -> code r = 200 ->
  proxy_outcome o sid w0 (Ok r)
    (_update_progress o sid
       (Snapshot "streaming" (Some "Mengirim file ke browser...") (Some 1000) None None)
       w).2.
Proof.
  intros Hfr Hr. split.
  - eapply task_frame_trans; [exact Hfr|apply task_frame_update_progress].
  - split; [done|]. split; [apply lookup_insert_eq|]. intros Hok.
    destruct (mark_status_row (retention_hours o) (now o) sid "streaming"
                (Some "Mengirim file ke browser...")
                (Some (Snapshot "streaming" (Some "Mengirim file ke browser...")
                         (Some 1000) None None)) (tasks w) Hok)
      as [(t & Ht & Hs & _) _].
    exists t. done.
Qed.

Lemma proxy_download_direct_post o sid v f u fn p w0 w :
  task_frame o sid w0 w ->
  post (proxy_download_direct o sid v f u fn p) w (proxy_outcome o sid w0).
Proof.
  intros Hfr. unfold proxy_download_direct.
  apply post_bind, post_when; [intros _; apply post_return; split; [done|by left]|intros _].
  destruct (when_update_run (String.eqb p "bilibili_tv") o sid
              (Snapshot "extracting" (Some "Refreshing video URL...") (Some 50) None None) w)
    as (w1 & E1 & Hs1 & _).
  pose proof (task_frame_trans _ _ _ _ _ Hfr Hs1) as Hfr1.
  eapply post_step; [exact E1|].
  eapply post_step; [reflexivity|].
  eapply post_step; [reflexivity|].
  eapply post_step; [reflexivity|].
  match goal with |- post _ ?w _ => set (w2 := w) end.
  assert (Hfr2 : task_frame o sid w0 w2).
  { eapply task_frame_trans; [exact Hfr1|]. subst w2.
    eapply task_frame_trans; [apply (task_frame_set_fs o sid)|].
    eapply task_frame_trans; [apply task_frame_set_tasks_register|].
    apply task_frame_update_progress. }
  clearbody w2.
  apply post_bind.
  destruct (requests_get o (proxy_direct_url o v f u p)) as [e|resp].
  { apply post_raise. split; done. }
  apply post_ret.
  apply post_bind.
  assert (Hcheck : post (check_size o resp
                           (fun msg => Response 413 (Json None (Some msg) None))) w2
                     (fun o' w' => w' = w2 /\
                        match o' with
                        | Ok _ => True
                        | Return r => code r = 413
                        | Raise _ => False
                        end)).
  { unfold check_size. destruct (content_length resp); try (by split).
    destruct (negb _ && _); by split. }
  eapply post_mono; [exact Hcheck|]. clear Hcheck.
  intros [[]|r|e] w' [-> H]; [|split; [done|by right]|done].
  apply post_bind.
  destruct (content_length resp) as [| |n];
    [apply post_ret|apply post_raise; by split|apply post_ret].
  all: eapply post_step; [reflexivity|].
  all: match goal with |- post (bind (download_loop ?o ?s ?tf ?tot ?cs ?d) _) ?w _ =>
         destruct (download_loop_run o s tf tot cs d w) as (w3 & E3 & Hs3 & _)
       end.
  all: eapply post_step; [exact E3|].
  all: eapply post_step; [reflexivity|].
  all: eapply post_step; [reflexivity|].
  all: eapply post_step; [reflexivity|].
  all: apply post_ret.
  all: apply streaming_outcome; [|done].
  all: eapply task_frame_trans; [|apply task_frame_set_tasks_register].
  all: eapply task_frame_trans; [exact Hfr2|].
  all: eapply task_frame_trans; [apply (task_frame_set_fs o sid)|exact Hs3].
Qed.

Lemma proxy_download_ydl_post o sid w0 w :
  task_frame o sid w0 w ->
  post (proxy_download_ydl o sid) w (proxy_outcome o sid w0).
Proof.
  intros Hfr. unfold proxy_download_ydl.
  eapply post_step; [reflexivity|].
  eapply post_step; [reflexivity|].
  match goal with |- post _ ?w _ => set (w1 := w) end.
  assert (Hfr1 : task_frame o sid w0 w1).
  { eapply task_frame_trans; [exact Hfr|]. subst w1.
    eapply task_frame_trans; [apply (task_frame_set_fs o sid)|].
    apply task_frame_update_progress. }
  clearbody w1.
  destruct (ydl o) as [e|hooks outputs prepared].
  { apply post_raise. by split. }
  destruct (for_each_hooks_run o sid hooks w1) as (w2 & E2 & Hs2 & _).
  eapply post_step; [exact E2|].
  eapply post_step; [reflexivity|].
  eapply post_step; [reflexivity|].
  match goal with |- post _ ?w _ => set (w3 := w) end.
  assert (Hfr3 : task_frame o sid w0 w3).
  { eapply task_frame_trans; [exact Hfr1|].
    eapply task_frame_trans; [exact Hs2|]. apply task_frame_set_fs. }
  clearbody w3.
  destruct (Fs.getsize (fs w3) (path_join (tmpdir o) prepared)).
  - eapply post_step; [reflexivity|]. apply post_ret.
    by apply streaming_outcome.
  - apply post_raise. by split.
Qed.

Lemma proxy_download_body_post o data sid w :
  post (proxy_download_body o data sid) w (proxy_outcome o sid w).
Proof.
  unfold proxy_download_body.
  apply post_bind, post_when;
    [intros _; apply post_return; split; [apply task_frame_refl|by left]|intros _].
  eapply post_step; [reflexivity|].
  eapply post_step; [reflexivity|].
  match goal with |- post _ ?w1 _ => set (w2 := w1) end.
  assert (Hfr : task_frame o sid w w2).
  { subst w2. eapply task_frame_trans; [apply task_frame_set_tasks_upsert|].
    apply task_frame_update_progress. }
  clearbody w2.
  destruct (r_direct_url data) as [u|]; [|by apply proxy_download_ydl_post].
  destruct (truthy u && _);
    [by apply proxy_download_direct_post|by apply proxy_download_ydl_post].
Qed.

(** X11. The ways a [proxy_download] request can end.  Without a request
    object it answers 500 and changes nothing.  Otherwise the status is
    200, 400, 413 or 500; with 200 the session's snapshot and, with the
    expiry within the range of [datetime], its task row say [streaming];
    with 500 (an exception in the download) the session's snapshot has
    been removed from the progress store; in every case the registry and
    the snapshots and rows of all other sessions are untouched, and with
    the expiry past the range the whole task table is. *)
Theorem proxy_download_outcomes o req w :
  (request_fields req = None ->
   code (proxy_download o req w).1 = 500 /\ (proxy_download o req w).2 = w) /\
  (forall data, request_fields req = Some data ->
     let sid := request_session o data in
     let rw := proxy_download o req w in
     same_elsewhere sid w rw.2 /\
     (code rw.1 = 200 \/ code rw.1 = 400 \/ code rw.1 = 413 \/ code rw.1 = 500) /\
     (code rw.1 = 200 ->
      download_progress rw.2 !! sid
        = Some (Snapshot "streaming" (Some "Mengirim file ke browser...")
                  (Some 1000) None None) /\
      (retention_ok (retention_hours o) (now o) = true ->
       exists t, tasks rw.2 !! sid = Some t /\ task_status t = Some "streaming")) /\
     (code rw.1 = 500 -> download_progress rw.2 !! sid = None) /\
     (retention_ok (retention_hours o) (now o) = false -> tasks rw.2 = tasks w)).
Proof.
  unfold proxy_download. split.
  - by intros ->.
  - intros data ->. unfold request_session. simpl.
    set (sid := default (time_str o) (r_session_id data)).
    pose proof (proxy_download_body_post o data sid w) as H.
    unfold post in H. unfold view.
    destruct (proxy_download_body o data sid w) as [[r|r|e] w'];
      simpl in *; destruct H as [[Hfr Htasks] H].
    + destruct H as (Hc & Hp & Ht). split; [done|]. split; [by left|].
      split; [done|]. split; [|done]. intros H5. rewrite Hc in H5. discriminate.
    + split; [done|]. split; [destruct H as [->| ->]; auto|]. split; [|split; [|done]].
      * intros H2. destruct H as [H|H]; rewrite H in H2; discriminate.
      * intros H5. destruct H as [H|H]; rewrite H in H5; discriminate.
    + unfold_M. simpl. split.
      * destruct Hfr as [Hp Ho]. split; [done|]. intros sid' Hne. simpl.
        rewrite lookup_delete_ne by done. by apply Ho.
      * split; [auto|]. split; [discriminate|].
        split; [intros _; apply lookup_delete_eq|done].
Qed.

Lemma proxy_download_outcomes_witness :
  let rw := proxy_download (Examples.oracle0 (inr (Http 200 (Int 9) [9])) Examples.no_ydl)
              Examples.direct_request Examples.empty_world in
  code rw.1 = 200 /\ download_progress rw.2 !! "s2" = Some Examples.streaming /\
  exists t, tasks rw.2 !! "s2" = Some t /\ task_status t = Some "streaming".
Proof.
  destruct (proj2 (proxy_download_outcomes
                     (Examples.oracle0 (inr (Http 200 (Int 9) [9])) Examples.no_ydl)
                     Examples.direct_request Examples.empty_world) _ eq_refl)
    as (_ & _ & H200 & _).
  split; [vm_compute; reflexivity|].
  destruct H200 as [Hp Hrow]; [vm_compute; reflexivity|].
  split; [exact Hp|]. apply Hrow. reflexivity.
Defined.

(** ** Bytes in, bytes out *)

Lemma sum_repeat c n : foldr Z.add 0 (repeat c n) = c * Z.of_nat n.
Proof. induction n as [|n IH]; simpl repeat; simpl foldr; [lia|]. rewrite IH. lia. Qed.

Lemma sum_app (l1 l2 : list Z) :
  foldr Z.add 0 (l1 ++ l2) = foldr Z.add 0 l1 + foldr Z.add 0 l2.
Proof. induction l1 as [|x l1 IH]; simpl; [done|]. rewrite IH. lia. Qed.

(** Reading a file in chunks yields all its bytes, in pieces that are not
    empty and not longer than the chunk size. *)
Lemma file_chunks_sum size chunk_size :
  0 <= size -> 0 < chunk_size ->
  foldr Z.add 0 (file_chunks size chunk_size) = size /\
  Forall (fun c => 0 < c <= chunk_size) (file_chunks size chunk_size).
Proof.
  intros Hs Hc. unfold file_chunks.
  pose proof (Z.div_mod size chunk_size ltac:(lia)) as Hdm.
  pose proof (Z.mod_pos_bound size chunk_size Hc) as Hb.
  pose proof (Z.div_pos size chunk_size Hs Hc) as Hq.
  split.
  - rewrite sum_app, sum_repeat, Z2Nat.id by done.
    destruct (size mod chunk_size =? 0) eqn:E; simpl.
    + apply Z.eqb_eq in E. lia.
    + lia.
  - apply Forall_app. split.
    + apply Forall_forall. intros c Hin%list_elem_of_In%repeat_spec. lia.
    + destruct (size mod chunk_size =? 0) eqn:E; [constructor|].
      apply Z.eqb_neq in E. repeat constructor; lia.
Qed.

Lemma foldr_add_nonneg (l : list Z) : Forall (fun c => 0 <= c) l -> 0 <= foldr Z.add 0 l.
Proof. induction 1; simpl; lia. Qed.

Lemma proxy_download_direct_success o sid v f u fn p resp w :
  is_safe_public_url (net o) u [] = true ->
  requests_get o (proxy_direct_url o v f u p) = inr resp ->
  content_length resp <> Malformed ->
  (forall cl, content_length resp = Int cl -> cl = 0 \/ cl <= max_bytes o) ->
  post (proxy_download_direct o sid v f u fn p) w
    (fun o' w' =>
       o' = Ok (Response 200
                  (Stream (Gen_proxy_direct (path_join (tmpdir o) fn) (tmpdir o)))) /\
       Fs.files (fs w') !! path_join (tmpdir o) fn = Some (foldr Z.add 0 (chunks resp)) /\
       tmpdir o ∈ Fs.dirs (fs w')).
Proof.
  intros Hsafe Hget Hmal Hcl. unfold proxy_download_direct.
  rewrite Hsafe. eapply post_step; [reflexivity|].
  destruct (when_update_run (String.eqb p "bilibili_tv") o sid
              (Snapshot "extracting" (Some "Refreshing video URL...") (Some 50) None None) w)
    as (w1 & E1 & _ & Hf1).
  eapply post_step; [exact E1|].
  do 3 (eapply post_step; [reflexivity|]).
  rewrite Hget. eapply post_step; [reflexivity|].
  assert (Hcheck : forall w2,
            check_size o resp (fun msg => Response 413 (Json None (Some msg) None)) w2
            = (Ok tt, w2)).
  { intros w2. unfold check_size.
    destruct (content_length resp) as [| |cl] eqn:E; try done.
    destruct (Hcl cl eq_refl) as [->|Hle]; [done|].
    destruct (Z.ltb_spec (max_bytes o) cl); [lia|]. by rewrite andb_false_r. }
  eapply post_step; [apply Hcheck|].
  assert (Htot : exists total, forall w2,
            match content_length resp with
            | Absent => ret 0
            | Malformed => raise "invalid literal for int() with base 10"
            | Int n => ret n
            end w2 = (Ok total, w2)).
  { destruct (content_length resp); [by exists 0|done|by eexists]. }
  destruct Htot as [total Htot].
  eapply post_step; [apply Htot|].
  eapply post_step; [reflexivity|].
  match goal with |- post (bind (download_loop ?o ?s ?tf ?tot ?cs ?d) _) ?w _ =>
    destruct (download_loop_run o s tf tot cs d w) as (w3 & E3 & _ & Hd3 & _ & Hf3)
  end.
  eapply post_step; [exact E3|].
  do 3 (eapply post_step; [reflexivity|]).
  apply post_ret. split; [done|]. simpl. split.
  - rewrite Hf3; [done|]. simpl. apply lookup_insert_eq.
  - rewrite Hd3. simpl. apply elem_of_union. left. by apply elem_of_singleton.
Qed.

(** X12. Bytes in, bytes out in the direct mode.  When the requested
    file name is a plain name (one component that [open] accepts in the
    fresh temporary directory), the upstream request succeeds and the
    size check lets the response through (no [Content-Length], a zero
    one, or one within the limit), the handler answers 200, the temporary
    file holds exactly the bytes of all upstream chunks, however many
    they are, and a client reading the response to the end receives
    exactly that many bytes, in pieces of at most 524288. *)
Theorem direct_mode_bytes o req data u resp w :
  request_fields req = Some data ->
  plain_name (default "video.mp4" (r_filename data)) = true ->
  r_direct_url data = Some u -> truthy u = true ->
  r_platform data = Some "instagram" \/ r_platform data = Some "bilibili_tv" ->
  is_safe_public_url (net o) u [] = true ->
  requests_get o (proxy_direct_url o (r_video_url data) (r_format_id data) u
                    (default "" (r_platform data))) = inr resp ->
  content_length resp <> Malformed ->
  (forall cl, content_length resp = Int cl -> cl = 0 \/ cl <= max_bytes o) ->
  Forall (fun c => 0 <= c) (chunks resp) ->
  let temp_file := path_join (tmpdir o) (default "video.mp4" (r_filename data)) in
  let rw := proxy_download o req w in
  rw.1 = Response 200 (Stream (Gen_proxy_direct temp_file (tmpdir o))) /\
  Fs.files (fs rw.2) !! temp_file = Some (foldr Z.add 0 (chunks resp)) /\
  let sent := (run_generate (Gen_proxy_direct temp_file (tmpdir o)) Consume_all rw.2).1 in
  foldr Z.add 0 sent = foldr Z.add 0 (chunks resp) /\
  Forall (fun c => 0 < c <= 524288) sent.
Proof.
  intros Hreq _ Hu Ht Hp Hsafe Hget Hmal Hcl Hpos temp_file rw.
  assert (Hplat : String.eqb (default "" (r_platform data)) "instagram"
                  || String.eqb (default "" (r_platform data)) "bilibili_tv" = true).
  { destruct Hp as [-> | ->]; reflexivity. }
  assert (Hbody : post (proxy_download_body o data (request_session o data)) w
            (fun o' w' =>
               o' = Ok (Response 200 (Stream (Gen_proxy_direct temp_file (tmpdir o)))) /\
               Fs.files (fs w') !! temp_file = Some (foldr Z.add 0 (chunks resp)) /\
               tmpdir o ∈ Fs.dirs (fs w'))).
  { unfold proxy_download_body. rewrite Hu. simpl otruthy. rewrite Ht.
    rewrite andb_false_r. eapply post_step; [reflexivity|].
    do 2 (eapply post_step; [reflexivity|]).
    rewrite Hplat. simpl andb. cbv iota.
    by apply proxy_download_direct_success. }
  unfold post in Hbody. destruct Hbody as (Ho & Hfile & _).
  assert (Hrw : rw.1 = Response 200 (Stream (Gen_proxy_direct temp_file (tmpdir o))) /\
                fs rw.2 = fs (proxy_download_body o data (request_session o data) w).2).
  { subst rw. unfold proxy_download. rewrite Hreq. unfold view, request_session in *.
    destruct (proxy_download_body o data _ w) as [[r|r|e] w']; simpl in *;
      try discriminate. by injection Ho as ->. }
  destruct Hrw as [Hr Hfs]. split; [done|]. rewrite Hfs. split; [done|].
  simpl. unfold Fs.read. rewrite Hfs, Hfile. simpl.
  apply file_chunks_sum; [by apply foldr_add_nonneg|lia].
Qed.

Lemma direct_mode_bytes_witness :
  let rw := proxy_download (Examples.oracle0 (inr (Http 200 (Int 9) [4; 5])) Examples.no_ydl)
              Examples.direct_request Examples.empty_world in
  rw.1 = Response 200 (Stream (Gen_proxy_direct "/tmp/tmpab12/clip.mp4" "/tmp/tmpab12")) /\
  Fs.files (fs rw.2) !! "/tmp/tmpab12/clip.mp4" = Some 9.
Proof.
  destruct (direct_mode_bytes
              (Examples.oracle0 (inr (Http 200 (Int 9) [4; 5])) Examples.no_ydl)
              Examples.direct_request _ "https://cdn.example.com/v.mp4"
              (Http 200 (Int 9) [4; 5]) Examples.empty_world
              eq_refl eq_refl eq_refl eq_refl (or_introl eq_refl)) as (H1 & H2 & _).
  - vm_compute. reflexivity.
  - reflexivity.
  - discriminate.
  - intros cl [= <-]. right. vm_compute. discriminate.
  - repeat constructor; lia.
  - split; [exact H1|exact H2].
Defined.

Lemma mark_status_keeps_storage hours now sid st msg progress db t :
  retention_ok hours now = true ->
  db !! sid = Some t ->
  exists t', task_service.mark_status hours now sid st msg progress db !! sid = Some t' /\
    storage_path t' = storage_path t /\ task_status t' = Some st.
Proof.
  intros Hok Hdb. unfold task_service.mark_status, task_service.upsert_task.
  rewrite Hdb. simpl. rewrite extend_expiry_Some by done.
  rewrite lookup_insert_eq, extend_expiry_Some by done.
  rewrite lookup_insert_eq. eexists. split; [reflexivity|]. done.
Qed.

(** X13. What a failed upstream request leaves behind in the direct mode:
    when [requests.get] raises, the handler answers 500 with the message
    of the exception and removes the session's snapshot, but the
    temporary directory it created stays and no file was written; with
    the expiry within the range of [datetime] the task row still has
    status [downloading] and a [storage_path] naming the file that was
    never created, and with the expiry past the range the task table is
    as it was. *)
Theorem proxy_download_failure_leftovers o req data u e w :
  request_fields req = Some data ->
  r_direct_url data = Some u -> truthy u = true ->
  r_platform data = Some "instagram" \/ r_platform data = Some "bilibili_tv" ->
  is_safe_public_url (net o) u [] = true ->
  requests_get o (proxy_direct_url o (r_video_url data) (r_format_id data) u
                    (default "" (r_platform data))) = inl e ->
  let sid := request_session o data in
  let temp_file := path_join (tmpdir o) (default "video.mp4" (r_filename data)) in
  let rw := proxy_download o req w in
  rw.1 = Response 500 (Json None (Some ("Download failed: " +:+ e)) None) /\
  download_progress rw.2 !! sid = None /\
  tmpdir o ∈ Fs.dirs (fs rw.2) /\
  Fs.files (fs rw.2) = Fs.files (fs w) /\
  (retention_ok (retention_hours o) (now o) = true ->
   exists t, tasks rw.2 !! sid = Some t /\
     storage_path t = Some temp_file /\ task_status t = Some "downloading") /\
  (retention_ok (retention_hours o) (now o) = false -> tasks rw.2 = tasks w).
Proof.
  intros Hreq Hu Ht Hp Hsafe Hget sid temp_file rw.
  assert (Hplat : String.eqb (default "" (r_platform data)) "instagram"
                  || String.eqb (default "" (r_platform data)) "bilibili_tv" = true).
  { destruct Hp as [-> | ->]; reflexivity. }
  assert (Hbody : post (proxy_download_body o data sid) w
            (fun o' w' =>
               o' = Raise e /\ tmpdir o ∈ Fs.dirs (fs w') /\
               Fs.files (fs w') = Fs.files (fs w) /\
               (retention_ok (retention_hours o) (now o) = true ->
                exists t, tasks w' !! sid = Some t /\
                  storage_path t = Some temp_file /\
                  task_status t = Some "downloading"))).
  { unfold proxy_download_body. rewrite Hu. simpl otruthy. rewrite Ht.
    rewrite andb_false_r. eapply post_step; [reflexivity|].
    do 2 (eapply post_step; [reflexivity|]).
    rewrite Hplat. simpl andb. cbv iota.
    unfold proxy_download_direct. rewrite Hsafe. eapply post_step; [reflexivity|].
    match goal with |- post (bind (when ?b (_update_progress ?o ?s ?pl)) _) ?w1 _ =>
      destruct (when_update_run b o s pl w1) as (w1' & E1 & _ & Hf1)
    end.
    eapply post_step; [exact E1|].
    do 3 (eapply post_step; [reflexivity|]).
    rewrite Hget. apply post_bind, post_raise.
    simpl. rewrite Hf1. simpl.
    split; [done|]. split; [apply elem_of_union; left; by apply elem_of_singleton|].
    split; [done|]. intros Hok.
    destruct (register_storage_row (retention_hours o) (now o) sid temp_file "temp"
                None (tasks w1') Hok) as [(t1 & Ht1 & Hp1 & _) _].
    destruct (mark_status_keeps_storage (retention_hours o) (now o) sid "downloading"
                (Some ("Downloading " +:+ default "" (r_platform data) +:+ " video..."))
                (Some (Snapshot "downloading"
                         (Some ("Downloading " +:+ default "" (r_platform data)
                                  +:+ " video...")) (Some 100) None None))
                _ t1 Hok Ht1) as (t2 & Ht2 & Hp2 & Hs2).
    exists t2. split; [exact Ht2|]. split; [congruence|done]. }
  pose proof (proxy_download_body_post o data sid w) as [[_ Htasks] _].
  unfold post in Hbody. destruct Hbody as (Ho & Hdir & Hfiles & Hrow).
  subst rw. unfold proxy_download. rewrite Hreq. unfold view.
  change (default (time_str o) (r_session_id data)) with sid.
  destruct (proxy_download_body o data sid w) as [[r|r|e'] w']; simpl in *;
    try discriminate.
  injection Ho as ->.
  split; [done|]. split; [apply lookup_delete_eq|]. done.
Qed.

Lemma proxy_download_failure_leftovers_witness :
  let rw := proxy_download (Examples.oracle0 (inl "connection reset") Examples.no_ydl)
              Examples.direct_request Examples.empty_world in
  rw.1 = Response 500 (Json None (Some "Download failed: connection reset") None) /\
  "/tmp/tmpab12" ∈ Fs.dirs (fs rw.2) /\
  exists t, tasks rw.2 !! "s2" = Some t /\ task_status t = Some "downloading".
Proof.
  destruct (proxy_download_failure_leftovers
              (Examples.oracle0 (inl "connection reset") Examples.no_ydl)
              Examples.direct_request _ "https://cdn.example.com/v.mp4"
              "connection reset" Examples.empty_world
              eq_refl eq_refl eq_refl (or_introl eq_refl)) as (H1 & _ & H2 & _ & H3 & _).
  - vm_compute. reflexivity.
  - reflexivity.
  - split; [exact H1|]. split; [exact H2|].
    destruct (H3 eq_refl) as (t & Ht & _ & Hs). exists t. split; [exact Ht|exact Hs].
Defined.

(** ** [force_download] and [get_download_url] *)

Lemma force_download_direct_frame o sid u w :
  post (force_download_direct o sid u) w
    (fun _ w' => download_progress w' = download_progress w /\ tasks w' = tasks w /\
                 written w' = written w).
Proof.
  unfold force_download_direct.
  apply post_bind, post_when; [intros _; by apply post_return|intros _].
  apply post_bind. destruct (requests_get o u) as [e|resp]; [by apply post_raise|].
  apply post_ret. apply post_bind.
  unfold check_size.
  destruct (content_length resp); try apply post_ret;
    [| |destruct (negb _ && _); [by apply post_return|apply post_ret]].
  all: apply post_bind, post_when; [intros _; by apply post_return|intros _].
  all: eapply post_step; [reflexivity|]; by apply post_ret.
Qed.

Lemma force_download_ydl_frame o sid fn w :
  post (force_download_ydl o sid fn) w
    (fun _ w' => download_progress w' = download_progress w /\ tasks w' = tasks w /\
                 written w' = written w).
Proof.
  unfold force_download_ydl.
  eapply post_step; [reflexivity|].
  apply post_bind. destruct (ydl o) as [e|hooks outputs prepared];
    [by apply post_raise|apply post_modify].
  eapply post_step; [reflexivity|].
  destruct (List.find _ _) as [f|]; [|by apply post_return].
  destruct (negb _); [by apply post_return|].
  eapply post_step; [reflexivity|]. eapply post_step; [reflexivity|].
  destruct (Fs.getsize _ _); [by apply post_ret|by apply post_raise].
Qed.

(** X14. [force_download] never writes progress or task records: the
    progress store, its history and the task table are the same after
    every request, whatever its outcome; and when the URL it is about to
    fetch, after the Bilibili.tv refresh, is rejected by the safety gate,
    it answers 400 and leaves the whole world as it was. *)
Theorem force_download_frame o sid w :
  let rw := force_download o sid w in
  (download_progress rw.2 = download_progress w /\ tasks rw.2 = tasks w /\
   written rw.2 = written w) /\
  (forall reg info u,
     pending_downloads w = Some reg -> reg !! sid = Some info ->
     refreshed_direct_url o info = Some u ->
     truthy u && startswith u "http" = true ->
     is_safe_public_url (net o) u [] = false ->
     rw = (Response 400 (Text "Invalid or unsafe download URL"), w)).
Proof.
  intros rw. subst rw. split.
  - unfold force_download.
    assert (H : post (w0 <- get ;;
                match pending_downloads w0 with
                | None => return_ (Response 404 (Text "Download session expired"))
                | Some pending =>
                    match pending !! sid with
                    | None => return_ (Response 404 (Text "Download session not found"))
                    | Some download_info =>
                        let filename := i_filename download_info in
                        let direct_url := refreshed_direct_url o download_info in
                        match direct_url with
                        | Some u =>
                            if truthy u && startswith u "http"
                            then force_download_direct o sid u
                            else force_download_ydl o sid filename
                        | None => force_download_ydl o sid filename
                        end
                    end
                end) w
              (fun _ w' => download_progress w' = download_progress w /\
                           tasks w' = tasks w /\ written w' = written w)).
    { eapply post_step; [reflexivity|].
      destruct (pending_downloads w) as [reg|]; [|by apply post_return].
      destruct (reg !! sid) as [info|]; [|by apply post_return].
      simpl. destruct (refreshed_direct_url o info) as [u|];
        [destruct (truthy u && _)|];
        first [apply force_download_direct_frame|apply force_download_ydl_frame]. }
    unfold post in H. unfold view.
    match goal with |- context [match ?m w with _ => _ end] =>
      destruct (m w) as [[r|r|e] w'] end; simpl in *; done.
  - intros reg info u Hreg Hinfo Hu Hhttp Hsafe.
    unfold force_download, force_download_direct. unfold_M.
    by rewrite Hreg, Hinfo, Hu, Hhttp, Hsafe.
Qed.

Lemma force_download_frame_witness :
  force_download (Examples.oracle0 (inr (Http 200 (Int 9) [9])) Examples.no_ydl) "s1"
    MoreExamples.world2
  = (Response 400 (Text "Invalid or unsafe download URL"), MoreExamples.world2).
Proof.
  apply (proj2 (force_download_frame
                  (Examples.oracle0 (inr (Http 200 (Int 9) [9])) Examples.no_ydl) "s1"
                  MoreExamples.world2)
           (<["s1" := MoreExamples.inner_clip]> ∅) MoreExamples.inner_clip
           "http://10.0.0.5/v.mp4").
  - reflexivity.
  - vm_compute. reflexivity.
  - reflexivity.
  - vm_compute. reflexivity.
  - vm_compute. reflexivity.
Defined.

(** X15. Registering a download: [get_download_url], for a request body
    whose fields are strings or absent, answers 200 with the address
    [/api/force-download/<id>], where the id is the current time in
    milliseconds, and afterwards the registry holds the request's fields
    under that id, whatever it held there before (a second request within
    the same millisecond takes the place of the first).  The other
    registry entries, the other task rows, the progress store and the file
    system are left alone.  With the expiry within the range of
    [datetime] the session's task row expires one retention window later;
    with the expiry past the range no task row is written.  This holds
    whatever URLs the body carries. *)
Theorem get_download_url_registers o data w :
  let sid := time_str o in
  let rw := get_download_url o (Some data) w in
  rw.1 = Response 200 (Json (Some true) None (Some ("/api/force-download/" +:+ sid))) /\
  (exists reg, pending_downloads rw.2 = Some reg /\
     reg !! sid = Some (Info (r_video_url data) (r_direct_url data) (r_format_id data)
                          (default "video.mp4" (r_filename data)) (r_platform data)) /\
     forall sid', sid' <> sid -> reg !! sid' = default ∅ (pending_downloads w) !! sid') /\
  download_progress rw.2 = download_progress w /\
  written rw.2 = written w /\
  fs rw.2 = fs w /\
  (forall sid', sid' <> sid -> tasks rw.2 !! sid' = tasks w !! sid') /\
  (retention_ok (retention_hours o) (now o) = true ->
   exists t, tasks rw.2 !! sid = Some t /\
     expires_at t = Some (expiry_instant (retention_hours o) (now o))) /\
  (retention_ok (retention_hours o) (now o) = false -> tasks rw.2 = tasks w).
Proof.
  intros sid rw. subst rw. unfold get_download_url. unfold_M. simpl.
  split; [done|]. split.
  - eexists. split; [reflexivity|]. split; [apply lookup_insert_eq|].
    intros sid' Hne. by apply lookup_insert_ne.
  - split; [done|]. split; [done|]. split; [done|]. split; [|split].
    + intros sid' Hne.
      by apply (task_writes_other _ _ _ _ "" None None "" "" None).
    + intros Hok.
      match goal with |- context [task_service.upsert_task ?h ?n ?s ?d ?db] =>
        destruct (upsert_task_row h n s d db Hok) as (db' & -> & (t & Ht & _ & He) & _)
      end.
      simpl. exists t. done.
    + intros Hbad.
      match goal with |- context [task_service.upsert_task ?h ?n ?s ?d ?db] =>
        rewrite (proj1 (task_writes_fail h n s d "" None None "" "" None db Hbad))
      end.
      done.
Qed.

Lemma get_download_url_registers_witness :
  (exists reg,
     pending_downloads
       (get_download_url (Examples.oracle0 (inl "unused") Examples.no_ydl)
          (Some (Req None (Some "https://cdn.example.com/v.mp4") None (Some "clip.mp4")
                     None (Some "instagram")))
          Examples.world1).2 = Some reg /\
     reg !! "s1" = Some Examples.clip) /\
  exists t,
    tasks (get_download_url (Examples.oracle0 (inl "unused") Examples.no_ydl)
             (Some (Req None (Some "https://cdn.example.com/v.mp4") None
                        (Some "clip.mp4") None (Some "instagram")))
             Examples.world1).2 !! "1700000000000" = Some t /\
    expires_at t = Some (expiry_instant 24 1000).
Proof.
  destruct (get_download_url_registers
              (Examples.oracle0 (inl "unused") Examples.no_ydl)
              (Req None (Some "https://cdn.example.com/v.mp4") None
                   (Some "clip.mp4") None (Some "instagram"))
              Examples.world1)
    as (_ & (reg & Hreg & _ & Hother) & _ & _ & _ & _ & Hrow & _).
  split.
  - exists reg. split; [exact Hreg|].
    rewrite Hother; [vm_compute; reflexivity|discriminate].
  - apply Hrow. reflexivity.
Defined.

(** ** The progress stream *)

Lemma sse_loop_stream store sid : forall (k tick : nat) last,
  exists ds,
    sse_loop k store sid tick (max_timeout - poll_interval * Z.of_nat k) last
      = Some (map Data ds ++ [Timeout_event]) /\
    no_repeat last ds /\
    (forall s, s ∈ ds ->
       exists i, (tick <= i < tick + k)%nat /\ store i !! sid = Some s) /\
    (forall i s, (tick <= i < tick + k)%nat -> store i !! sid = Some s ->
       s ∈ ds \/ last = Some s).
Proof.
  induction k as [|k IH]; intros tick last.
  - exists []. split; [apply sse_loop_done; unfold poll_interval; lia|].
    split; [done|]. split; [by intros s Hs%elem_of_nil|]. intros i s Hi. lia.
  - rewrite sse_loop_poll by apply polls_left_lt. rewrite polls_left_S.
    destruct (store tick !! sid) as [current|] eqn:Hcur.
    + case_bool_decide as Hne.
      * destruct (IH (S tick) (Some current)) as (ds & -> & Hnr & Hsound & Hcompl).
        exists (current :: ds). split; [done|]. split; [done|]. split.
        -- intros s [->|Hs]%elem_of_cons.
           ++ exists tick. split; [lia|done].
           ++ destruct (Hsound s Hs) as (i & Hi & Hst). exists i. split; [lia|done].
        -- intros i s Hi Hst. left.
           destruct (decide (i = tick)) as [->|Hit].
           ++ rewrite Hcur in Hst. injection Hst as ->. left.
           ++ destruct (Hcompl i s ltac:(lia) Hst) as [Hin|[= ->]]; [by right|left].
      * destruct (IH (S tick) last) as (ds & -> & Hnr & Hsound & Hcompl).
        exists ds. split; [done|]. split; [done|]. split.
        -- intros s Hs. destruct (Hsound s Hs) as (i & Hi & Hst).
           exists i. split; [lia|done].
        -- intros i s Hi Hst. destruct (decide (i = tick)) as [->|Hit].
           ++ rewrite Hcur in Hst. injection Hst as ->. right.
              destruct (decide (Some s = last)); [done|contradiction].
           ++ apply (Hcompl i); [lia|done].
    + destruct (IH (S tick) last) as (ds & -> & Hnr & Hsound & Hcompl).
      exists ds. split; [done|]. split; [done|]. split.
      * intros s Hs. destruct (Hsound s Hs) as (i & Hi & Hst).
        exists i. split; [lia|done].
      * intros i s Hi Hst. destruct (decide (i = tick)) as [->|Hit]; [congruence|].
        apply (Hcompl i); [lia|done].
Qed.

(** X16. The progress stream reports changes only.  Whatever happens to
    the store, the events of a [get_download_progress] stream are data
    events followed by the one timeout event; every snapshot sent was in
    the store for the session at one of the 600 polls; every snapshot
    found at a poll is sent; and no snapshot is sent twice in a row. *)
Theorem get_download_progress_changes_only store sid :
  exists ds,
    get_download_progress 600 store sid = Some (map Data ds ++ [Timeout_event]) /\
    no_repeat None ds /\
    (forall s, s ∈ ds <-> exists i, (i < 600)%nat /\ store i !! sid = Some s).
Proof.
  destruct (sse_loop_stream store sid 600 0 None) as (ds & Hrun & Hnr & Hsound & Hcompl).
  exists ds. split; [exact Hrun|]. split; [exact Hnr|].
  intros s. split.
  - intros Hs. destruct (Hsound s Hs) as (i & Hi & Hst). exists i. split; [lia|done].
  - intros (i & Hi & Hst). destruct (Hcompl i s ltac:(lia) Hst) as [Hin|[=]]. exact Hin.
Qed.

(** ** The safety gate and its allow-list *)

Lemma rev_app_append (a b c : string) :
  String.rev_app (a +:+ b) c = String.rev_app b (String.rev_app a c).
Proof.
  revert c. induction a as [|x a IH]; intros c; [reflexivity|].
  change (String.rev_app (a +:+ b) (String x c)
          = String.rev_app b (String.rev_app a (String x c))).
  apply IH.
Qed.

Lemma rev_app_tail (a c d : string) :
  String.rev_app a (c +:+ d) = String.rev_app a c +:+ d.
Proof.
  revert c. induction a as [|x a IH]; intros c; [reflexivity|].
  change (String.rev_app a (String x c +:+ d) = String.rev_app a (String x c) +:+ d).
  apply IH.
Qed.

Lemma rev_append (a b : string) : String.rev (a +:+ b) = String.rev b +:+ String.rev a.
Proof.
  unfold String.rev. rewrite rev_app_append.
  change (String.rev_app a "") with ("" +:+ String.rev_app a "").
  apply rev_app_tail.
Qed.

Lemma prefix_append (a b : string) : String.prefix a (a +:+ b) = true.
Proof.
  induction a as [|x a IH]; [by destruct b|].
  change (String.prefix (String x a) (String x (a +:+ b)) = true).
  cbn [String.prefix]. by destruct (ascii_dec x x).
Qed.

Lemma endswith_append (p a : string) : endswith (p +:+ a) a = true.
Proof. unfold endswith. rewrite rev_append. apply prefix_append. Qed.

Lemma truthy_nonempty s : truthy s = true -> s <> "".
Proof. by intros H ->. Qed.

Lemma gate_accepts net raw allow :
  is_safe_public_url net raw allow = true ->
  is_safe_public_url net raw [] = true /\
  exists u, urlparse net raw = Some u /\
    (scheme u = "http" \/ scheme u = "https") /\ netloc u <> "" /\
    (forall ip, gethostbyname net (before_colon (netloc u)) = Some ip ->
       is_private ip = false /\ is_loopback ip = false /\
       is_reserved ip = false /\ is_link_local ip = false) /\
    (allow <> [] -> exists a, a ∈ allow /\ endswith (default "" (hostname u)) a = true).
Proof.
  unfold is_safe_public_url, _host_is_private.
  destruct (urlparse net raw) as [u|]; [|done].
  destruct (String.eqb (scheme u) "http") eqn:E1;
    [|destruct (String.eqb (scheme u) "https") eqn:E2; [|done]]; simpl.
  all: destruct (truthy (netloc u)) eqn:Et; simpl; [|done].
  all: destruct (gethostbyname net (before_colon (netloc u))) as [ip|] eqn:Eip.
  all: try (destruct (is_private ip) eqn:I1; [done|];
            destruct (is_loopback ip) eqn:I2; [done|];
            destruct (is_reserved ip) eqn:I3; [done|];
            destruct (is_link_local ip) eqn:I4; [done|]; simpl).
  all: intros Hallow; split; [done|]; exists u; split; [done|].
  all: split; [first [left; by apply String.eqb_eq|right; by apply String.eqb_eq]|].
  all: split; [by apply truthy_nonempty|].
  all: split; [intros ip' Hip; rewrite Eip in Hip;
               first [discriminate Hip|by injection Hip as <-]|].
  all: intros Hne; destruct allow as [|a0 allow]; [done|].
  all: apply existsb_exists in Hallow as (a & Hin & Ha); exists a.
  all: split; [by apply list_elem_of_In|done].
Qed.

Lemma gate_suffix net raw allow u p a :
  is_safe_public_url net raw [] = true ->
  urlparse net raw = Some u -> hostname u = Some (p +:+ a) -> a ∈ allow ->
  is_safe_public_url net raw allow = true.
Proof.
  unfold is_safe_public_url, _host_is_private.
  destruct (urlparse net raw) as [u'|]; [|done].
  intros Hsafe [= ->] Hh Ha.
  destruct (negb _); [done|]. destruct (negb _); [done|].
  destruct (match gethostbyname net _ with Some _ => _ | None => _ end); [done|].
  destruct allow as [|a0 allow]; [done|].
  apply existsb_exists. exists a. split; [by apply list_elem_of_In|].
  rewrite Hh. simpl. apply endswith_append.
Qed.

(** X17. What the safety gate guarantees, and what its allow-list adds.
    An accepted URL has scheme [http] or [https] and a non-empty network
    location, and the address that the text before the first colon of the
    network location resolves to, when it resolves, is not private,
    loopback, reserved or link-local.  An allow-list only narrows the
    gate, and it is a plain suffix test on the host name: any host name
    that ends with the characters of an allowed name passes it. *)
Theorem is_safe_public_url_guarantees net raw allow :
  (is_safe_public_url net raw allow = true ->
   is_safe_public_url net raw [] = true /\
   exists u, urlparse net raw = Some u /\
     (scheme u = "http" \/ scheme u = "https") /\ netloc u <> "" /\
     (forall ip, gethostbyname net (before_colon (netloc u)) = Some ip ->
        is_private ip = false /\ is_loopback ip = false /\
        is_reserved ip = false /\ is_link_local ip = false) /\
     (allow <> [] -> exists a, a ∈ allow /\ endswith (default "" (hostname u)) a = true)) /\
  (forall u p a,
     is_safe_public_url net raw [] = true ->
     urlparse net raw = Some u -> hostname u = Some (p +:+ a) -> a ∈ allow ->
     is_safe_public_url net raw allow = true).
Proof.
  split; [apply gate_accepts|].
  intros u p a. apply gate_suffix.
Qed.

Lemma is_safe_public_url_guarantees_witness :
  is_safe_public_url Examples.net0 "https://cdn.example.com/v.mp4" ["example.com"] = true.
Proof.
  apply (proj2 (is_safe_public_url_guarantees Examples.net0 "https://cdn.example.com/v.mp4"
                  ["example.com"])
           (Url "https" "cdn.example.com" (Some "cdn.example.com")) "cdn." "example.com").
  - vm_compute. reflexivity.
  - reflexivity.
  - reflexivity.
  - apply list_elem_of_In. left. reflexivity.
Defined.

(** X18. The image proxy.  Its answers are an image, or an error with
    status 400 or 500.  It answers with an image only when the URL was
    given, is [http] or [https], has a host name ending with one of the
    four allowed names and the upstream answered 200; then it hands on the
    upstream body, with [image/jpeg] when the upstream names no type.
    An upstream status other than 200 is answered with 500, never with
    the upstream status.  The host test is a suffix test: a URL that
    passes the gate without allow-list and whose host name only ends with
    the characters of an allowed name is fetched. *)
Theorem proxy_image_outcomes net fetch image_url :
  match proxy_image net fetch image_url with
  | Image_body content mimetype =>
      exists raw u a r,
        image_url = Some raw /\ raw <> "" /\ urlparse net raw = Some u /\
        (scheme u = "http" \/ scheme u = "https") /\
        a ∈ image_allow_hosts /\ endswith (default "" (hostname u)) a = true /\
        fetch raw = inr r /\ img_status r = 200 /\ img_content r = inr content /\
        mimetype = default "image/jpeg" (img_content_type r)
  | Image_json code _ => code = 400 \/ code = 500
  end /\
  (forall raw r, image_url = Some raw -> fetch raw = inr r -> img_status r <> 200 ->
     is_safe_public_url net raw image_allow_hosts = true -> raw <> "" ->
     proxy_image net fetch image_url
     = Image_json 500 ("Failed to fetch image: " +:+ pretty (img_status r))) /\
  (forall raw u p a r content,
     image_url = Some raw -> raw <> "" ->
     is_safe_public_url net raw [] = true ->
     urlparse net raw = Some u -> hostname u = Some (p +:+ a) ->
     a ∈ image_allow_hosts ->
     fetch raw = inr r -> img_status r = 200 -> img_content r = inr content ->
     proxy_image net fetch image_url
     = Image_body content (default "image/jpeg" (img_content_type r))).
Proof.
  assert (Htruthy : forall raw, raw <> "" -> truthy raw = true).
  { intros raw Hne. unfold truthy. apply negb_true_iff, String.eqb_neq. done. }
  unfold proxy_image. split; [|split].
  - destruct image_url as [raw|]; simpl; [|by left].
    destruct (truthy raw) eqn:Et; simpl; [|by left].
    destruct (is_safe_public_url net raw image_allow_hosts) eqn:Es; simpl; [|by left].
    destruct (fetch raw) as [e|r] eqn:Ef; [by right|].
    destruct (Z.eqb_spec (img_status r) 200) as [H200|Hn]; [|by right].
    destruct (img_content r) as [e|content] eqn:Ec; [by right|].
    destruct (gate_accepts net raw image_allow_hosts Es)
      as (_ & u & Hu & Hs & _ & _ & Hallow).
    destruct (Hallow ltac:(done)) as (a & Ha & He).
    exists raw, u, a, r. split; [done|]. split; [by apply truthy_nonempty|]. done.
  - intros raw r -> Hf Hn Hs Hne. simpl. rewrite (Htruthy raw Hne), Hs, Hf. simpl.
    by destruct (Z.eqb_spec (img_status r) 200).
  - intros raw u p a r content -> Hne Hs Hu Hh Ha Hf H200 Hc. simpl.
    rewrite (Htruthy raw Hne), (gate_suffix net raw image_allow_hosts u p a Hs Hu Hh Ha).
    simpl. by rewrite Hf, H200, Hc.
Qed.

Lemma proxy_image_outcomes_witness :
  proxy_image ImageExamples.net1 ImageExamples.fetch1 (Some "https://notinstagram.com/i.jpg")
  = Image_body "bytes" "image/jpeg".
Proof.
  apply (proj2 (proj2 (proxy_image_outcomes ImageExamples.net1 ImageExamples.fetch1
                         (Some "https://notinstagram.com/i.jpg")))
           "https://notinstagram.com/i.jpg"
           (Url "https" "notinstagram.com" (Some "notinstagram.com"))
           "not" "instagram.com" (ImageUpstream 200 (inr "bytes") None) "bytes").
  - reflexivity.
  - discriminate.
  - vm_compute. reflexivity.
  - reflexivity.
  - reflexivity.
  - apply list_elem_of_In. right. left. reflexivity.
  - reflexivity.
  - reflexivity.
  - reflexivity.
Defined.

(** ** What streaming cleans up *)

Lemma remove_if_exists_Some f p f1 :
  remove_if_exists f p = Some f1 ->
  (p ∉ Fs.locked f -> Fs.files f1 !! p = None) /\
  (forall q v, Fs.files f1 !! q = Some v -> Fs.files f !! q = Some v) /\
  Fs.dirs f1 = Fs.dirs f.
Proof.
  unfold remove_if_exists, Fs.exists_, Fs.remove, Fs.is_file.
  case_bool_decide as Hfile; simpl.
  - case_bool_decide; simpl; [done|]. intros [= <-]. simpl.
    split; [intros _; apply lookup_delete_eq|]. split; [|done].
    intros q v Hq. apply lookup_delete_Some in Hq. tauto.
  - destruct (Fs.is_dir f p); [done|]. intros [= <-].
    split; [|done]. intros _. by apply eq_None_not_Some.
Qed.

Lemma remove_if_exists_None f p :
  remove_if_exists f p = None ->
  Fs.exists_ f p = true /\ (p ∉ Fs.locked f -> Fs.files f !! p = None).
Proof.
  unfold remove_if_exists, Fs.remove, Fs.exists_, Fs.is_file.
  case_bool_decide as Hfile; simpl.
  - case_bool_decide; simpl; [|done]. intros _. split; [done|]. done.
  - destruct (Fs.is_dir f p); [|done]. intros _. split; [done|].
    intros _. by apply eq_None_not_Some.
Qed.

Lemma rmdir_if_exists_Some f d f2 :
  rmdir_if_exists f d = Some f2 ->
  Fs.files f2 = Fs.files f /\ Fs.is_dir f2 d = false /\ Fs.exists_ f2 d = Fs.is_file f d.
Proof.
  unfold rmdir_if_exists, Fs.rmdir.
  destruct (Fs.exists_ f d) eqn:Ex.
  - destruct (Fs.is_dir f d && Fs.is_empty_dir f d); [|done]. intros [= <-].
    split; [done|].
    assert (Hd : Fs.is_dir (Fs.Make (Fs.files f) (Fs.dirs f ∖ {[d]}) (Fs.locked f)
                              (Fs.dir_size f)) d = false).
    { unfold Fs.is_dir. simpl. apply bool_decide_eq_false.
      intros [_ Hn]%elem_of_difference. apply Hn. by apply elem_of_singleton. }
    split; [exact Hd|]. unfold Fs.exists_. rewrite Hd. unfold Fs.is_file. simpl.
    apply orb_false_r.
  - intros [= <-]. unfold Fs.exists_ in Ex.
    apply orb_false_iff in Ex as [E1 E2]. split; [done|]. split; [done|].
    unfold Fs.exists_. by rewrite E2, orb_false_r.
Qed.

Lemma rmdir_if_exists_None f d : rmdir_if_exists f d = None -> Fs.exists_ f d = true.
Proof. unfold rmdir_if_exists. by destruct (Fs.exists_ f d). Qed.

(** X19. What streaming a response cleans up.  No generator touches the
    registry, the task table or the progress history, and none creates or
    resizes a file.  The generators of [proxy_download] clean up whether
    the client reads to the end or goes away: the served file is gone
    afterwards unless [os.remove] fails on it.  The direct generator never
    touches the progress store; the delegated one removes the session's
    snapshot, and only that one, and only when the temporary directory
    could be removed too.  The delegated generator of [force_download]
    removes its file only when the client reads to the end: a client that
    goes away before the last chunk leaves file and directory behind.
    The direct generator of [force_download] changes nothing. *)
Theorem run_generate_cleanup g c w :
  let w' := (run_generate g c w).2 in
  (pending_downloads w' = pending_downloads w /\ tasks w' = tasks w /\
   written w' = written w /\
   forall p v, Fs.files (fs w') !! p = Some v -> Fs.files (fs w) !! p = Some v) /\
  match g with
  | Gen_force_direct _ => w' = w
  | Gen_force_ydl f d =>
      (forall k size,
         c = Disconnect_after k -> Fs.getsize (fs w) f = Some size ->
         (k < length (file_chunks size 1048576))%nat -> w' = w) /\
      (c = Consume_all -> f ∉ Fs.locked (fs w) -> Fs.files (fs w') !! f = None) /\
      download_progress w' = download_progress w
  | Gen_proxy_direct f d =>
      (f ∉ Fs.locked (fs w) -> Fs.files (fs w') !! f = None) /\
      download_progress w' = download_progress w
  | Gen_proxy_ydl f d sid =>
      (f ∉ Fs.locked (fs w) -> Fs.files (fs w') !! f = None) /\
      (forall sid', sid' <> sid ->
         download_progress w' !! sid' = download_progress w !! sid') /\
      (Fs.is_dir (fs w') d = true -> download_progress w' = download_progress w) /\
      (Fs.exists_ (fs w') f = false -> Fs.exists_ (fs w') d = false ->
       download_progress w' !! sid = None)
  end.
Proof.
  intros w'. subst w'. destruct g as [upstream|f d|f d|f d sid]; simpl.
  - done.
  - destruct (Fs.read (fs w) f) as [size|] eqn:Hsize; simpl.
    + destruct c as [|k]; simpl.
      * unfold cleanup_force_ydl, Fs.remove, Fs.rmdir, Fs.is_file.
        unfold Fs.read in Hsize. rewrite Hsize.
        rewrite bool_decide_eq_true_2 by eauto. simpl.
        case_bool_decide as Hl; simpl.
        { split; [done|]. split; [done|]. split; [|done]. done. }
        assert (Hdel : forall p v, delete f (Fs.files (fs w)) !! p = Some v ->
                                   Fs.files (fs w) !! p = Some v).
        { intros p v Hp. apply lookup_delete_Some in Hp. tauto. }
        destruct (Fs.is_dir _ d && Fs.is_empty_dir _ d); simpl.
        all: split; [done|]; split; [done|]; split; [|done].
        all: intros _ _; apply lookup_delete_eq.
      * split; [done|]. split; [done|]. split; [done|]. done.
    + split; [done|]. split; [done|]. split; [|done].
      intros _ _. exact Hsize.
  - unfold cleanup_proxy_direct.
    destruct (remove_if_exists (fs w) f) as [f1|] eqn:Hrm.
    + destruct (remove_if_exists_Some _ _ _ Hrm) as (Hgone & Hsub & _).
      destruct (rmdir_if_exists f1 d) as [f2|] eqn:Hrd; simpl.
      * destruct (rmdir_if_exists_Some _ _ _ Hrd) as (Hf & _).
        rewrite Hf. done.
      * done.
    + destruct (remove_if_exists_None _ _ Hrm) as (_ & Hgone). done.
  - unfold cleanup_proxy_ydl.
    destruct (remove_if_exists (fs w) f) as [f1|] eqn:Hrm.
    + destruct (remove_if_exists_Some _ _ _ Hrm) as (Hgone & Hsub & _).
      destruct (rmdir_if_exists f1 d) as [f2|] eqn:Hrd; simpl.
      * destruct (rmdir_if_exists_Some _ _ _ Hrd) as (Hf & Hd & _).
        rewrite Hf, Hd. split; [done|]. split; [done|].
        split; [intros sid' Hne; by apply lookup_delete_ne|].
        split; [done|]. intros _ _. apply lookup_delete_eq.
      * pose proof (rmdir_if_exists_None _ _ Hrd) as Hex.
        split; [done|]. split; [done|]. split; [done|]. split; [done|].
        intros _ Hd. congruence.
    + destruct (remove_if_exists_None _ _ Hrm) as (Hex & Hgone).
      split; [done|]. split; [done|]. split; [done|]. split; [done|].
      intros Hf. congruence.
Qed.

Lemma run_generate_cleanup_witness :
  (run_generate (Gen_force_ydl "/tmp/t/v.mp4" "/tmp/t") (Disconnect_after 1)
     MoreExamples.world3).2 = MoreExamples.world3.
Proof.
  apply (proj1 (proj2 (run_generate_cleanup (Gen_force_ydl "/tmp/t/v.mp4" "/tmp/t")
                         (Disconnect_after 1) MoreExamples.world3))
           1%nat 3000000).
  - reflexivity.
  - reflexivity.
  - vm_compute. lia.
Defined.

(** ** Instagram shortcodes *)

Lemma shortcode_run_split s :
  exists post, s = shortcode_run s +:+ post /\ shortcode_run post = "" /\
               all_shortcode (shortcode_run s) = true.
Proof.
  induction s as [|x s (post & Hs & Hp & Ha)].
  - exists "". done.
  - cbn [shortcode_run]. destruct (shortcode_char x) eqn:Ex.
    + exists post. split; [|split; [done|]].
      * change (String x s = String x (shortcode_run s +:+ post)). by rewrite <- Hs.
      * cbn [all_shortcode]. by rewrite Ex, Ha.
    + exists (String x s). split; [done|]. split; [|done].
      cbn [shortcode_run]. by rewrite Ex.
Qed.

Lemma shortcode_run_append c post :
  all_shortcode c = true -> shortcode_run post = "" -> shortcode_run (c +:+ post) = c.
Proof.
  intros Hc Hp. induction c as [|x c IH]; [exact Hp|].
  cbn [all_shortcode] in Hc. apply andb_true_iff in Hc as [Hx Hc].
  change (shortcode_run (String x (c +:+ post)) = String x c).
  cbn [shortcode_run]. by rewrite Hx, IH.
Qed.

Lemma shortcode_end_run post : shortcode_end post = true -> shortcode_run post = "".
Proof.
  destruct post as [|x post]; [done|]. cbn [shortcode_end shortcode_run].
  intros [Hx _]%andb_true_iff. apply negb_true_iff in Hx. by rewrite Hx.
Qed.

Lemma search_shortcode_sound lit : forall s c,
  search_shortcode lit s = Some c ->
  c <> "" /\ all_shortcode c = true /\
  exists pre post, s = pre +:+ lit +:+ c +:+ post /\ shortcode_run post = "".
Proof.
  assert (Hhere : forall s c,
            match strip_prefix lit s with
            | Some rest => let code := shortcode_run rest in
                           if truthy code then Some code else None
            | None => None
            end = Some c ->
            c <> "" /\ all_shortcode c = true /\
            exists post, s = lit +:+ c +:+ post /\ shortcode_run post = "").
  { intros s c. destruct (strip_prefix lit s) as [rest|] eqn:Hs; [|done].
    apply strip_prefix_Some in Hs. simpl.
    destruct (truthy (shortcode_run rest)) eqn:Ht; [|done]. intros [= <-].
    destruct (shortcode_run_split rest) as (post & Hrest & Hp & Ha).
    split; [by apply truthy_nonempty|]. split; [done|].
    exists post. split; [|done]. by rewrite <- Hrest. }
  induction s as [|x s IH]; intros c.
  - cbn [search_shortcode].
    destruct (match strip_prefix lit "" with Some _ => _ | None => _ end)
      as [code|] eqn:Hh; [|done].
    intros [= <-]. destruct (Hhere _ _ Hh) as (Hne & Ha & post & Hu & Hp).
    split; [done|]. split; [done|]. exists "", post. done.
  - cbn [search_shortcode].
    destruct (match strip_prefix lit (String x s) with
              | Some _ => _ | None => _ end) as [code|] eqn:Hh.
    + intros [= <-]. destruct (Hhere _ _ Hh) as (Hne & Ha & post & Hu & Hp).
      split; [done|]. split; [done|]. exists "", post. done.
    + intros Hs. destruct (IH c Hs) as (Hne & Ha & pre & post & Hu & Hp).
      split; [done|]. split; [done|]. exists (String x pre), post.
      split; [|done]. change (String x s = String x (pre +:+ lit +:+ c +:+ post)).
      by rewrite <- Hu.
Qed.

Lemma shortcode_char_neq a p :
  shortcode_char a = true -> shortcode_char p = false -> Ascii.eqb a p = false.
Proof. intros Ha Hp. apply Ascii.eqb_neq. intros ->. congruence. Qed.

(** A literal with a dot after its leading shortcode characters does not
    match at a position inside a shortcode. *)
Lemma strip_prefix_straddle B post : forall A c,
  all_shortcode A = true -> all_shortcode c = true -> shortcode_end post = true ->
  strip_prefix (A +:+ String "." B) (c +:+ post) = None.
Proof.
  induction A as [|a A IH]; intros c HA Hc Hpost.
  - destruct c as [|x c].
    + destruct post as [|p post]; [done|].
      cbn [shortcode_end] in Hpost. apply andb_true_iff in Hpost as [_ Hp].
      apply negb_true_iff in Hp.
      change (strip_prefix (String "." B) (String p post) = None).
      cbn [strip_prefix]. rewrite Ascii.eqb_sym, Hp. done.
    + cbn [all_shortcode] in Hc. apply andb_true_iff in Hc as [Hx _].
      change (strip_prefix (String "." B) (String x (c +:+ post)) = None).
      cbn [strip_prefix].
      rewrite Ascii.eqb_sym, (shortcode_char_neq x "."); done.
  - cbn [all_shortcode] in HA. apply andb_true_iff in HA as [Ha HA].
    destruct c as [|x c].
    + destruct post as [|p post]; [done|].
      cbn [shortcode_end] in Hpost. apply andb_true_iff in Hpost as [Hp _].
      apply negb_true_iff in Hp.
      change (strip_prefix (String a (A +:+ String "." B)) (String p post)
              = None).
      cbn [strip_prefix]. by rewrite (shortcode_char_neq a p).
    + cbn [all_shortcode] in Hc. apply andb_true_iff in Hc as [Hx Hc].
      change (strip_prefix (String a (A +:+ String "." B))
                (String x (c +:+ post)) = None).
      cbn [strip_prefix]. destruct (Ascii.eqb a x); [by apply IH|done].
Qed.

Lemma search_shortcode_skip A B post : forall c,
  all_shortcode A = true -> all_shortcode c = true -> shortcode_end post = true ->
  search_shortcode (A +:+ String "." B) (c +:+ post)
  = search_shortcode (A +:+ String "." B) post.
Proof.
  intros c HA. induction c as [|x c IH]; intros Hc Hpost; [done|].
  change (search_shortcode (A +:+ String "." B) (String x (c +:+ post))
          = search_shortcode (A +:+ String "." B) post).
  cbn [search_shortcode].
  change (String x (c +:+ post)) with (String x c +:+ post).
  rewrite (strip_prefix_straddle B post A (String x c) HA Hc Hpost).
  cbn [all_shortcode] in Hc. apply andb_true_iff in Hc as [_ Hc]. by apply IH.
Qed.

Lemma first_shortcode_None patterns s lit :
  first_shortcode patterns s = None -> lit ∈ patterns -> search_shortcode lit s = None.
Proof.
  induction patterns as [|p ps IH]; [by intros _ ?%elem_of_nil|].
  cbn [first_shortcode]. destruct (search_shortcode p s) eqn:Hp; [done|].
  intros Hps [->|Hin]%elem_of_cons; [done|by apply IH].
Qed.

Lemma search_shortcode_here lit rest :
  truthy (shortcode_run rest) = true ->
  search_shortcode lit (lit +:+ rest) = Some (shortcode_run rest).
Proof.
  intros Ht.
  assert (Hs : strip_prefix lit (lit +:+ rest) = Some rest)
    by by apply strip_prefix_Some.
  destruct (lit +:+ rest); cbn [search_shortcode]; rewrite Hs; simpl; by rewrite Ht.
Qed.

Lemma search_shortcode_www l r :
  search_shortcode (String "i" l) ("https://www." +:+ r) = search_shortcode (String "i" l) r.
Proof. vm_compute. reflexivity. Qed.

Lemma search_shortcode_past r :
  search_shortcode "instagram.com/p/" ("https://www.instagram.com/reel/" +:+ r)
  = search_shortcode "instagram.com/p/" r /\
  search_shortcode "instagram.com/p/" ("https://www.instagram.com/reels/" +:+ r)
  = search_shortcode "instagram.com/p/" r /\
  search_shortcode "instagram.com/p/" ("https://www.instagram.com/tv/" +:+ r)
  = search_shortcode "instagram.com/p/" r /\
  search_shortcode "instagram.com/reel/" ("https://www.instagram.com/reels/" +:+ r)
  = search_shortcode "instagram.com/reel/" r /\
  search_shortcode "instagram.com/reel/" ("https://www.instagram.com/tv/" +:+ r)
  = search_shortcode "instagram.com/reel/" r /\
  search_shortcode "instagram.com/reels/" ("https://www.instagram.com/tv/" +:+ r)
  = search_shortcode "instagram.com/reels/" r.
Proof. repeat split; vm_compute; reflexivity. Qed.

Lemma search_shortcode_tail lit c post :
  lit ∈ instagram_patterns ->
  all_shortcode c = true -> shortcode_end post = true ->
  extract_instagram_shortcode post = None ->
  search_shortcode lit (c +:+ post) = None.
Proof.
  intros Hin Hc Hpost Hnone.
  pose proof (first_shortcode_None _ _ _ Hnone Hin) as Hp.
  unfold instagram_patterns in Hin.
  repeat (apply elem_of_cons in Hin as [->|Hin]); [| | | |by apply elem_of_nil in Hin].
  - change "instagram.com/p/" with ("instagram" +:+ String "." "com/p/") in *.
    by rewrite search_shortcode_skip.
  - change "instagram.com/reel/" with ("instagram" +:+ String "." "com/reel/") in *.
    by rewrite search_shortcode_skip.
  - change "instagram.com/reels/" with ("instagram" +:+ String "." "com/reels/") in *.
    by rewrite search_shortcode_skip.
  - change "instagram.com/tv/" with ("instagram" +:+ String "." "com/tv/") in *.
    by rewrite search_shortcode_skip.
Qed.

Lemma search_shortcode_link (kind c post : string) :
  c <> "" -> all_shortcode c = true -> shortcode_end post = true ->
  search_shortcode ("instagram.com/" +:+ kind +:+ "/")
    ("https://www.instagram.com/" +:+ kind +:+ "/" +:+ c +:+ post) = Some c.
Proof.
  intros Hne Hc Hpost.
  assert (Hrun : shortcode_run (c +:+ post) = c)
    by by apply shortcode_run_append, shortcode_end_run.
  change ("https://www.instagram.com/" +:+ kind +:+ "/" +:+ c +:+ post)
    with ("https://www." +:+ "instagram.com/" +:+ kind +:+ "/" +:+ c +:+ post).
  change ("instagram.com/" +:+ kind +:+ "/") with (String "i" ("nstagram.com/" +:+ kind +:+ "/")).
  rewrite search_shortcode_www.
  change (String "i" ("nstagram.com/" +:+ kind +:+ "/")) with ("instagram.com/" +:+ kind +:+ "/").
  replace ("instagram.com/" +:+ kind +:+ "/" +:+ c +:+ post)
    with (("instagram.com/" +:+ kind +:+ "/") +:+ c +:+ post).
  - rewrite search_shortcode_here; rewrite Hrun; [done|].
    unfold truthy. apply negb_true_iff, String.eqb_neq. done.
  - change (String "i" (String "n" (String "s" (String "t" (String "a" (String "g"
             (String "r" (String "a" (String "m" (String "." (String "c" (String "o"
             (String "m" (String "/" ((kind +:+ "/") +:+ c +:+ post))))))))))))))
            = String "i" (String "n" (String "s" (String "t" (String "a" (String "g"
             (String "r" (String "a" (String "m" (String "." (String "c" (String "o"
             (String "m" (String "/" (kind +:+ "/" +:+ c +:+ post))))))))))))))).
    by rewrite append_assoc.
Qed.

(** X20. Shortcodes of Instagram links.  A shortcode returned by
    [extract_instagram_shortcode] is a non-empty run of the characters
    [A-Za-z0-9_-] that follows [instagram.com/p/], [/reel/], [/reels/] or
    [/tv/] in the URL and is not followed by another such character.
    And a link [https://www.instagram.com/<kind>/<code>], alone or
    followed by text that starts with neither a shortcode character nor a
    dot and holds no link itself, gives back exactly [<code>]. *)
Theorem extract_instagram_shortcode_round_trip :
  (forall s c,
     extract_instagram_shortcode s = Some c ->
     c <> "" /\ all_shortcode c = true /\
     exists pre lit post,
       lit ∈ instagram_patterns /\ s = pre +:+ lit +:+ c +:+ post /\
       shortcode_run post = "") /\
  (forall kind c post,
     kind ∈ ["p"; "reel"; "reels"; "tv"] ->
     c <> "" -> all_shortcode c = true -> shortcode_end post = true ->
     extract_instagram_shortcode post = None ->
     extract_instagram_shortcode ("https://www.instagram.com/" +:+ kind +:+ "/" +:+ c +:+ post)
     = Some c).
Proof.
  split.
  - intros s c. unfold extract_instagram_shortcode.
    assert (G : forall patterns,
              first_shortcode patterns s = Some c ->
              exists lit, lit ∈ patterns /\ search_shortcode lit s = Some c).
    { induction patterns as [|p ps IH]; [done|]. cbn [first_shortcode].
      destruct (search_shortcode p s) as [code|] eqn:Hp.
      - intros [= <-]. exists p. split; [left|done].
      - intros Hps. destruct (IH Hps) as (lit & Hin & Hl). exists lit. split; [by right|done]. }
    intros Hs. destruct (G _ Hs) as (lit & Hin & Hl).
    destruct (search_shortcode_sound lit s c Hl) as (Hne & Ha & pre & post & Hu & Hp).
    split; [done|]. split; [done|]. exists pre, lit, post. done.
  - intros kind c post Hk Hne Hc Hpost Hnone.
    pose proof (fun lit Hin => search_shortcode_tail lit c post Hin Hc Hpost Hnone) as Htail.
    assert (Hp : search_shortcode "instagram.com/p/" (c +:+ post) = None)
      by (apply Htail; left).
    assert (Hreel : search_shortcode "instagram.com/reel/" (c +:+ post) = None)
      by (apply Htail; right; left).
    assert (Hreels : search_shortcode "instagram.com/reels/" (c +:+ post) = None)
      by (apply Htail; right; right; left).
    pose proof (search_shortcode_link kind c post Hne Hc Hpost) as Hlink.
    destruct (search_shortcode_past (c +:+ post)) as (P1 & P2 & P3 & P4 & P5 & P6).
    unfold extract_instagram_shortcode, instagram_patterns.
    repeat (apply elem_of_cons in Hk as [->|Hk]); [| | | |by apply elem_of_nil in Hk];
      cbn [first_shortcode].
    + change (search_shortcode "instagram.com/p/"
                ("https://www.instagram.com/" +:+ "p" +:+ "/" +:+ c +:+ post))
        with (search_shortcode ("instagram.com/" +:+ "p" +:+ "/")
                ("https://www.instagram.com/" +:+ "p" +:+ "/" +:+ c +:+ post)).
      by rewrite Hlink.
    + change ("https://www.instagram.com/" +:+ "reel" +:+ "/" +:+ c +:+ post)
        with ("https://www.instagram.com/reel/" +:+ c +:+ post) at 1.
      rewrite P1, Hp.
      change (search_shortcode "instagram.com/reel/"
                ("https://www.instagram.com/" +:+ "reel" +:+ "/" +:+ c +:+ post))
        with (search_shortcode ("instagram.com/" +:+ "reel" +:+ "/")
                ("https://www.instagram.com/" +:+ "reel" +:+ "/" +:+ c +:+ post)).
      by rewrite Hlink.
    + change ("https://www.instagram.com/" +:+ "reels" +:+ "/" +:+ c +:+ post)
        with ("https://www.instagram.com/reels/" +:+ c +:+ post) at 1 2.
      rewrite P2, Hp, P4, Hreel.
      change (search_shortcode "instagram.com/reels/"
                ("https://www.instagram.com/" +:+ "reels" +:+ "/" +:+ c +:+ post))
        with (search_shortcode ("instagram.com/" +:+ "reels" +:+ "/")
                ("https://www.instagram.com/" +:+ "reels" +:+ "/" +:+ c +:+ post)).
      by rewrite Hlink.
    + change ("https://www.instagram.com/" +:+ "tv" +:+ "/" +:+ c +:+ post)
        with ("https://www.instagram.com/tv/" +:+ c +:+ post) at 1 2 3.
      rewrite P3, Hp, P5, Hreel, P6, Hreels.
      change (search_shortcode "instagram.com/tv/"
                ("https://www.instagram.com/" +:+ "tv" +:+ "/" +:+ c +:+ post))
        with (search_shortcode ("instagram.com/" +:+ "tv" +:+ "/")
                ("https://www.instagram.com/" +:+ "tv" +:+ "/" +:+ c +:+ post)).
      by rewrite Hlink.
Qed.

Lemma extract_instagram_shortcode_round_trip_witness :
  extract_instagram_shortcode "https://www.instagram.com/reel/Cabc-12_x/?igshid=1"
  = Some "Cabc-12_x".
Proof.
  apply (proj2 extract_instagram_shortcode_round_trip "reel" "Cabc-12_x" "/?igshid=1").
  - apply list_elem_of_In. right. left. reflexivity.
  - discriminate.
  - reflexivity.
  - reflexivity.
  - vm_compute. reflexivity.
Defined.

(** ** Bytes freed *)

Section accounting_facts.

Import task_service file_cleanup.

Lemma disk_usage_remove f p f' n :
  Fs.remove f p = Some f' -> Fs.getsize f p = Some n ->
  disk_usage f = disk_usage f' + n.
Proof.
  intros (-> & Hfile & _)%remove_Some Hn. unfold disk_usage, Fs.getsize in *.
  apply bool_decide_eq_true in Hfile as [k Hk]. rewrite Hk in Hn.
  injection Hn as ->. simpl.
  rewrite (map_fold_delete_L _ _ p n (Fs.files f)); [lia| |done].
  intros. lia.
Qed.

Lemma cleanup_entry_bytes g folder cutoff st name :
  disk_usage (fsw_fs (cleanup_entry g folder cutoff st name))
    + size_freed (cleanup_entry g folder cutoff st name)
  = disk_usage (fsw_fs st) + size_freed st.
Proof.
  unfold cleanup_entry.
  destruct (Fs.is_dir _ _); [done|]. destruct (g _) as [m|]; [|done].
  destruct (m <? cutoff); [|done].
  destruct (Fs.getsize _ _) as [n|] eqn:Hn; [|done].
  destruct (Fs.remove _ _) as [f'|] eqn:Hrm; [|done]. simpl.
  rewrite (disk_usage_remove _ _ _ _ Hrm Hn). lia.
Qed.

Lemma folder_loop_bytes g folder cutoff l : forall st,
  disk_usage (fsw_fs (fold_left (cleanup_entry g folder cutoff) l st))
    + size_freed (fold_left (cleanup_entry g folder cutoff) l st)
  = disk_usage (fsw_fs st) + size_freed st.
Proof.
  induction l as [|name l IH]; intros st; simpl; [done|].
  rewrite IH. apply cleanup_entry_bytes.
Qed.

Lemma purge_dir_size st row :
  Fs.dir_size (sw_fs (purge st row)) = Fs.dir_size (sw_fs st).
Proof.
  unfold purge. destruct (storage_path row.2) as [p|]; simpl; [|done].
  destruct (truthy p && _); simpl; [|done].
  destruct (Fs.remove (sw_fs st) p) as [f'|] eqn:Hrm; simpl; [|done].
  by apply remove_Some in Hrm as (-> & _ & _).
Qed.

(** One step of the sweep: the count is exact when [os.remove] succeeds
    on the path of the row, which a directory or a failure rules out; it
    never understates. *)
Lemma purge_bytes st row :
  let st' := purge st row in
  (Fs.locked (sw_fs st) = ∅ ->
   (forall p, storage_path row.2 = Some p -> Fs.is_dir (sw_fs st) p = false) ->
   disk_usage (sw_fs st') + sw_size_freed st' = disk_usage (sw_fs st) + sw_size_freed st) /\
  ((forall p v, Fs.files (sw_fs st) !! p = Some v -> 0 <= v) ->
   (forall p, 0 <= Fs.dir_size (sw_fs st) p) ->
   disk_usage (sw_fs st) + sw_size_freed st <= disk_usage (sw_fs st') + sw_size_freed st').
Proof.
  unfold purge. destruct (storage_path row.2) as [p|]; simpl; [|split; [done|lia]].
  destruct (truthy p && _); simpl; [|split; [done|lia]].
  destruct (Fs.remove (sw_fs st) p) as [f'|] eqn:Hrm; simpl.
  - destruct (Fs.getsize (sw_fs st) p) as [n|] eqn:Hn.
    + rewrite (disk_usage_remove _ _ _ _ Hrm Hn). split; intros; lia.
    + apply remove_Some in Hrm as (_ & Hfile & _).
      apply bool_decide_eq_true in Hfile as [k Hk].
      unfold Fs.getsize in Hn. by rewrite Hk in Hn.
  - apply remove_None in Hrm as [Hnone|Hlocked].
    + unfold Fs.getsize. rewrite Hnone. split.
      * intros _ Hnd. by rewrite (Hnd p eq_refl).
      * intros _ Hds. destruct (Fs.is_dir (sw_fs st) p); [|lia].
        specialize (Hds p). lia.
    + split.
      * intros Hl. rewrite Hl in Hlocked. by apply elem_of_empty in Hlocked.
      * intros Hpos Hds. unfold Fs.getsize.
        destruct (Fs.files (sw_fs st) !! p) as [n|] eqn:Hn.
        { specialize (Hpos p n Hn). lia. }
        destruct (Fs.is_dir (sw_fs st) p); [|lia]. specialize (Hds p). lia.
Qed.

Lemma sweep_bytes l : forall st,
  let st' := fold_left purge l st in
  (Fs.locked (sw_fs st) = ∅ ->
   (forall row p, row ∈ l -> storage_path row.2 = Some p ->
      Fs.is_dir (sw_fs st) p = false) ->
   disk_usage (sw_fs st') + sw_size_freed st' = disk_usage (sw_fs st) + sw_size_freed st) /\
  ((forall p v, Fs.files (sw_fs st) !! p = Some v -> 0 <= v) ->
   (forall p, 0 <= Fs.dir_size (sw_fs st) p) ->
   disk_usage (sw_fs st) + sw_size_freed st <= disk_usage (sw_fs st') + sw_size_freed st').
Proof.
  induction l as [|row l IH]; intros st; simpl; [split; [done|lia]|].
  destruct (IH (purge st row)) as [IH1 IH2].
  destruct (purge_bytes st row) as [P1 P2].
  destruct (purge_dirs st row) as [Hdirs Hlocked]. split.
  - intros Hl Hnd. rewrite IH1.
    + apply P1; [done|]. intros p Hp. apply (Hnd row p); [by left|done].
    + by rewrite Hlocked.
    + intros row' p Hin Hp. unfold Fs.is_dir. rewrite Hdirs.
      apply (Hnd row' p); [by right|done].
  - intros Hpos Hds. etrans; [by apply P2|]. apply IH2.
    + intros p v Hv. apply (Hpos p v). by apply (purge_files_Some st row).
    + intros p. rewrite purge_dir_size. apply Hds.
Qed.

(** X21. The bytes reported as freed.  The [size_freed] that
    [_cleanup_folder] returns is exactly the number of bytes that left
    the disk.  For [cleanup_expired_tasks], when every [storage_path] of
    an expired row is a canonical name: the number it returns is exact
    when no [os.remove] fails and none of these paths is a directory, for
    which [os.path.getsize] answers and [os.remove] raises; in general it
    never understates (the sizes of files and directories being
    non-negative), because the size is added before the attempt to
    remove. *)
Theorem size_freed_accounting fs :
  (forall g folder cutoff,
     let r := _cleanup_folder g folder cutoff fs in
     disk_usage fs = disk_usage (fsw_fs r) + size_freed r) /\
  (forall now db,
     let r := cleanup_expired_tasks now db fs in
     (forall sid t p, db !! sid = Some t -> is_expired now t = true ->
        storage_path t = Some p -> canonical p = true) ->
     (Fs.locked fs = ∅ ->
      (forall sid t p, db !! sid = Some t -> is_expired now t = true ->
         storage_path t = Some p -> Fs.is_dir fs p = false) ->
      disk_usage fs = disk_usage (sw_fs r) + sw_size_freed r) /\
     ((forall p v, Fs.files fs !! p = Some v -> 0 <= v) ->
      (forall p, 0 <= Fs.dir_size fs p) ->
      disk_usage fs <= disk_usage (sw_fs r) + sw_size_freed r)).
Proof.
  split.
  - intros g folder cutoff r. subst r. unfold _cleanup_folder.
    pose proof (folder_loop_bytes g folder cutoff (Fs.listdir fs folder)
                  (FolderSweep fs 0 0)) as H.
    simpl in H. lia.
  - intros now db r _. subst r. rewrite cleanup_expired_tasks_fold.
    destruct (sweep_bytes (expired_rows now db) (Sweep db fs 0 0 [])) as [H1 H2].
    simpl in *. split.
    + intros Hl Hnd. rewrite H1; [lia|done|].
      intros [sid t] p [Hdb He]%elem_of_expired_rows Hp. by apply (Hnd sid t p).
    + intros Hpos Hds. specialize (H2 Hpos Hds). lia.
Qed.

Lemma size_freed_accounting_witness :
  disk_usage Examples.fs0
  = disk_usage (sw_fs (cleanup_expired_tasks 50 Examples.db0 Examples.fs0))
    + sw_size_freed (cleanup_expired_tasks 50 Examples.db0 Examples.fs0).
Proof.
  destruct (proj2 (size_freed_accounting Examples.fs0) 50 Examples.db0) as [Hexact _].
  - intros sid t p Hdb He Hp. by destruct (db0_expired sid t p Hdb He Hp).
  - apply Hexact; [reflexivity|].
    intros sid t p Hdb He Hp. revert Hdb He Hp. unfold Examples.db0. intros Hdb He Hp.
    apply lookup_insert_Some in Hdb as [[<- <-]|[_ Hdb]].
    { injection Hp as <-. vm_compute. reflexivity. }
    apply lookup_insert_Some in Hdb as [[<- <-]|[_ Hdb]]; [discriminate|].
    apply lookup_insert_Some in Hdb as [[<- <-]|[_ Hdb]]; [discriminate|].
    by rewrite lookup_empty in Hdb.
Defined.

(** An expired row that names a directory: its size is counted, and
    nothing leaves the disk. *)
Example size_freed_counts_directory :
  let r := cleanup_expired_tasks 50 MoreExamples.db_dir Examples.fs0 in
  sw_size_freed r = 4096 /\ sw_removed r = 1 /\
  sw_log r = [Unlink_failed "old" "/tmp/a"; Row_deleted "old"] /\
  disk_usage (sw_fs r) = disk_usage Examples.fs0.
Proof. repeat split; vm_compute; reflexivity. Qed.

End accounting_facts.

(** ** What the delegated mode of [force_download] leaves behind *)

Lemma find_None_Forall {A} (f : A -> bool) (l : list A) :
  (forall x, x ∈ l -> f x = false) -> List.find f l = None.
Proof.
  induction l as [|y l IH]; intros H; [done|]. simpl.
  rewrite (H y) by left. apply IH. intros x Hx. apply H. by right.
Qed.

(** X22. A failed delegated download cleans up nothing.  When
    [force_download] hands a registered session to yt-dlp (no direct URL
    that starts with [http]) and yt-dlp raises, or leaves no file whose
    name starts with the stem of the requested file name, the answer is
    500, the registry still holds the session, so the request can be
    repeated, and the temporary directory and every file yt-dlp wrote are
    still on disk. *)
Theorem force_download_ydl_leftovers o sid reg info w :
  pending_downloads w = Some reg -> reg !! sid = Some info ->
  match refreshed_direct_url o info with
  | Some u => truthy u && startswith u "http"
  | None => false
  end = false ->
  let rw := force_download o sid w in
  (forall e, ydl o = Ydl_error e ->
     rw.1 = Response 500 (Text ("Download error: " +:+ e)) /\
     pending_downloads rw.2 = pending_downloads w /\
     tmpdir o ∈ Fs.dirs (fs rw.2) /\
     fs rw.2 = Fs.mkdtemp (fs w) (tmpdir o)) /\
  (forall hooks outputs prepared,
     ydl o = Ydl_ok hooks outputs prepared ->
     let left_ := write_outputs (tmpdir o) outputs (Fs.mkdtemp (fs w) (tmpdir o)) in
     (forall f, f ∈ Fs.listdir left_ (tmpdir o) ->
        startswith f (splitext_stem (i_filename info)) = false) ->
     rw.1 = Response 500 (Text "Download failed") /\
     pending_downloads rw.2 = pending_downloads w /\
     tmpdir o ∈ Fs.dirs (fs rw.2) /\
     fs rw.2 = left_).
Proof.
  intros Hreg Hinfo Hmode rw. subst rw.
  assert (Hdirs : forall outputs f,
            tmpdir o ∈ Fs.dirs f -> tmpdir o ∈ Fs.dirs (write_outputs (tmpdir o) outputs f)).
  { unfold write_outputs. induction outputs as [|out outputs IH]; intros f Hf; [done|].
    simpl. apply IH. simpl. apply elem_of_union. by right. }
  assert (Hmk : tmpdir o ∈ Fs.dirs (Fs.mkdtemp (fs w) (tmpdir o))).
  { simpl. apply elem_of_union. left. by apply elem_of_singleton. }
  assert (Hrun : force_download o sid w
                 = view (force_download_ydl o sid (i_filename info))
                        (fun e => ret (Response 500 (Text ("Download error: " +:+ e)))) w).
  { unfold force_download, view. unfold_M. rewrite Hreg, Hinfo. simpl.
    destruct (refreshed_direct_url o info) as [u|]; [|done]. by rewrite Hmode. }
  rewrite Hrun. unfold view, force_download_ydl. unfold_M. split.
  - intros e ->. simpl. done.
  - intros hooks outputs prepared -> Hnone. simpl.
    rewrite (find_None_Forall _ _ Hnone). simpl.
    split; [done|]. split; [done|]. split; [by apply Hdirs|done].
Qed.

Lemma force_download_ydl_leftovers_witness :
  let rw := force_download (Examples.oracle0 (inl "unused") Examples.no_ydl) "s4"
              MoreExamples.world4 in
  rw.1 = Response 500 (Text "Download error: unsupported URL") /\
  pending_downloads rw.2 = pending_downloads MoreExamples.world4.
Proof.
  destruct (proj1 (force_download_ydl_leftovers
                     (Examples.oracle0 (inl "unused") Examples.no_ydl) "s4"
                     (<["s4" := MoreExamples.page_clip]> ∅) MoreExamples.page_clip
                     MoreExamples.world4 eq_refl eq_refl eq_refl)
              "unsupported URL" eq_refl) as (H1 & H2 & _).
  split; [exact H1|exact H2].
Defined.
